(** * A shallow embedding of martisan's build.py

    The package catalog, the dependency resolver ([resolve_dependencies]),
    the path computations ([prefix], [build_dir], [get_deps_path]), the base
    module file generator and the installation orchestrator
    ([install_version]) of build.py, as Rocq functions.

    Python dicts are association lists with Python's update semantics
    (assignment to an existing key replaces it in place, a new key is
    appended); [None] stands for the raised exception where the Python code
    would raise.  The file system is the list of existing paths; the build
    shell and the archive layout are parameters of the orchestrator. *)

From Stdlib Require Import String Ascii List Bool Arith Lia.
Import ListNotations.
Open Scope list_scope.
Open Scope string_scope.

(** ** Strings and paths *)

Definition slash : ascii := "/"%char.
Definition plus_char : ascii := "+"%char.
(** The double-quote character, kept out of string literals. *)
Definition dq : string := String (ascii_of_nat 34) EmptyString.

Definition starts_with_slash (s : string) : bool :=
  match s with String c _ => Ascii.eqb c slash | EmptyString => false end.

Fixpoint ends_with_slash (s : string) : bool :=
  match s with
  | EmptyString => false
  | String c EmptyString => Ascii.eqb c slash
  | String _ rest => ends_with_slash rest
  end.

(** [os.path.join(a, b)] (posixpath): an absolute [b] discards [a]. *)
Definition join (a b : string) : string :=
  if starts_with_slash b then b
  else if String.eqb a "" || ends_with_slash a then a ++ b
  else a ++ "/" ++ b.

(** [os.path.join(a, b1, ..., bn)]. *)
Definition join_all (a : string) (bs : list string) : string :=
  fold_left join bs a.

(** [s.split('/', 2)]. *)
Fixpoint split_slash (s : string) : option (string * string) :=
  match s with
  | EmptyString => None
  | String c rest =>
      if Ascii.eqb c slash then Some (EmptyString, rest)
      else match split_slash rest with
           | Some (l, r) => Some (String c l, r)
           | None => None
           end
  end.

Definition split_max2 (s : string) : list string :=
  match split_slash s with
  | None => [s]
  | Some (a, r) =>
      match split_slash r with
      | None => [a; r]
      | Some (b, c) => [a; b; c]
      end
  end.

(** [os.path.dirname]: everything before the last slash, trailing slashes
    stripped unless the head is only slashes. *)
Fixpoint last_slash_head (s : string) : option string :=
  match s with
  | EmptyString => None
  | String c rest =>
      match last_slash_head rest with
      | Some h => Some (String c h)
      | None => if Ascii.eqb c slash then Some (String c EmptyString) else None
      end
  end.

Fixpoint all_slashes (s : string) : bool :=
  match s with
  | EmptyString => true
  | String c rest => Ascii.eqb c slash && all_slashes rest
  end.

Fixpoint rstrip_slash (s : string) : string :=
  match s with
  | EmptyString => EmptyString
  | String c rest =>
      let r := rstrip_slash rest in
      if String.eqb r "" && Ascii.eqb c slash then EmptyString else String c r
  end.

Definition dirname (p : string) : string :=
  match last_slash_head p with
  | None => ""
  | Some h => if all_slashes h then h else rstrip_slash h
  end.

(** [str.upper()] on ASCII and [replace('-', '_')]. *)
Definition upper_char (c : ascii) : ascii :=
  let n := nat_of_ascii c in
  if Nat.leb 97 n && Nat.leb n 122 then ascii_of_nat (n - 32) else c.

Fixpoint env_name (s : string) : string :=
  match s with
  | EmptyString => EmptyString
  | String c rest =>
      String (if Ascii.eqb c "-"%char then "_"%char else upper_char c)
             (env_name rest)
  end.

(** ** Python dicts *)

Definition dict (V : Type) := list (string * V).

Fixpoint dict_get {V} (k : string) (d : dict V) : option V :=
  match d with
  | [] => None
  | (k', v) :: d' => if String.eqb k k' then Some v else dict_get k d'
  end.

(** [d[k] = v]: replaces an existing entry in place, else appends. *)
Fixpoint dict_set {V} (k : string) (v : V) (d : dict V) : dict V :=
  match d with
  | [] => [(k, v)]
  | (k', v') :: d' =>
      if String.eqb k k' then (k', v) :: d' else (k', v') :: dict_set k v d'
  end.

(** [d.update(e)]. *)
Definition dict_update {V} (d e : dict V) : dict V :=
  fold_left (fun acc kv => dict_set (fst kv) (snd kv) acc) e d.

Definition dict_mem {V} (k : string) (d : dict V) : bool :=
  match dict_get k d with Some _ => true | None => false end.

(** ** Package descriptors and the catalog *)

(** A package's json data.  A missing key is the empty value the code
    falls back to ([get_data] returns '', [module_env_vars] returns {},
    a missing 'dependencies' is iterated as nothing). *)
Record Package := mkPackage {
  name : string;
  versions_data : list (string * list string);  (* [version, url, ...] *)
  dependencies : list string;
  build : list string;
  category : string;
  description : string;
  url : string;
  keywords : string;
  module_env_vars : dict string;
  module_path_vars : dict (list string)
}.

(** [packages]: module directory name -> package name -> package. *)
Definition catalog := dict (dict Package).

Definition modules : list string := ["Compiler"; "MPI"; "Boost"; "CUDA"; "Python"].

Definition is_module (s : string) : bool :=
  existsb (String.eqb s) modules.

Definition versions (p : Package) : list string := map fst (versions_data p).

Definition has_version (p : Package) (v : string) : bool :=
  String.eqb v "*" || existsb (fun e => String.eqb (fst e) v) (versions_data p).

(** A resolution entry [(module, package, version)]. *)
Definition dep := (string * Package * string)%type.

(** [find_package]; [None] is the falsy [('', Package(), '*')]. *)
Definition find_package (cat : catalog) (s : string) : option dep :=
  let parts := split_max2 s in
  let n := hd "" parts in
  let v := match parts with [_; v] => v | _ => "*" end in
  let fix go (ms : catalog) : option dep :=
    match ms with
    | [] => None
    | (m, bucket) :: ms' =>
        match dict_get n bucket with
        | Some found => if has_version found v then Some (m, found, v) else go ms'
        | None => go ms'
        end
    end in
  go cat.

(** ** The dependency resolver: [Package.resolve_dependencies] *)

(** The four lists [get_deps] fills: module deps, optional module deps,
    deps and optional deps. *)
Record buckets := mkBuckets {
  module_deps : list dep;
  optional_module_deps : list dep;
  deps : list dep;
  optional_deps : list dep
}.

Definition empty_buckets := mkBuckets [] [] [] [].

(** One iteration of the [for dep in self.json_data[name]] loop; [None] is
    the [IndexError] of [dep[0]] on an empty string or the [KeyError] of
    [packages[dep]] for a module without a directory. *)
Definition classify_dep (cat : catalog) (b : buckets) (d : string)
  : option buckets :=
  match d with
  | EmptyString => None
  | String c rest =>
      let optional := Ascii.eqb c plus_char in
      let d' := if optional then rest else d in
      if is_module d' then
        match dict_get d' cat with
        | None => None
        | Some bucket =>
            let cands := map (fun np => (d', snd np, "*")) bucket in
            Some (if optional
                  then mkBuckets (module_deps b) (optional_module_deps b ++ cands)%list
                                 (deps b) (optional_deps b)
                  else mkBuckets (module_deps b ++ cands)%list (optional_module_deps b)
                                 (deps b) (optional_deps b))
        end
      else
        match find_package cat d' with
        | Some t =>
            Some (if optional
                  then mkBuckets (module_deps b) (optional_module_deps b)
                                 (deps b) (optional_deps b ++ [t])%list
                  else mkBuckets (module_deps b) (optional_module_deps b)
                                 (deps b ++ [t])%list (optional_deps b))
        | None => Some b
        end
  end.

Fixpoint classify (cat : catalog) (b : buckets) (ds : list string)
  : option buckets :=
  match ds with
  | [] => Some b
  | d :: ds' =>
      match classify_dep cat b d with
      | Some b' => classify cat b' ds'
      | None => None
      end
  end.

(** The combination part of [get_deps]. *)
Definition combine_buckets (b : buckets) : list (list dep) :=
  let ddeps := map (fun od => od :: deps b) (optional_deps b) in
  let res_deps :=
    match module_deps b with
    | [] => deps b :: ddeps
    | mds =>
        flat_map (fun m => (m :: deps b) :: map (fun d => m :: d) ddeps) mds
    end in
  let res_deps_opt :=
    flat_map (fun m => map (fun r => m :: r) res_deps) (optional_module_deps b) in
  (res_deps ++ res_deps_opt)%list.

Definition get_deps (cat : catalog) (ds : list string) : option (list (list dep)) :=
  match classify cat empty_buckets ds with
  | Some b => Some (combine_buckets b)
  | None => None
  end.

(** [self.build_deps = get_deps('dependencies')]. *)
Definition resolve_dependencies (cat : catalog) (p : Package)
  : option (list (list dep)) :=
  get_deps cat (dependencies p).

(** ** Axis values and the path computations *)

(** The value of an axis variable ([compiler], [mpi], ...) or of an entry of
    [rext_deps]/[ext_deps]: the initial [(None, ['*'])], a tuple
    [(package, versions)], or the one-element list [[(package, [version])]]
    that [extract_package] returns for a concrete version. *)
Inductive slot :=
| SNone
| STuple (p : Package) (vs : list string)
| SList (p : Package) (v : string).

(** [slot[0]] as a condition. *)
Definition slot_truthy (s : slot) : bool :=
  match s with SNone => false | _ => true end.

(** [slot[1]]; [None] is the [IndexError] on the one-element list. *)
Definition slot_versions (s : slot) : option (list string) :=
  match s with
  | SNone => Some ["*"]
  | STuple _ vs => Some vs
  | SList _ _ => None
  end.

(** [slot[0].name()]; [None] is the [AttributeError] on [None] or a tuple. *)
Definition slot_name (s : slot) : option string :=
  match s with STuple p _ => Some (name p) | _ => None end.

(** [deps[k][0].name() + '-' + deps[k][1][0]]. *)
Definition axis_component (s : slot) : option string :=
  match s with
  | STuple p (v :: _) => Some (name p ++ "-" ++ v)
  | _ => None
  end.

(** The axis keys in the order [prefix] and [build_dir] test them. *)
Definition prefix_axis_keys : list string :=
  ["compiler"; "mpi"; "cuda"; "python"; "boost"].

Fixpoint append_axes (path : string) (keys : list string) (d : dict slot)
  : option string :=
  match keys with
  | [] => Some path
  | k :: keys' =>
      match dict_get k d with
      | None => append_axes path keys' d
      | Some s =>
          match axis_component s with
          | Some c => append_axes (join path c) keys' d
          | None => None
          end
      end
  end.

(** [if deps:] followed by the five [if 'axis' in deps] tests. *)
Definition with_axes (path : string) (d : dict slot) : option string :=
  match d with
  | [] => Some path
  | _ => append_axes path prefix_axis_keys d
  end.

(** [Package.prefix(basepath, arch, version, deps)]. *)
Definition prefix (p : Package) (basepath arch version : string) (d : dict slot)
  : option string :=
  match with_axes (join basepath arch) d with
  | Some path => Some (join (join path (name p)) version)
  | None => None
  end.

(** The path [Package.build_dir] computes (it also creates it). *)
Definition build_dir_path (basepath arch : string) (d : dict slot)
  : option string :=
  with_axes (join (join basepath "build") arch) d.

(** [Package.get_deps_path]. *)
Definition get_dir (d : dict slot) (k : string) : option string :=
  match dict_get k d with
  | None => Some ""
  | Some s => axis_component s
  end.

Definition get_deps_path (d : dict slot) : option string :=
  match get_dir d "compiler", get_dir d "cuda", get_dir d "mpi",
        get_dir d "python", get_dir d "boost" with
  | Some c, Some cu, Some m, Some py, Some b =>
      let add acc x := if String.eqb x "" then acc else acc ++ "-" ++ x in
      Some (add (add (add (add c cu) m) py) b)
  | _, _, _, _, _ => None
  end.

(** ** The base module file: [Package.base_modulefile]'s [base_content] *)

Definition q (s : string) : string := dq ++ s ++ dq.

(** The default search-path mappings of [base_modulefile]. *)
Definition default_paths (p : Package) : dict (list string) :=
  [("PATH", ["bin"]);
   ("LD_LIBRARY_PATH", ["lib"; "lib64"]);
   ("MANPATH", ["share/man"]);
   ("INFOPATH", ["share/info"]);
   ("PKG_CONFIG_PATH", ["lib/pkgconfig"]);
   ("PYTHONPATH", ["share/" ++ name p ++ "/python"])].

(** [paths.update(self.module_path_vars())]. *)
Definition merged_paths (p : Package) : dict (list string) :=
  dict_update (default_paths p) (module_path_vars p).

(** The [(variable, directory)] pairs the [for path in paths] loop visits. *)
Definition path_prepends (ps : dict (list string)) : list (string * string) :=
  flat_map (fun kv => map (fun d => (fst kv, d)) (snd kv)) ps.

(** The three lines written for one pair. *)
Definition prepend_block (kd : string * string) : list string :=
  ["if (isDir(pathJoin(base, " ++ q (snd kd) ++ "))) then";
   "   prepend_path(" ++ q (fst kd) ++ ", pathJoin(base, " ++ q (snd kd) ++ "))";
   "end"].

Definition base_content_head (p : Package) (prefix_base : string)
  (ds : list dep) : list string :=
  ["local pkgNameVer  = myModuleFullName()";
   "local pkgName     = myModuleName()";
   "local fullVersion = myModuleVersion()";
   "local base = pathJoin(" ++ q prefix_base ++ ", fullVersion)"]
  ++ map (fun d => let '(_, pk, v) := d in "load(" ++ q (name pk ++ "/" ++ v) ++ ")") ds
  ++ [""; "whatis(" ++ q "Name: " ++ "..pkgName)";
      "whatis(" ++ q "Version: " ++ "..fullVersion)";
      "whatis(" ++ q ("Category: " ++ category p) ++ ")";
      "whatis(" ++ q ("Description: " ++ description p) ++ ")";
      "whatis(" ++ q ("URL: " ++ url p) ++ ")";
      "whatis(" ++ q ("Keywords: " ++ keywords p) ++ ")";
      "";
      "setenv(" ++ q (env_name (name p) ++ "_DIR") ++ ", base)";
      "setenv(" ++ q (env_name (name p) ++ "_ROOT") ++ ", base)";
      ""]
  ++ map (fun ev => "setenv(" ++ q (fst ev) ++ ", pathJoin(base, " ++ q (snd ev) ++ "))")
         (module_env_vars p)
  ++ (match module_env_vars p with [] => [] | _ => [""] end).

Definition base_content_tail : list string :=
  [""; "if (isDir(mpath)) then";
   "   prepend_path(" ++ q "MODULEPATH" ++ ", mpath)";
   "end";
   "local completionFile = pathJoin(base, " ++ q "etc" ++ ", "
     ++ q "bash_completion.d" ++ ", pkgName)";
   "if (isFile(completionFile)) then";
   "   execute {cmd=" ++ q "source " ++ "..completionFile, modeA={" ++ q "load" ++ "}}";
   "end"].

(** [base_content], one list element per written line. *)
Definition base_content (p : Package) (prefix_base : string) (ds : list dep)
  : list string :=
  (base_content_head p prefix_base ds
   ++ flat_map prepend_block (path_prepends (merged_paths p))
   ++ base_content_tail)%list.

(** ** Effects: the file system, the build shell and errors *)

(** One launch of the [/bin/bash -l] build shell. *)
Record shell_run := mkRun {
  run_cwd : string;
  run_env : dict string;
  run_input : list string;
  run_ret : nat
}.

Record state := mkState {
  fs : list string;                      (* existing paths *)
  files : list (string * list string);   (* written files and their lines *)
  runs : list shell_run                  (* build shells, oldest first *)
}.

Inductive exc :=
| KeyError
| IndexError
| AttributeError
| UnsupportedWildcard   (* the [raise Exception(...)] on a wildcard version *)
| RecursionLimit
| IOError               (* [urllib2.URLError] and the socket errors of [read] *)
| UnboundLocalError.    (* [src_dir] unbound in [extract_source] *)

Inductive outcome (A : Type) :=
| Ok (a : A)
| Raise (e : exc)
| Exit (code : nat).
Arguments Ok {A} a.
Arguments Raise {A} e.
Arguments Exit {A} code.

Definition M (A : Type) := state -> outcome A * state.

Definition ret {A} (a : A) : M A := fun st => (Ok a, st).

Definition bind {A B} (m : M A) (k : A -> M B) : M B :=
  fun st =>
    match m st with
    | (Ok a, st') => k a st'
    | (Raise e, st') => (Raise e, st')
    | (Exit c, st') => (Exit c, st')
    end.

Definition raise {A} (e : exc) : M A := fun st => (Raise e, st).
Definition sys_exit {A} (c : nat) : M A := fun st => (Exit c, st).

Declare Scope monad_scope.
Notation "x <- m ;; k" := (bind m (fun x => k))
  (at level 61, m at next level, right associativity) : monad_scope.
Notation "m ;; k" := (bind m (fun _ => k))
  (at level 61, right associativity) : monad_scope.
Open Scope monad_scope.

(** Lift a computation that can raise. *)
Definition lift {A} (e : exc) (o : option A) : M A :=
  match o with Some a => ret a | None => raise e end.

Definition path_exists (p : string) : M bool :=
  fun st => (Ok (existsb (String.eqb p) (fs st)), st).

(** The paths [os.makedirs(p)] creates: every ancestor and [p]. *)
Fixpoint ancestors_aux (acc s : string) : list string :=
  match s with
  | EmptyString => [acc]
  | String c rest =>
      let acc' := acc ++ String c EmptyString in
      if Ascii.eqb c slash
      then ((if String.eqb acc "" then [] else [acc]) ++ ancestors_aux acc' rest)%list
      else ancestors_aux acc' rest
  end.

Definition makedirs (p : string) : M unit :=
  fun st => (Ok tt, mkState (ancestors_aux "" p ++ fs st)%list (files st) (runs st)).

(** [if not os.path.exists(p): os.makedirs(p)]. *)
Definition ensure_dir (p : string) : M unit :=
  b <- path_exists p ;; if b then ret tt else makedirs p.

(** [shutil.rmtree(p)]: [p] and everything below it. *)
Definition rmtree (p : string) : M unit :=
  fun st =>
    (Ok tt, mkState (filter (fun x => negb (String.eqb x p || String.prefix (p ++ "/") x))
                            (fs st))
                    (files st) (runs st)).

Definition write_file (p : string) (content : list string) : M unit :=
  fun st => (Ok tt, mkState (p :: fs st) ((p, content) :: files st) (runs st)).

(** [os.symlink(target, p)]. *)
Definition symlink (p : string) : M unit :=
  fun st => (Ok tt, mkState (p :: fs st) (files st) (runs st)).

(** Decimal rendering of the [src_idx] counter. *)
Fixpoint digits_aux (fuel n : nat) (acc : string) : string :=
  match fuel with
  | 0 => acc
  | S f =>
      let acc' := String (ascii_of_nat (48 + Nat.modulo n 10)) acc in
      if Nat.ltb n 10 then acc' else digits_aux f (Nat.div n 10) acc'
  end.

Definition nat_to_string (n : nat) : string := digits_aux (S n) n "".

(** The last component of [url.split('/')]. *)
Fixpoint last_segment_aux (acc s : string) : string :=
  match s with
  | EmptyString => acc
  | String c rest =>
      if Ascii.eqb c slash then last_segment_aux "" rest
      else last_segment_aux (acc ++ String c EmptyString) rest
  end.

Definition last_segment (s : string) : string := last_segment_aux "" s.

(** ** The installation orchestrator: [Package.install_version] *)

(** The [version] argument: a version string, or the descriptor's
    [[version, url, ...]] entry as [install] passes it. *)
Inductive verarg :=
| VStr (s : string)
| VTup (v : string) (srcs : list string).

(** The lookup at the top of [install_version].  A string that names no
    version stays a string, so [version[0]] is its first character and
    [version[1:]] its other characters; [None] is the [IndexError] of
    [version[0]] on the empty string. *)
Definition normalize_version (p : Package) (v : verarg)
  : option (string * list string) :=
  match v with
  | VTup v0 srcs => Some (v0, srcs)
  | VStr s =>
      match find (fun e => String.eqb (fst e) s) (versions_data p) with
      | Some e => Some e
      | None =>
          match s with
          | EmptyString => None
          | String c rest =>
              Some (String c EmptyString,
                    map (fun ch => String ch EmptyString) (list_ascii_of_string rest))
          end
      end
  end.

(** The variables [compiler], [mpi], [boost], [cuda], [python]. *)
Record axes := mkAxes {
  ax_compiler : slot;
  ax_mpi : slot;
  ax_boost : slot;
  ax_cuda : slot;
  ax_python : slot
}.

Definition init_axes : axes := mkAxes SNone SNone SNone SNone SNone.

(** The [rext_deps] key of a module name; [None] for the [else] branch. *)
Definition axis_key (m : string) : option string :=
  if String.eqb m "Compiler" then Some "compiler"
  else if String.eqb m "MPI" then Some "mpi"
  else if String.eqb m "Boost" then Some "boost"
  else if String.eqb m "CUDA" then Some "cuda"
  else if String.eqb m "Python" then Some "python"
  else None.

Definition set_axis (k : string) (s : slot) (a : axes) : axes :=
  if String.eqb k "compiler" then mkAxes s (ax_mpi a) (ax_boost a) (ax_cuda a) (ax_python a)
  else if String.eqb k "mpi" then mkAxes (ax_compiler a) s (ax_boost a) (ax_cuda a) (ax_python a)
  else if String.eqb k "boost" then mkAxes (ax_compiler a) (ax_mpi a) s (ax_cuda a) (ax_python a)
  else if String.eqb k "cuda" then mkAxes (ax_compiler a) (ax_mpi a) (ax_boost a) s (ax_python a)
  else mkAxes (ax_compiler a) (ax_mpi a) (ax_boost a) (ax_cuda a) s.

(** The local [extract_package]: a tuple for the wildcard, a one-element
    list otherwise. *)
Definition extract_package (pk : Package) (pv : string) : slot :=
  if String.eqb pv "*" then STuple pk (versions pk) else SList pk pv.

(** The [for (module, package, pversion) in deps] loop of one resolution:
    updates the axis variables and [rext_deps], collects [build_deps],
    or raises on a wildcard version of a non-module package. *)
Fixpoint setup (ext : dict slot) (r : list dep) (rext : dict slot) (a : axes)
  (bd : list dep) : exc + (dict slot * axes * list dep) :=
  match r with
  | [] => inr (rext, a, bd)
  | ((m, pk), pv) as t :: r' =>
      match axis_key m with
      | Some k =>
          let v := match dict_get k ext with
                   | Some s => s
                   | None => extract_package pk pv
                   end in
          setup ext r' (dict_set k v rext) (set_axis k v a) bd
      | None =>
          if String.eqb pv "*" then inl UnsupportedWildcard
          else setup ext r' rext a (bd ++ [t])%list
      end
  end.

(** One point of the version product and the [rext_deps] seen there. *)
Record point := mkPoint {
  pt_boost : string;
  pt_cuda : string;
  pt_mpi : string;
  pt_python : string;
  pt_compiler : string;
  pt_deps : dict slot
}.

(** [if axis[0]: rext_deps[k] = (axis[0], [v])]. *)
Definition pin (k : string) (s : slot) (v : string) (r : dict slot) : dict slot :=
  match s with
  | STuple pk _ => dict_set k (STuple pk [v]) r
  | _ => r   (* unreachable for [SList]: its [slot[1]] raised first *)
  end.

(** A [for v in vs] loop threading [rext_deps]. *)
Fixpoint iter (vs : list string) (r : dict slot)
  (body : string -> dict slot -> option (list point * dict slot))
  : option (list point * dict slot) :=
  match vs with
  | [] => Some ([], r)
  | v :: vs' =>
      match body v r with
      | None => None
      | Some (ps, r') =>
          match iter vs' r' body with
          | None => None
          | Some (ps', r'') => Some ((ps ++ ps')%list, r'')
          end
      end
  end.

(** One nesting level: evaluates [slot[1]] on entry, pins on each turn. *)
Definition level (s : slot) (k : string)
  (body : string -> dict slot -> option (list point * dict slot))
  (r : dict slot) : option (list point * dict slot) :=
  match slot_versions s with
  | None => None
  | Some vs => iter vs r (fun v r' => body v (pin k s v r'))
  end.

(** The five nested loops, boost outermost and compiler innermost; [None]
    is the [IndexError] of [slot[1]]. *)
Definition product (a : axes) (r : dict slot) : option (list point * dict slot) :=
  level (ax_boost a) "boost" (fun bv =>
  level (ax_cuda a) "cuda" (fun cuv =>
  level (ax_mpi a) "mpi" (fun mv =>
  level (ax_python a) "python" (fun pyv =>
  level (ax_compiler a) "compiler" (fun cv r' =>
    Some ([mkPoint bv cuv mv pyv cv r'], r')))))) r.

Definition module_load (n v : string) : string := "module load " ++ n ++ "/" ++ v.

(** The command guarding one build step. *)
Definition guard_step (step : string) : string :=
  "__RET=$?; if [ $__RET != 0 ]; then exit $__RET; else " ++ step ++ "; fi".

(** Everything written to the build shell's stdin. *)
Definition shell_input (p : Package) (lines : list string) : list string :=
  (["module purge"] ++ lines ++ ["module list"] ++ map guard_step (build p)
   ++ ["exit $?"])%list.

(** The target of one [install_version] call. *)
Record target := mkTarget {
  t_pkg : Package;
  t_basepath : string;
  t_arch : string;
  t_version : string;
  t_sources : list string;
  t_source_path : string
}.

(** What [urllib2.urlopen(url)] and the [read] loop of [download_source]
    do for a url: [urlopen] raises, a [read] raises, or the file is
    written completely. *)
Inductive download := DlRefused | DlBroken | DlComplete.

(** What a downloaded file is for [extract_source]: a zip file with its
    [namelist()], a tar file with its members' names and whether each is
    a directory ([DIRTYPE]), or neither. *)
Inductive archive :=
| ZipArchive (names : list string)
| TarArchive (members : list (string * bool))
| NoArchive.

Record source_host := mkSourceHost {
  fetch_url : string -> download;
  archive_of : string -> archive
}.

(** [p.rfind(c)]: the index of the last [c], [None] for [-1]. *)
Fixpoint rfind_from (c : ascii) (s : string) (i : nat) (acc : option nat) : option nat :=
  match s with
  | EmptyString => acc
  | String a s' => rfind_from c s' (S i) (if Ascii.eqb a c then Some i else acc)
  end.

Definition rfind (c : ascii) (s : string) : option nat := rfind_from c s 0 None.

(** [os.path.splitext(p)[0]] (posixpath): cut at the last dot when it lies
    after the last slash and the file name before it is not all dots. *)
Definition splitext_root (p : string) : string :=
  match rfind "." p with
  | None => p
  | Some d =>
      let f := match rfind "/" p with None => 0 | Some i => S i end in
      if Nat.leb f d &&
         negb (forallb (fun a => Ascii.eqb a ".") (list_ascii_of_string (substring f (d - f) p)))
      then substring 0 d p
      else p
  end.

(** The [src_dir] of [extract_source]: [IndexError] on an empty member
    list, [UnboundLocalError] (at [os.path.join]) for a file that is
    neither zip nor tar. *)
Definition source_dir_name (fn : string) (a : archive) : exc + string :=
  match a with
  | ZipArchive [] => inl IndexError
  | ZipArchive (n0 :: _) =>
      let d := dirname n0 in
      inr (if String.eqb d "" then splitext_root fn else d)
  | TarArchive [] => inl IndexError
  | TarArchive ((n0, isdir) :: _) =>
      inr (if isdir then n0 else splitext_root (splitext_root fn))
  | NoArchive => inl UnboundLocalError
  end.

Section Orchestrator.

(** The loaded [packages] registry. *)
Variable cat : catalog.
(** [package_path]: the [packages] directory next to build.py. *)
Variable package_path : string.
(** What the network serves for a url and what a downloaded file holds. *)
Variable host : source_host.
(** The build shell: working directory, environment and stdin lines to
    exit code and resulting file system. *)
Variable run_shell : string -> dict string -> list string -> list string
                     -> nat * list string.

Definition touch (p : string) : M unit :=
  fun st => (Ok tt, mkState (p :: fs st) (files st) (runs st)).

(** [download_source]: [urlopen] raising leaves no file; a [read] failing
    after [open(file_name, 'wb')] leaves the partial file. *)
Definition download_source (u dest : string) : M string :=
  let fn := join dest (last_segment u) in
  b <- path_exists fn ;;
  (if b then ret tt
   else match fetch_url host u with
        | DlRefused => raise IOError
        | DlBroken => touch fn ;; raise IOError
        | DlComplete => touch fn
        end) ;;
  ret fn.

(** [extract_source]: [src_dir] from the archive, then [extractall]
    when [os.path.join(source_path, src_dir)] does not exist (the
    extracted tree is represented by that directory). *)
Definition extract_source (source_path fn : string) : M string :=
  match source_dir_name fn (archive_of host fn) with
  | inl e => raise e
  | inr d =>
      let sd := join source_path d in
      b <- path_exists sd ;;
      (if b then ret tt else touch sd) ;;
      ret sd
  end.

(** The [for source in version[1:]] loop building [src_dirs]. *)
Fixpoint fetch_sources (idx : nat) (srcs : list string) (source_path : string)
  : M (dict string) :=
  match srcs with
  | [] => ret []
  | u :: us =>
      fn <- download_source u source_path ;;
      sd <- extract_source source_path fn ;;
      rest <- fetch_sources (S idx) us source_path ;;
      ret (("SRC_DIR" ++ nat_to_string idx, sd) :: rest)
  end.

(** [Package.is_installed]. *)
Definition is_installed (p : Package) (basepath arch v : string) (r : dict slot)
  : M bool :=
  pre <- lift AttributeError (prefix p basepath arch v r) ;;
  path_exists pre.

(** [Package.base_modulefile]: returns the base file and the directory of
    the version entry points. *)
Definition base_modulefile (p : Package) (basepath arch : string)
  (r : dict slot) (bdeps : list dep) : M (string * string) :=
  dd <- lift AttributeError (get_deps_path r) ;;
  let modulefiles := join (join (join basepath arch) "modulefiles") dd in
  pre <- lift AttributeError (prefix p basepath arch "nan" r) ;;
  let prefix_base := dirname pre in
  let base_module_dir :=
    if String.eqb dd "" then join_all modulefiles ["Core"; ".base"; name p]
    else join_all modulefiles [".base"; name p] in
  let base_module := join base_module_dir "generic.lua" in
  let entry :=
    if String.eqb dd "" then join_all modulefiles ["Core"; name p]
    else join modulefiles (name p) in
  b <- path_exists base_module ;;
  if b then ret (base_module, entry)
  else
    ensure_dir base_module_dir ;;
    write_file base_module (base_content p prefix_base bdeps) ;;
    ret (base_module, entry).

(** [Package.write_modulefile]. *)
Definition write_modulefile (p : Package) (basepath arch v : string)
  (r : dict slot) (bdeps : list dep) : M unit :=
  be <- base_modulefile p basepath arch r bdeps ;;
  let entry := snd be in
  ensure_dir entry ;;
  let link := join entry (v ++ ".lua") in
  b <- path_exists link ;;
  if b then ret tt else symlink link.

(** [Popen], the writes to stdin and [shell.wait()]. *)
Definition launch (cwd : string) (env : dict string) (input : list string) : M nat :=
  fun st =>
    let (c, fs') := run_shell cwd env input (fs st) in
    (Ok c, mkState fs' (files st) (runs st ++ [mkRun cwd env input c])%list).

(** [if ret != 0: rmtree(prefix); exit(1)], else the module file. *)
Definition finish_build (tg : target) (r : dict slot) (bdeps : list dep)
  (pre : string) (c : nat) : M unit :=
  if Nat.eqb c 0 then
    write_modulefile (t_pkg tg) (t_basepath tg) (t_arch tg) (t_version tg) r bdeps
  else
    b <- path_exists pre ;;
    (if b then rmtree pre else ret tt) ;;
    sys_exit 1.

Definition run_build (tg : target) (r : dict slot) (bdeps : list dep)
  (env : dict string) (pre : string) (lines : list string) : M unit :=
  c <- launch (t_source_path tg) env (shell_input (t_pkg tg) lines) ;;
  finish_build tg r bdeps pre c.

(** [build_env.update(src_dirs)], [BUILD_DIR] and [PACKAGE_PREFIX]. *)
Definition prepare_env (tg : target) (r : dict slot) (be src_dirs : dict string)
  : M (dict string * string) :=
  let be1 := dict_update be src_dirs in
  bdir <- lift AttributeError (build_dir_path (t_source_path tg) (t_arch tg) r) ;;
  ensure_dir bdir ;;
  let be2 := dict_set "BUILD_DIR" bdir be1 in
  pre <- lift AttributeError (prefix (t_pkg tg) (t_basepath tg) (t_arch tg) (t_version tg) r) ;;
  ret (dict_set "PACKAGE_PREFIX" pre be2, pre).

(** The recursive [install_version] call on a dependency. *)
Definition installer := Package -> string -> dict slot -> M unit.

(** [axis[0].install_version(...)] then the [module load] line naming
    [name_src[0]] ([cuda] for the Boost line, the axis itself otherwise). *)
Definition axis_line (rec : installer) (s name_src : slot) (v : string)
  (r : dict slot) : M (list string) :=
  if slot_truthy s then
    (match s with STuple pk _ => rec pk v r | _ => raise AttributeError end) ;;
    n <- lift AttributeError (slot_name name_src) ;;
    ret [module_load n v]
  else ret [].

Fixpoint ordinary_lines (rec : installer) (bdeps : list dep) (r : dict slot)
  : M (list string) :=
  match bdeps with
  | [] => ret []
  | ((_, pk), pv) :: bdeps' =>
      rec pk pv r ;;
      rest <- ordinary_lines rec bdeps' r ;;
      ret (module_load (name pk) pv :: rest)
  end.

(** The dependency installs and [build_deps_modules]. *)
Definition dep_phase (rec : installer) (a : axes) (bdeps : list dep) (pt : point)
  : M (list string) :=
  let r := pt_deps pt in
  l1 <- axis_line rec (ax_compiler a) (ax_compiler a) (pt_compiler pt) r ;;
  l2 <- axis_line rec (ax_python a) (ax_python a) (pt_python pt) r ;;
  l3 <- axis_line rec (ax_mpi a) (ax_mpi a) (pt_mpi pt) r ;;
  l4 <- axis_line rec (ax_cuda a) (ax_cuda a) (pt_cuda pt) r ;;
  l5 <- axis_line rec (ax_boost a) (ax_cuda a) (pt_boost pt) r ;;
  l6 <- ordinary_lines rec bdeps r ;;
  ret (l1 ++ l2 ++ l3 ++ l4 ++ l5 ++ l6)%list.

(** The body of the innermost loop. *)
Definition point_body (rec : installer) (tg : target) (a : axes)
  (bdeps : list dep) (pt : point) (be : dict string) : M (dict string) :=
  inst <- is_installed (t_pkg tg) (t_basepath tg) (t_arch tg) (t_version tg) (pt_deps pt) ;;
  if inst then ret be
  else
    lines <- dep_phase rec a bdeps pt ;;
    srcd <- fetch_sources 0 (t_sources tg) (t_source_path tg) ;;
    ep <- prepare_env tg (pt_deps pt) be srcd ;;
    run_build tg (pt_deps pt) bdeps (fst ep) (snd ep) lines ;;
    ret (fst ep).

Fixpoint points_loop (rec : installer) (tg : target) (a : axes)
  (bdeps : list dep) (pts : list point) (be : dict string) : M (dict string) :=
  match pts with
  | [] => ret be
  | pt :: pts' =>
      be' <- point_body rec tg a bdeps pt be ;;
      points_loop rec tg a bdeps pts' be'
  end.

(** The [for deps in self.build_deps] loop; [rext_deps] and the axis
    variables live across its iterations, as in the source. *)
Fixpoint res_loop (rec : installer) (tg : target) (ext : dict slot)
  (rs : list (list dep)) (rext : dict slot) (a : axes) (be : dict string)
  : M (dict string) :=
  match rs with
  | [] => ret be
  | r :: rs' =>
      match setup ext r rext a [] with
      | inl e => raise e
      | inr (rext1, a1, bdeps) =>
          match product a1 rext1 with
          | None => raise IndexError
          | Some (pts, rext2) =>
              be' <- points_loop rec tg a1 bdeps pts be ;;
              res_loop rec tg ext rs' rext2 a1 be'
          end
      end
  end.

Definition source_dir (p : Package) (v0 : string) : string :=
  join_all package_path ["source"; name p; v0].

(** [install_version] with its recursive calls abstracted. *)
Definition install_body (rec : installer) (p : Package) (basepath arch : string)
  (v : verarg) (env : dict string) (ext : dict slot) : M unit :=
  match normalize_version p v with
  | None => raise IndexError
  | Some (v0, srcs) =>
      let sp := source_dir p v0 in
      ensure_dir sp ;;
      let be := dict_set "PACKAGE_VERSION" v0 env in
      match resolve_dependencies cat p with
      | None => raise KeyError
      | Some rs =>
          res_loop rec (mkTarget p basepath arch v0 srcs sp) ext rs [] init_axes be ;;
          ret tt
      end
  end.

(** [Package.install_version(basepath, arch, module, version, env,
    ext_deps)]; the [module] argument is unused by the body.  [fuel] bounds
    the recursion depth (Python's recursion limit). *)
Fixpoint install_version (fuel : nat) (p : Package) (basepath arch : string)
  (v : verarg) (env : dict string) (ext : dict slot) : M unit :=
  match fuel with
  | 0 => raise RecursionLimit
  | S n =>
      install_body (fun pk v' r => install_version n pk basepath arch (VStr v') env r)
                   p basepath arch v env ext
  end.

End Orchestrator.

(** ** Concrete catalogs used by the witnesses and counterexamples *)

Definition ex_pkg (n : string) (vs : list string) (ds : list string) : Package :=
  mkPackage n (map (fun v => (v, [])) vs) ds ["./configure"; "make install"]
            "" "" "" "" [] [].

Definition ex_gcc := ex_pkg "gcc" ["9"] [].
Definition ex_openmpi := ex_pkg "openmpi" ["4.0"] [].
Definition ex_zlib := ex_pkg "zlib" ["1.2"] [].
Definition ex_mpich := ex_pkg "mpich" ["3.3"] [].
(** Mandatory Compiler and MPI axes. *)
Definition ex_app := ex_pkg "app" ["1.0"] ["Compiler"; "MPI"].
(** A mandatory and an optional ordinary dependency, declared in that order. *)
Definition ex_tool := ex_pkg "tool" ["2.1"] ["zlib/1.2"; "+mpich/3.3"].
(** An ordinary dependency on a package without wildcard. *)
Definition ex_lib := ex_pkg "lib" ["0.5"] ["zlib"].
(** A package adding a [PATH] mapping of its own. *)
Definition ex_sbinpkg : Package :=
  mkPackage "sbinpkg" [("1.0", [])] [] ["make install"] "" "" "" "" []
            [("PATH", ["sbin"])].

Definition ex_catalog : catalog :=
  [("Compiler", [("gcc", ex_gcc)]);
   ("MPI", [("openmpi", ex_openmpi)]);
   ("Boost", []); ("CUDA", []); ("Python", []);
   ("Libraries", [("zlib", ex_zlib); ("mpich", ex_mpich); ("app", ex_app);
                  ("tool", ex_tool); ("lib", ex_lib); ("sbinpkg", ex_sbinpkg)])].

(** A build shell whose builds succeed and install into [PACKAGE_PREFIX]. *)
Definition ex_shell (cwd : string) (env : dict string) (input : list string)
  (paths : list string) : nat * list string :=
  (0, match dict_get "PACKAGE_PREFIX" env with Some p => p :: paths | None => paths end).

(** A build shell whose builds fail after creating [PACKAGE_PREFIX]. *)
Definition ex_failing_shell (cwd : string) (env : dict string) (input : list string)
  (paths : list string) : nat * list string :=
  (2, match dict_get "PACKAGE_PREFIX" env with Some p => p :: paths | None => paths end).

(** A build shell that succeeds without creating anything. *)
Definition ex_noop_shell (cwd : string) (env : dict string) (input : list string)
  (paths : list string) : nat * list string := (0, paths).

(** Every download completes into a tar file whose first member is the
    directory [src]. *)
Definition ex_host : source_host :=
  mkSourceHost (fun _ => DlComplete) (fun _ => TarArchive [("src", true)]).

Definition ex_state : state := mkState [] [] [].

(** ** Helpers for the statements *)

(** A path as the spec writes it: [b/c1/c2/...]. *)
Definition slash_path (b : string) (cs : list string) : string :=
  fold_left (fun acc c => acc ++ "/" ++ c) cs b.

(** A plain path component: nonempty, no leading or trailing slash. *)
Definition plain (c : string) : Prop :=
  c <> "" /\ starts_with_slash c = false /\ ends_with_slash c = false.

(** The [name-version] components an assignment contributes, in the
    order of [prefix_axis_keys]. *)
Definition axis_comps (keys : list string) (d : dict slot) : list string :=
  flat_map (fun k => match dict_get k d with
                     | Some (STuple pk (v :: _)) => [name pk ++ "-" ++ v]
                     | _ => []
                     end) keys.

(** An AxisAssignment entry: a package with its concrete version. *)
Definition concrete_entry (s : slot) : Prop :=
  exists pk v vs, s = STuple pk (v :: vs) /\ plain (name pk ++ "-" ++ v).

(** The [module load] line the code writes for an axis slot at a
    concrete version; none for an unset axis. *)
Definition axis_load (s : slot) (v : string) : list string :=
  match s with STuple pk _ => [module_load (name pk) v] | _ => [] end.

(** A resolution entry that is not one of the five axes. *)
Definition non_axis (t : dep) : bool :=
  match axis_key (fst (fst t)) with None => true | Some _ => false end.

(** The [module load] line of an ordinary dependency. *)
Definition dep_load (t : dep) : string := module_load (name (snd (fst t))) (snd t).

(** The per-resolution data [res_loop] computes before running the
    points: the axis variables and [build_deps] after the setup loop, and
    the points of the product with their [rext_deps]. *)
Record group := mkGroup {
  g_axes : axes;
  g_bdeps : list dep;
  g_points : list point
}.

(** The pure part of [res_loop]: its groups, in order, and the error
    that stops it, if any. *)
Fixpoint plan (ext : dict slot) (rs : list (list dep)) (rext : dict slot) (a : axes)
  : list group * option exc :=
  match rs with
  | [] => ([], None)
  | r :: rs' =>
      match setup ext r rext a [] with
      | inl e => ([], Some e)
      | inr (rext1, a1, bdeps) =>
          match product a1 rext1 with
          | None => ([], Some IndexError)
          | Some (pts, rext2) =>
              let (gs, e) := plan ext rs' rext2 a1 in (mkGroup a1 bdeps pts :: gs, e)
          end
      end
  end.

(** Running the points of the groups, then the error. *)
Fixpoint run_groups (host : source_host)
  (run_shell : string -> dict string -> list string -> list string -> nat * list string)
  (rec : installer) (tg : target) (gs : list group) (e : option exc)
  (be : dict string) : M (dict string) :=
  match gs with
  | [] => match e with None => ret be | Some x => raise x end
  | g :: gs' =>
      be' <- points_loop host run_shell rec tg (g_axes g) (g_bdeps g) (g_points g) be ;;
      run_groups host run_shell rec tg gs' e be'
  end.

(** The file name [download_source] returns for a url. *)
Definition source_file (sp u : string) : string := join sp (last_segment u).

(** The [rext_deps] keys of the five axes. *)
Definition axis_names : list string := ["compiler"; "mpi"; "boost"; "cuda"; "python"].

(** The axis variable and the version of a point named by a key. *)
Definition get_axis (k : string) (a : axes) : slot :=
  if String.eqb k "compiler" then ax_compiler a
  else if String.eqb k "mpi" then ax_mpi a
  else if String.eqb k "boost" then ax_boost a
  else if String.eqb k "cuda" then ax_cuda a
  else ax_python a.

Definition pt_version (k : string) (pt : point) : string :=
  if String.eqb k "compiler" then pt_compiler pt
  else if String.eqb k "mpi" then pt_mpi pt
  else if String.eqb k "boost" then pt_boost pt
  else if String.eqb k "cuda" then pt_cuda pt
  else pt_python pt.

(** The value the last entry of [l] for axis [k] gives that axis: the
    pinned [ext_deps[k]] when there is one, else [extract_package]. *)
Definition assigned (ext : dict slot) (k : string) (l : list dep) : option slot :=
  fold_left (fun acc (t : dep) =>
               match axis_key (fst (fst t)) with
               | Some k' =>
                   if String.eqb k' k then
                     Some (match dict_get k ext with
                           | Some s => s
                           | None => extract_package (snd (fst t)) (snd t)
                           end)
                   else acc
               | None => acc
               end) l None.

(** The axis variables and [rext_deps] after the entries [l]: each axis
    variable holds its [assigned] value, and [rext_deps] holds that value
    too, except that a tuple may carry other versions (a pinned one). *)
Definition axis_inv (ext : dict slot) (l : list dep) (r : dict slot) (a : axes) : Prop :=
  forall k, In k axis_names ->
    get_axis k a = match assigned ext k l with Some s => s | None => SNone end /\
    match assigned ext k l with
    | Some (STuple pk _) => exists vs, dict_get k r = Some (STuple pk vs)
    | o => dict_get k r = o
    end.

(** Inside [product a] started on [r0]: the key [k] of [r] is unchanged
    from [r0], or pinned to its tuple's package. *)
Definition key_kept (a : axes) (r0 : dict slot) (k : string) (r : dict slot) : Prop :=
  match get_axis k a with
  | STuple pk _ => dict_get k r = dict_get k r0 \/ exists v, dict_get k r = Some (STuple pk [v])
  | _ => dict_get k r = dict_get k r0
  end.

(** The key [k] of [r] pinned to the version [v] of its axis; unchanged
    for an unset axis; impossible for a list slot, whose [slot[1]] raises. *)
Definition key_pinned (a : axes) (r0 : dict slot) (k v : string) (r : dict slot) : Prop :=
  match get_axis k a with
  | STuple pk vs => dict_get k r = Some (STuple pk [v]) /\ In v vs
  | SNone => dict_get k r = dict_get k r0
  | SList _ _ => False
  end.

(** The axes a resolution entry sets in [rext_deps]. *)
Definition sets_axis (k : string) (t : dep) : Prop := axis_key (fst (fst t)) = Some k.

(** Two dicts with the same keys. *)
Definition same_keys {V W} (d1 : dict V) (d2 : dict W) : Prop :=
  forall k, dict_mem k d1 = dict_mem k d2.

(** Every axis variable that is set has its key in [rext_deps]. *)
Definition axes_in (a : axes) (r : dict slot) : Prop :=
  (slot_truthy (ax_compiler a) = true -> dict_mem "compiler" r = true) /\
  (slot_truthy (ax_mpi a) = true -> dict_mem "mpi" r = true) /\
  (slot_truthy (ax_boost a) = true -> dict_mem "boost" r = true) /\
  (slot_truthy (ax_cuda a) = true -> dict_mem "cuda" r = true) /\
  (slot_truthy (ax_python a) = true -> dict_mem "python" r = true).

(** The points a product result carries all have the keys of [R], and so
    does the final [rext_deps]. *)
Definition keeps (R : dict slot) (o : option (list point * dict slot)) : Prop :=
  match o with
  | Some (pts, r2) => (forall pt, In pt pts -> same_keys (pt_deps pt) R) /\ same_keys r2 R
  | None => True
  end.

(** A computation that, when it returns, has only added paths. *)
Definition grows {A} (m : M A) : Prop :=
  forall st a st', m st = (Ok a, st') -> incl (fs st) (fs st').

Definition rec_grows (rec : installer) : Prop :=
  forall pk v r, grows (rec pk v r).

(** ** The command-line check of [main] *)

(** The two [reduce] calls over [command_list = [args.list,
    args.available, args.install, args.uninstall]]: without any command,
    and when the second [reduce] is true, [main] prints a message and
    calls [exit(1)]. *)
Definition check_commands (command_list : list bool) : M unit :=
  if fold_left (fun opt1 opt2 : bool => opt1 || opt2) command_list false then
    if fold_left (fun opt1 opt2 : bool => if opt1 then negb opt2 else opt2) command_list true
    then sys_exit 1
    else ret tt
  else sys_exit 1.

(** ** Helpers for the statements about the resolver and the lookup *)

Definition opt_list {A} (o : option A) : list A :=
  match o with Some x => [x] | None => [] end.

(** An optional pick from a list. *)
Definition opt_in {A} (o : option A) (l : list A) : Prop :=
  match o with Some x => In x l | None => True end.

(** The [name[0]] and the version [find_package] reads from its argument. *)
Definition target_name (s : string) : string := hd "" (split_max2 s).

Definition target_version (s : string) : string :=
  match split_max2 s with [_; v] => v | _ => "*" end.

(** A catalog entry [find_package] accepts for [name[0]] and [version]. *)
Definition bucket_match (n v : string) (bucket : dict Package) : bool :=
  match dict_get n bucket with Some pk => has_version pk v | None => false end.

(** ** [Package.install] *)

Section Commands.

Variable cat : catalog.
Variable package_path : string.
Variable host : source_host.
Variable run_shell : string -> dict string -> list string -> list string
                     -> nat * list string.
(** [os.path.realpath(__file__)]. *)
Variable script : string.

(** [env = os.environ] after [env['COLUMNS'] = '80'] and
    [env['BUILDIT'] = 'python ...']; [os.environ] keeps both keys. *)
Definition install_env (environ : dict string) : dict string :=
  dict_set "BUILDIT" ("python " ++ script) (dict_set "COLUMNS" "80" environ).

(** The [for version in versions] loop. *)
Fixpoint install_seq (fuel : nat) (p : Package) (basepath arch : string)
  (vs : list verarg) (env : dict string) : M unit :=
  match vs with
  | [] => ret tt
  | v :: vs' =>
      install_version cat package_path host run_shell fuel p basepath arch v env [] ;;
      install_seq fuel p basepath arch vs' env
  end.

(** [Package.install(basepath, arch, module, versions)]; an empty
    [versions] is the default [None]: every [[version, url, ...]] entry of
    the descriptor. *)
Definition package_install (fuel : nat) (p : Package) (basepath arch : string)
  (versions : list string) (environ : dict string) : M unit :=
  let env := install_env environ in
  let vs := match versions with
            | [] => map (fun e => VTup (fst e) (snd e)) (versions_data p)
            | _ => map VStr versions
            end in
  install_seq fuel p basepath arch vs env.

(** A [for x in l] loop running [f x]. *)
Fixpoint mseq {A} (f : A -> M unit) (l : list A) : M unit :=
  match l with
  | [] => ret tt
  | x :: l' => f x ;; mseq f l'
  end.

(** The architectures of [install] and [uninstall]: [None] is the
    [raise Exception(...)] of an unknown one, raised before any change. *)
Definition select_archs (architectures : list string) (arch : string)
  : option (list string) :=
  if String.eqb arch "all" then Some architectures
  else if existsb (String.eqb arch) architectures then Some [arch] else None.

(** The top-level [install(basepath, targets, arch)].  Each
    [package.install] call sets [COLUMNS] and [BUILDIT] of [os.environ] to
    the same values, so every call sees [install_env environ]. *)
Definition install_cmd (fuel : nat) (architectures : list string)
  (basepath targets arch : string) (environ : dict string) : option (M unit) :=
  match select_archs architectures arch with
  | None => None
  | Some archs =>
      if String.eqb targets "all" then
        Some (mseq (fun a =>
                mseq (fun mb =>
                  mseq (fun np => package_install fuel (snd np) basepath a [] environ)
                       (snd mb)) cat) archs)
      else
        match find_package cat targets with
        | None => Some (sys_exit 1)
        | Some (_, pk, v) =>
            Some (mseq (fun a =>
                    package_install fuel pk basepath a
                      (if String.eqb v "*" then [] else [v]) environ) archs)
        end
  end.

End Commands.

(** ** Uninstallation: [Package.uninstall_version] *)

(** The exceptions of the uninstall code: the [AttributeError] of [prefix]
    or [get_deps_path], the [IndexError] of [version[0]], and the [OSError]
    of [os.remove] on a missing file. *)
Inductive uexc :=
| UAttributeError
| UIndexError
| UFileNotFound.

(** Its computations, with the state at the point an exception is raised. *)
Definition UM (A : Type) := state -> (A + uexc) * state.

Definition uret {A} (a : A) : UM A := fun st => (inl a, st).

Definition uraise {A} (e : uexc) : UM A := fun st => (inr e, st).

Definition ubind {A B} (m : UM A) (k : A -> UM B) : UM B :=
  fun st =>
    match m st with
    | (inl a, st') => k a st'
    | (inr e, st') => (inr e, st')
    end.

Definition ulift {A} (o : option A) : UM A :=
  match o with Some a => uret a | None => uraise UAttributeError end.

Definition uexists (p : string) : UM bool :=
  fun st => (inl (existsb (String.eqb p) (fs st)), st).

Definition urmtree (p : string) : UM unit := fun st => (inl tt, snd (rmtree p st)).

(** [os.remove(p)]: raises when [p] does not exist. *)
Definition uremove (p : string) : UM unit :=
  fun st =>
    if existsb (String.eqb p) (fs st)
    then (inl tt, mkState (filter (fun x => negb (String.eqb x p)) (fs st))
                          (files st) (runs st))
    else (inr UFileNotFound, st).

(** The body of the innermost loop, for [version[0] = v0]. *)
Definition uninstall_point (p : Package) (basepath arch v0 : string) (deps : dict slot)
  : UM unit :=
  ubind (ulift (prefix p basepath arch v0 deps)) (fun pre =>
  ubind (uexists pre) (fun inst =>
  if inst then
    ubind (ulift (prefix p basepath arch v0 deps)) (fun pre' =>
    ubind (urmtree pre') (fun _ =>
    ubind (ulift (get_deps_path deps)) (fun dd =>
    let deps_dir := if String.eqb dd "" then "Core" else dd in
    uremove (join_all basepath [arch; "modulefiles"; deps_dir; name p; v0 ++ ".lua"]))))
  else uret tt)).

(** The variables [compiler], [mpi], [boost], [cuda], [python] of
    [uninstall_version]. *)
Record uaxes := mkUAxes {
  u_compiler : option Package;
  u_mpi : option Package;
  u_boost : option Package;
  u_cuda : option Package;
  u_python : option Package
}.

(** One turn of the [for (pmodule, ppackage, pversion) in deps] loop; the
    last three tests read the [module] argument, not [pmodule]. *)
Definition uaxis_step (module : string) (a : uaxes) (t : dep) : uaxes :=
  let '(pm, pk, _) := t in
  if String.eqb pm "Compiler" then
    mkUAxes (Some pk) (u_mpi a) (u_boost a) (u_cuda a) (u_python a)
  else if String.eqb pm "MPI" then
    mkUAxes (u_compiler a) (Some pk) (u_boost a) (u_cuda a) (u_python a)
  else if String.eqb module "Boost" then
    mkUAxes (u_compiler a) (u_mpi a) (Some pk) (u_cuda a) (u_python a)
  else if String.eqb module "CUDA" then
    mkUAxes (u_compiler a) (u_mpi a) (u_boost a) (Some pk) (u_python a)
  else if String.eqb module "Python" then
    mkUAxes (u_compiler a) (u_mpi a) (u_boost a) (u_cuda a) (Some pk)
  else a.

Definition uninstall_axes (module : string) (build_deps : list (list dep)) : uaxes :=
  fold_left (fun a r => fold_left (uaxis_step module) r a) build_deps
            (mkUAxes None None None None None).

(** [extract_versions]. *)
Definition extract_versions (o : option Package) : list string :=
  match o with Some pk => versions pk | None => ["*"] end.

(** [if axis: deps[k] = (axis, [v])]. *)
Definition uset (k : string) (o : option Package) (v : string) (d : dict slot)
  : dict slot :=
  match o with Some pk => dict_set k (STuple pk [v]) d | None => d end.

(** A [for v in vs] loop over [deps]: the assignments the innermost body
    sees, in order, and the final [deps]. *)
Fixpoint uiter (vs : list string) (d : dict slot)
  (body : string -> dict slot -> list (dict slot) * dict slot)
  : list (dict slot) * dict slot :=
  match vs with
  | [] => ([], d)
  | v :: vs' =>
      let (ps, d1) := body v d in
      let (ps', d2) := uiter vs' d1 body in
      ((ps ++ ps')%list, d2)
  end.

Definition ulevel (k : string) (o : option Package)
  (body : dict slot -> list (dict slot) * dict slot) (d : dict slot)
  : list (dict slot) * dict slot :=
  uiter (extract_versions o) d (fun v d' => body (uset k o v d')).

(** The five nested loops (boost outermost, compiler innermost); they only
    update [deps], so the effects of the innermost body run over this list
    of assignments, in order. *)
Definition upoints (a : uaxes) (d : dict slot) : list (dict slot) * dict slot :=
  ulevel "boost" (u_boost a) (
  ulevel "cuda" (u_cuda a) (
  ulevel "mpi" (u_mpi a) (
  ulevel "python" (u_python a) (
  ulevel "compiler" (u_compiler a) (fun d' => ([d'], d')))))) d.

Fixpoint useq {A} (f : A -> UM unit) (l : list A) : UM unit :=
  match l with
  | [] => uret tt
  | x :: l' => ubind (f x) (fun _ => useq f l')
  end.

(** [Package.uninstall_version(basepath, arch, module, version, env)] with
    [self.build_deps = build_deps]; the [arch] argument is shadowed by the
    loop over [architectures], and [deps = {}] once per architecture.  The
    version lookup keeps the first matching entry (after it, [version] is a
    list and no longer equals a version string), as [normalize_version]. *)
Definition uninstall_version (architectures : list string) (p : Package)
  (build_deps : list (list dep)) (basepath module : string) (v : verarg) : UM unit :=
  let a := uninstall_axes module build_deps in
  useq (fun arch =>
          useq (fun d =>
                  match normalize_version p v with
                  | Some (v0, _) => uninstall_point p basepath arch v0 d
                  | None => uraise UIndexError
                  end)
               (fst (upoints a [])))
       architectures.

(** ** Helpers for the statements about the build environment *)

(** The keys [install_version] itself sets in the build environment. *)
Definition reserved_key (k : string) : bool :=
  String.eqb k "PACKAGE_VERSION" || String.eqb k "BUILD_DIR" ||
  String.eqb k "PACKAGE_PREFIX" || String.prefix "SRC_DIR" k.

(** [be] has the value of [env] at every other key. *)
Definition agrees (env be : dict string) : Prop :=
  forall k, reserved_key k = false -> dict_get k be = dict_get k env.

(** A computation that, whatever its outcome, only appends build shell
    runs satisfying [Q], and whose value, when it returns one, satisfies
    [P]. *)
Definition run_keeps {A} (Q : shell_run -> Prop) (P : A -> Prop) (m : M A) : Prop :=
  forall st o st', m st = (o, st') ->
    (exists new, runs st' = (runs st ++ new)%list /\ Forall Q new) /\
    (forall a, o = Ok a -> P a).

(** ** Helpers for the statements about the uninstall loops *)

(** The entry [k] of an assignment [deps] for the collected axis [o]: absent
    when [o] is [None], else [(o, [v])] for a version [v] of [o]; with
    [strong = false] the entry may also still be absent. *)
Definition axis_slot (k : string) (o : option Package) (strong : bool) (d : dict slot)
  : Prop :=
  match o with
  | None => dict_get k d = None
  | Some pk => (strong = false /\ dict_get k d = None) \/
               exists v, In v (versions pk) /\ dict_get k d = Some (STuple pk [v])
  end.

Definition axes_slots (a : uaxes) (sb sc sm sp sco : bool) (d : dict slot) : Prop :=
  axis_slot "boost" (u_boost a) sb d /\ axis_slot "cuda" (u_cuda a) sc d /\
  axis_slot "mpi" (u_mpi a) sm d /\ axis_slot "python" (u_python a) sp d /\
  axis_slot "compiler" (u_compiler a) sco d.

(** [Package.uninstall(basepath, arch, module, versions)]; an empty
    [versions] is the default [None]: every entry of the descriptor.  The
    [env] it prepares and [remove_base_module] are unused. *)
Definition package_uninstall (architectures : list string) (p : Package)
  (build_deps : list (list dep)) (basepath module : string) (versions : list string)
  : UM unit :=
  let vs := match versions with
            | [] => map (fun e => VTup (fst e) (snd e)) (versions_data p)
            | _ => map VStr versions
            end in
  useq (uninstall_version architectures p build_deps basepath module) vs.

(** A computation of the uninstall code that only removes paths. *)
Definition ushrinks {A} (m : UM A) : Prop :=
  forall st o st', m st = (o, st') ->
    incl (fs st') (fs st) /\ files st' = files st /\ runs st' = runs st.

(** Every path [m] removes from the file system satisfies [P]. *)
Definition removes_only {A} (P : string -> Prop) (m : UM A) : Prop :=
  forall st o st', m st = (o, st') -> forall x, In x (fs st) -> ~ In x (fs st') -> P x.

(** The paths the innermost step of [uninstall_version] may remove for an
    assignment: its prefix, the paths below it, and its module file. *)
Definition point_path (p : Package) (basepath arch v0 : string) (d : dict slot)
  (x : string) : Prop :=
  exists q, prefix p basepath arch v0 d = Some q /\
    (x = q \/ String.prefix (q ++ "/") x = true \/
     exists dd, get_deps_path d = Some dd /\
       x = join_all basepath [arch; "modulefiles"; if String.eqb dd "" then "Core" else dd;
                              name p; v0 ++ ".lua"]).

(** Once it has returned normally, it returns normally and changes nothing
    in any state that has no path the state it left lacks. *)
Definition usettles (m : UM unit) : Prop :=
  forall st st1 st2, m st = (inl tt, st1) -> incl (fs st2) (fs st1) -> m st2 = (inl tt, st2).

(** Once [m] has returned normally, [m'] returns normally and changes
    nothing in any later state that keeps every path of the state [m]
    left. *)
Definition msettles (m m' : M unit) : Prop :=
  forall st st1 st2, m st = (Ok tt, st1) -> incl (fs st1) (fs st2) -> m' st2 = (Ok tt, st2).

(** ** Path lemmas *)

Lemma ends_with_slash_cons (a : ascii) (s : string) :
  s <> "" -> ends_with_slash (String a s) = ends_with_slash s.
Proof. destruct s; [congruence | reflexivity]. Qed.

Lemma ends_with_slash_app (x c : string) :
  c <> "" -> ends_with_slash (x ++ c) = ends_with_slash c.
Proof.
  intros Hc. induction x as [|a x IH]; [reflexivity|].
  change (String a x ++ c) with (String a (x ++ c)).
  rewrite ends_with_slash_cons; [exact IH|].
  destruct x; simpl; [exact Hc | discriminate].
Qed.

Lemma app_nonempty (x c : string) : c <> "" -> x ++ c <> "".
Proof. destruct x; simpl; [auto | discriminate]. Qed.

Lemma join_plain (x c : string) :
  x <> "" -> ends_with_slash x = false -> starts_with_slash c = false ->
  join x c = x ++ "/" ++ c.
Proof.
  intros Hx Hend Hst. unfold join. rewrite Hst, Hend.
  destruct (String.eqb x "") eqn:E; [apply String.eqb_eq in E; congruence|].
  reflexivity.
Qed.

Lemma slash_step (x c : string) :
  plain c -> x ++ "/" ++ c <> "" /\ ends_with_slash (x ++ "/" ++ c) = false.
Proof.
  intros (Hne & _ & Hend). split.
  - apply app_nonempty. discriminate.
  - rewrite ends_with_slash_app by discriminate.
    change ("/" ++ c) with (String "/"%char c).
    rewrite ends_with_slash_cons by exact Hne. exact Hend.
Qed.

Lemma slash_path_ok (cs : list string) (b : string) :
  b <> "" -> ends_with_slash b = false -> Forall plain cs ->
  slash_path b cs <> "" /\ ends_with_slash (slash_path b cs) = false.
Proof.
  revert b. induction cs as [|c cs IH]; intros b Hb He Hcs; [auto|].
  inversion Hcs; subst. simpl. apply IH; auto; apply slash_step; auto.
Qed.

Lemma join_all_plain (cs : list string) (b : string) :
  b <> "" -> ends_with_slash b = false -> Forall plain cs ->
  fold_left join cs b = slash_path b cs.
Proof.
  revert b. induction cs as [|c cs IH]; intros b Hb He Hcs; [reflexivity|].
  inversion Hcs as [|? ? Hc Hrest]; subst. simpl.
  rewrite join_plain by (auto; apply Hc).
  destruct (slash_step b c Hc) as [H1 H2].
  apply IH; auto.
Qed.

Lemma append_axes_shape (d : dict slot) (keys : list string) (path : string) :
  path <> "" -> ends_with_slash path = false ->
  (forall k s, dict_get k d = Some s -> concrete_entry s) ->
  append_axes path keys d = Some (slash_path path (axis_comps keys d)) /\
  Forall plain (axis_comps keys d).
Proof.
  intros Hp He Hd. revert path Hp He.
  induction keys as [|k keys IH]; intros path Hp He; [split; [reflexivity | constructor]|].
  simpl. destruct (dict_get k d) as [s|] eqn:Hk.
  - destruct (Hd k s Hk) as (pk & v & vs & -> & Hpl). simpl.
    rewrite join_plain by (auto; apply Hpl).
    destruct (slash_step path _ Hpl) as [H1 H2].
    destruct (IH _ H1 H2) as [IH1 IH2]. split; [exact IH1 | constructor; auto].
  - apply IH; auto.
Qed.

Lemma append_axes_ext (d1 d2 : dict slot) (keys : list string) (path : string) :
  (forall k, dict_get k d1 = dict_get k d2) ->
  append_axes path keys d1 = append_axes path keys d2.
Proof.
  intros H. revert path. induction keys as [|k keys IH]; intros path; [reflexivity|].
  simpl. rewrite H. destruct (dict_get k d2) as [s|]; [|apply IH].
  destruct (axis_component s); [apply IH | reflexivity].
Qed.

Lemma with_axes_ext (d1 d2 : dict slot) (path : string) :
  (forall k, dict_get k d1 = dict_get k d2) ->
  with_axes path d1 = with_axes path d2.
Proof.
  intros H. unfold with_axes.
  destruct d1 as [|[k1 v1] d1'], d2 as [|[k2 v2] d2'].
  - reflexivity.
  - specialize (H k2). simpl in H. rewrite String.eqb_refl in H. discriminate.
  - specialize (H k1). simpl in H. rewrite String.eqb_refl in H. discriminate.
  - apply append_axes_ext. exact H.
Qed.

Lemma axis_comps_nil (keys : list string) : axis_comps keys [] = [].
Proof. induction keys; simpl; auto. Qed.

Lemma with_axes_shape (d : dict slot) (path : string) :
  path <> "" -> ends_with_slash path = false ->
  (forall k s, dict_get k d = Some s -> concrete_entry s) ->
  with_axes path d = Some (slash_path path (axis_comps prefix_axis_keys d)) /\
  Forall plain (axis_comps prefix_axis_keys d).
Proof.
  intros Hp He Hd. unfold with_axes. destruct d as [|kv d'].
  - rewrite axis_comps_nil. split; [reflexivity | constructor].
  - apply append_axes_shape; auto.
Qed.

Lemma slash_path_app (b : string) (cs1 cs2 : list string) :
  slash_path b (cs1 ++ cs2) = slash_path (slash_path b cs1) cs2.
Proof. unfold slash_path. apply fold_left_app. Qed.

(** C4.  [prefix] is a function of its arguments alone: it depends on the
    assignment only through its lookups, so the order in which the axes
    were inserted never matters; and for plain path components it is the
    path [basepath/arch/<pkg-ver>/.../name/version] with the axes present
    in the order compiler, mpi, cuda, python, boost. *)
Theorem prefix_canonical_path :
  (forall (p : Package) (basepath arch version : string) (d d' : dict slot),
      (forall k, dict_get k d' = dict_get k d) ->
      prefix p basepath arch version d' = prefix p basepath arch version d) /\
  (forall (p : Package) (basepath arch version : string) (d : dict slot),
      basepath <> "" -> ends_with_slash basepath = false ->
      Forall plain [arch; name p; version] ->
      (forall k s, dict_get k d = Some s -> concrete_entry s) ->
      prefix p basepath arch version d =
        Some (slash_path basepath
                (arch :: axis_comps prefix_axis_keys d ++ [name p; version]))).
Proof.
  split.
  - intros p basepath arch version d d' H. unfold prefix.
    rewrite (with_axes_ext d' d) by exact H. reflexivity.
  - intros p basepath arch version d Hb He Hpl Hd.
    inversion Hpl as [|? ? Harch Hpl2]; subst.
    inversion Hpl2 as [|? ? Hname Hpl3]; subst.
    inversion Hpl3 as [|? ? Hver _]; subst.
    unfold prefix. rewrite join_plain by (auto; apply Harch).
    destruct (slash_step basepath arch Harch) as [H1 H2].
    destruct (with_axes_shape d _ H1 H2 Hd) as [-> Hcomps].
    destruct (slash_path_ok _ _ H1 H2 Hcomps) as [H3 H4].
    set (X := slash_path (basepath ++ "/" ++ arch) (axis_comps prefix_axis_keys d)) in *.
    rewrite (join_plain X (name p)) by (auto; apply Hname).
    destruct (slash_step X _ Hname) as [H5 H6].
    rewrite (join_plain (X ++ "/" ++ name p) version) by (auto; apply Hver).
    subst X.
    change (arch :: axis_comps prefix_axis_keys d ++ [name p; version])%list
      with ([arch] ++ axis_comps prefix_axis_keys d ++ [name p; version])%list.
    rewrite !slash_path_app. reflexivity.
Qed.

(** ** Dict lemmas *)

Lemma dict_get_set {V} (k k' : string) (v : V) (d : dict V) :
  dict_get k (dict_set k' v d) = if String.eqb k k' then Some v else dict_get k d.
Proof.
  induction d as [|[k1 v1] d IH]; simpl.
  - destruct (String.eqb k k'); reflexivity.
  - destruct (String.eqb k' k1) eqn:E1.
    + apply String.eqb_eq in E1; subst k1. simpl.
      destruct (String.eqb k k'); reflexivity.
    + simpl. destruct (String.eqb k k1) eqn:E2; [|exact IH].
      apply String.eqb_eq in E2; subst k1.
      destruct (String.eqb k k') eqn:E3; [|reflexivity].
      apply String.eqb_eq in E3; subst k'. rewrite String.eqb_refl in E1. discriminate.
Qed.

Lemma dict_get_none_notin {V} (k : string) (d : dict V) :
  dict_get k d = None -> ~ In k (map fst d).
Proof.
  induction d as [|[k1 v1] d IH]; simpl; [auto|].
  destruct (String.eqb k k1) eqn:E; [discriminate|].
  apply String.eqb_neq in E. intros H [->|Hin]; [congruence | exact (IH H Hin)].
Qed.

Lemma dict_get_notin {V} (k : string) (d : dict V) :
  ~ In k (map fst d) -> dict_get k d = None.
Proof.
  induction d as [|[k1 v1] d IH]; simpl; [auto|].
  intros H. destruct (String.eqb k k1) eqn:E.
  - apply String.eqb_eq in E. subst. tauto.
  - apply IH. tauto.
Qed.

Lemma dict_get_update {V} (k : string) (d e : dict V) :
  NoDup (map fst e) ->
  dict_get k (dict_update d e) =
    match dict_get k e with Some v => Some v | None => dict_get k d end.
Proof.
  unfold dict_update. revert d.
  induction e as [|[k1 v1] e IH]; intros d Hnd; [reflexivity|].
  simpl in *. inversion Hnd as [|? ? Hnotin Hnd']; subst.
  rewrite IH by exact Hnd'. rewrite dict_get_set.
  destruct (String.eqb k k1) eqn:E.
  - apply String.eqb_eq in E; subst k1.
    rewrite (dict_get_notin k e Hnotin). reflexivity.
  - reflexivity.
Qed.

Lemma map_fst_dict_set {V} (k : string) (v : V) (d : dict V) :
  map fst (dict_set k v d) =
    (if existsb (String.eqb k) (map fst d) then map fst d else map fst d ++ [k])%list.
Proof.
  induction d as [|[k1 v1] d IH]; simpl; [reflexivity|].
  destruct (String.eqb k k1) eqn:E; simpl.
  - apply String.eqb_eq in E; subst. reflexivity.
  - rewrite IH. destruct (existsb (String.eqb k) (map fst d)); reflexivity.
Qed.

Lemma NoDup_dict_set {V} (k : string) (v : V) (d : dict V) :
  NoDup (map fst d) -> NoDup (map fst (dict_set k v d)).
Proof.
  intros H. rewrite map_fst_dict_set.
  destruct (existsb (String.eqb k) (map fst d)) eqn:E; [exact H|].
  apply NoDup_app; [exact H | repeat constructor; simpl; tauto |].
  intros x Hx [->|[]].
  assert (existsb (String.eqb x) (map fst d) = true) as Ht
    by (apply existsb_exists; exists x; split; [exact Hx | apply String.eqb_refl]).
  congruence.
Qed.

Lemma NoDup_dict_update {V} (d e : dict V) :
  NoDup (map fst d) -> NoDup (map fst (dict_update d e)).
Proof.
  unfold dict_update. revert d.
  induction e as [|[k1 v1] e IH]; intros d H; [exact H|].
  simpl. apply IH. apply NoDup_dict_set. exact H.
Qed.

Lemma In_dict_get {V} (k : string) (v : V) (d : dict V) :
  NoDup (map fst d) -> (In (k, v) d <-> dict_get k d = Some v).
Proof.
  induction d as [|[k1 v1] d IH]; intros Hnd; simpl; [split; [tauto | discriminate]|].
  inversion Hnd as [|? ? Hnotin Hnd']; subst.
  destruct (String.eqb k k1) eqn:E.
  - apply String.eqb_eq in E; subst k1. split.
    + intros [H|H]; [congruence|].
      exfalso. apply Hnotin. apply (in_map fst) in H. exact H.
    + intros H. inversion H; subst. auto.
  - apply String.eqb_neq in E. rewrite <- IH by exact Hnd'. split.
    + intros [H|H]; [congruence | exact H].
    + auto.
Qed.

Lemma In_path_prepends (k d : string) (m : dict (list string)) :
  In (k, d) (path_prepends m) <-> exists dirs, In (k, dirs) m /\ In d dirs.
Proof.
  unfold path_prepends. rewrite in_flat_map. split.
  - intros ([k' dirs] & Hin & Hm). apply in_map_iff in Hm.
    destruct Hm as (x & Heq & Hx). inversion Heq; subst. eauto.
  - intros (dirs & Hin & Hd). exists (k, dirs). split; [exact Hin|].
    apply in_map_iff. eauto.
Qed.

Lemma existsb_eqb_false (x : string) (l : list string) :
  existsb (String.eqb x) l = false -> ~ In x l.
Proof.
  intros H Hin. assert (existsb (String.eqb x) l = true) as Ht
    by (apply existsb_exists; exists x; split; [exact Hin | apply String.eqb_refl]).
  congruence.
Qed.

(** C6 (as the code has it).  The prepends of a generated base module file
    cover, for a variable the package declares, exactly the package's
    directories, and for any other variable exactly the default
    directories; each pair is emitted as one guarded block of the file. *)
Theorem base_module_path_prepends (p : Package) (prefix_base : string)
  (ds : list dep) :
  NoDup (map fst (module_path_vars p)) ->
  (forall k d,
      In (k, d) (path_prepends (merged_paths p)) <->
      match dict_get k (module_path_vars p) with
      | Some dirs => In d dirs
      | None => exists dirs, dict_get k (default_paths p) = Some dirs /\ In d dirs
      end) /\
  (forall kd, In kd (path_prepends (merged_paths p)) ->
      exists pre post, base_content p prefix_base ds = (pre ++ prepend_block kd ++ post)%list).
Proof.
  intros Hnd.
  assert (Hdef : NoDup (map fst (default_paths p))).
  { simpl. repeat constructor; simpl; intuition discriminate. }
  assert (Hm : NoDup (map fst (merged_paths p)))
    by (apply NoDup_dict_update; exact Hdef).
  split.
  - intros k d. rewrite In_path_prepends.
    unfold merged_paths at 1.
    split.
    + intros (dirs & Hin & Hd). apply In_dict_get in Hin; [|exact Hm].
      unfold merged_paths in Hin. rewrite dict_get_update in Hin by exact Hnd.
      destruct (dict_get k (module_path_vars p)) as [dirs'|].
      * inversion Hin; subst. exact Hd.
      * eauto.
    + intros H. destruct (dict_get k (module_path_vars p)) as [dirs|] eqn:Hk.
      * exists dirs. split; [|exact H].
        apply In_dict_get; [exact Hm|]. unfold merged_paths.
        rewrite dict_get_update by exact Hnd. rewrite Hk. reflexivity.
      * destruct H as (dirs & Hg & Hd). exists dirs. split; [|exact Hd].
        apply In_dict_get; [exact Hm|]. unfold merged_paths.
        rewrite dict_get_update by exact Hnd. rewrite Hk. exact Hg.
  - intros kd Hin. apply in_split in Hin. destruct Hin as (l1 & l2 & Heq).
    unfold base_content. rewrite Heq, flat_map_app.
    change (flat_map prepend_block (kd :: l2))
      with (prepend_block kd ++ flat_map prepend_block l2)%list.
    exists (base_content_head p prefix_base ds ++ flat_map prepend_block l1)%list.
    exists (flat_map prepend_block l2 ++ base_content_tail)%list.
    rewrite <- !app_assoc. reflexivity.
Qed.

(** C6 counterexample: a package declaring its own [PATH] mapping loses the
    default [PATH -> bin] prepend. *)
Lemma base_module_default_path_dropped :
  In ("PATH", "bin") (path_prepends (default_paths ex_sbinpkg)) /\
  ~ In ("   prepend_path(" ++ q "PATH" ++ ", pathJoin(base, " ++ q "bin" ++ "))")
       (base_content ex_sbinpkg "/opt/apps/x86_64/sbinpkg" []).
Proof.
  split.
  - simpl. auto.
  - apply existsb_eqb_false. vm_compute. reflexivity.
Qed.

(** Witness of C6 on a package adding a [PATH] mapping. *)
Lemma base_module_path_prepends_witness :
  NoDup (map fst (module_path_vars ex_sbinpkg)) /\
  In ("PATH", "sbin") (path_prepends (merged_paths ex_sbinpkg)).
Proof.
  assert (H : NoDup (map fst (module_path_vars ex_sbinpkg)))
    by (simpl; repeat constructor; simpl; tauto).
  split; [exact H|].
  apply (proj1 (base_module_path_prepends ex_sbinpkg "/opt/apps/x86_64/sbinpkg" [] H)).
  simpl. auto.
Defined.

Ltac solve_plain :=
  repeat constructor; unfold plain; repeat split; try discriminate; reflexivity.

(** Witness of C4 on a one-axis assignment. *)
Lemma prefix_canonical_path_witness :
  prefix ex_app "/opt/apps" "x86_64" "1.0" [("compiler", STuple ex_gcc ["9"])] =
  Some (slash_path "/opt/apps" ["x86_64"; "gcc-9"; "app"; "1.0"]).
Proof.
  apply (proj2 prefix_canonical_path); [discriminate | reflexivity | solve_plain |].
  intros k s H. simpl in H. destruct (String.eqb k "compiler"); [|discriminate].
  inversion H; subst. exists ex_gcc, "9", []. split; [reflexivity | solve_plain].
Defined.

(** ** Resolver lemmas *)

(** A mandatory ordinary declaration: nonempty, no [+], not an axis name. *)
Definition plain_decl (s : string) : Prop :=
  exists c rest, s = String c rest /\ c <> plus_char /\ is_module s = false.

(** The catalog entries the ordinary declarations [ds] find, in order. *)
Definition resolved (cat : catalog) (ds : list string) : list dep :=
  flat_map (fun s => match find_package cat s with Some t => [t] | None => [] end) ds.

Lemma classify_app (cat : catalog) (b : buckets) (l1 l2 : list string) :
  classify cat b (l1 ++ l2) =
    match classify cat b l1 with Some b' => classify cat b' l2 | None => None end.
Proof.
  revert b. induction l1 as [|d l1 IH]; intros b; [reflexivity|].
  simpl. destruct (classify_dep cat b d); [apply IH | reflexivity].
Qed.

Lemma classify_plain (cat : catalog) (ds : list string) (b : buckets) :
  Forall plain_decl ds ->
  classify cat b ds =
    Some (mkBuckets (module_deps b) (optional_module_deps b)
                    (deps b ++ resolved cat ds) (optional_deps b)).
Proof.
  revert b. induction ds as [|d ds IH]; intros b Hds.
  - destruct b. simpl. rewrite app_nil_r. reflexivity.
  - inversion Hds as [|? ? (c & rest & -> & Hc & Hm) Hds']; subst.
    simpl. unfold classify_dep.
    destruct (Ascii.eqb c plus_char) eqn:E;
      [apply Ascii.eqb_eq in E; contradiction|].
    rewrite Hm.
    destruct (find_package cat (String c rest)) as [t|] eqn:Hf.
    + rewrite IH by exact Hds'. simpl. rewrite <- app_assoc. reflexivity.
    + rewrite IH by exact Hds'. reflexivity.
Qed.

Lemma resolved_app (cat : catalog) (l1 l2 : list string) :
  resolved cat (l1 ++ l2) = (resolved cat l1 ++ resolved cat l2)%list.
Proof. unfold resolved. apply flat_map_app. Qed.

(** C8.  A package whose declarations are mandatory ordinary ones plus one
    optional ordinary dependency [D] (found in the catalog) gets exactly two
    Resolutions: the mandatory ones, and [D] followed by the mandatory ones. *)
Theorem resolver_single_optional (cat : catalog) (p : Package)
  (pre post : list string) (d : string) (t : dep) :
  dependencies p = (pre ++ String plus_char d :: post)%list ->
  Forall plain_decl (pre ++ post) ->
  is_module d = false ->
  find_package cat d = Some t ->
  resolve_dependencies cat p =
    Some [resolved cat (pre ++ post); t :: resolved cat (pre ++ post)].
Proof.
  intros Hdeps Hplain Hm Hf.
  apply Forall_app in Hplain. destruct Hplain as [Hpre Hpost].
  unfold resolve_dependencies, get_deps. rewrite Hdeps, classify_app.
  rewrite (classify_plain cat pre empty_buckets Hpre).
  cbn [classify classify_dep]. change (Ascii.eqb plus_char plus_char) with true.
  cbv iota beta. rewrite Hm, Hf.
  rewrite (classify_plain cat post _ Hpost). simpl.
  rewrite resolved_app. reflexivity.
Qed.

(** Witness of C8 on [tool], declaring [zlib/1.2] and [+mpich/3.3]. *)
Lemma resolver_single_optional_witness :
  resolve_dependencies ex_catalog ex_tool =
    Some [[("Libraries", ex_zlib, "1.2")];
          [("Libraries", ex_mpich, "3.3"); ("Libraries", ex_zlib, "1.2")]].
Proof.
  apply (resolver_single_optional ex_catalog ex_tool ["zlib/1.2"] [] "mpich/3.3"
           ("Libraries", ex_mpich, "3.3")).
  - reflexivity.
  - constructor; [|constructor].
    exists "z"%char, "lib/1.2". split; [reflexivity|]. split; [discriminate | reflexivity].
  - reflexivity.
  - reflexivity.
Defined.

(** ** Lookup of [name/version] declarations *)

Lemma split_slash_app (n v : string) :
  split_slash n = None -> split_slash (n ++ "/" ++ v) = Some (n, v).
Proof.
  induction n as [|c n IH]; intros H; [reflexivity|].
  simpl in *. destruct (Ascii.eqb c slash); [discriminate|].
  destruct (split_slash n) as [[l r]|]; [discriminate|]. rewrite IH by reflexivity.
  reflexivity.
Qed.

Lemma is_module_slash (s : string) :
  split_slash s <> None -> is_module s = false.
Proof.
  intros H. unfold is_module. simpl.
  repeat match goal with
         | |- context [String.eqb s ?m] =>
             let E := fresh in
             destruct (String.eqb s m) eqn:E;
             [apply String.eqb_eq in E; subst s; simpl in H; congruence|]
         end.
  reflexivity.
Qed.

Lemma find_package_go_none (cat ms : catalog) (n v : string) :
  v <> "*" ->
  (forall m bucket pk, In (m, bucket) ms -> dict_get n bucket = Some pk ->
                       ~ In v (versions pk)) ->
  (fix go (ms : catalog) : option dep :=
     match ms with
     | [] => None
     | (m, bucket) :: ms' =>
         match dict_get n bucket with
         | Some found => if has_version found v then Some (m, found, v) else go ms'
         | None => go ms'
         end
     end) ms = None.
Proof.
  intros Hv H. induction ms as [|[m bucket] ms IH]; [reflexivity|].
  destruct (dict_get n bucket) as [found|] eqn:Hg.
  - assert (has_version found v = false) as ->.
    { unfold has_version.
      destruct (String.eqb v "*") eqn:E; [apply String.eqb_eq in E; contradiction|].
      simpl. apply Bool.not_true_is_false. intros Hex.
      apply existsb_exists in Hex. destruct Hex as ([v' srcs] & Hin & Heq).
      apply String.eqb_eq in Heq. simpl in Heq. subst v'.
      apply (H m bucket found (or_introl eq_refl) Hg).
      unfold versions. apply (in_map fst) in Hin. exact Hin. }
    apply IH. intros m' b' pk Hin. apply (H m' b' pk). right. exact Hin.
  - apply IH. intros m' b' pk Hin. apply (H m' b' pk). right. exact Hin.
Qed.

(** C10 (as the code has it).  A declaration [n/v] with slash-free [n] and
    [v], [v] not the wildcard and not a version of any package called [n],
    finds nothing and is dropped from the resolution, mandatory or
    optional, without any error. *)
Theorem unknown_version_dropped (cat : catalog) (n v : string) :
  split_slash n = None -> split_slash v = None -> v <> "*" ->
  (forall rest, n <> String plus_char rest) ->
  (forall m bucket pk, In (m, bucket) cat -> dict_get n bucket = Some pk ->
                       ~ In v (versions pk)) ->
  find_package cat (n ++ "/" ++ v) = None /\
  (forall pre post,
      get_deps cat (pre ++ (n ++ "/" ++ v)%string :: post)%list =
        get_deps cat (pre ++ post)%list /\
      get_deps cat (pre ++ String plus_char (n ++ "/" ++ v)%string :: post)%list =
        get_deps cat (pre ++ post)%list).
Proof.
  intros Hn Hv Hstar Hplus Hcat.
  assert (Hsplit : split_slash (n ++ "/" ++ v) = Some (n, v)) by (apply split_slash_app; exact Hn).
  assert (Hfind : find_package cat (n ++ "/" ++ v) = None).
  { unfold find_package, split_max2. rewrite Hsplit, Hv. simpl.
    apply find_package_go_none; assumption. }
  assert (Hmod : is_module (n ++ "/" ++ v) = false)
    by (apply is_module_slash; rewrite Hsplit; discriminate).
  split; [exact Hfind|].
  intros pre post. unfold get_deps. rewrite !classify_app.
  destruct (classify cat empty_buckets pre) as [b|]; [|split; reflexivity].
  split.
  - destruct n as [|c n'] eqn:En.
    + change (("" ++ "/" ++ v)) with (String slash v) in *.
      cbn [classify]. unfold classify_dep.
      change (Ascii.eqb slash plus_char) with false. cbv iota beta.
      rewrite Hmod, Hfind. reflexivity.
    + change ((String c n' ++ "/" ++ v)) with (String c (n' ++ "/" ++ v)) in *.
      cbn [classify]. unfold classify_dep.
      destruct (Ascii.eqb c plus_char) eqn:E.
      * apply Ascii.eqb_eq in E. subst c. exfalso. exact (Hplus n' eq_refl).
      * rewrite Hmod, Hfind. reflexivity.
  - cbn [classify]. unfold classify_dep.
    change (Ascii.eqb plus_char plus_char) with true. cbv iota beta.
    rewrite Hmod, Hfind. reflexivity.
Qed.

(** Witness of C10: [zlib/2.0] names a known package at an unknown version. *)
Lemma unknown_version_dropped_witness :
  find_package ex_catalog "zlib/2.0" = None.
Proof.
  apply (proj1 (unknown_version_dropped ex_catalog "zlib" "2.0"
                  eq_refl eq_refl ltac:(discriminate) ltac:(discriminate)
                  ltac:(intros m bucket pk Hin Hg; simpl in Hin;
                        repeat destruct Hin as [Hin|Hin];
                        try (inversion Hin; subst; simpl in Hg;
                             try discriminate; inversion Hg; subst;
                             simpl; intuition discriminate);
                        contradiction))).
Defined.

(** C10 counterexample: the literal version [*] is not in [gcc]'s version
    list, yet [gcc/*] is found. *)
Lemma find_package_explicit_wildcard :
  ~ In "*" (versions ex_gcc) /\
  find_package ex_catalog "gcc/*" = Some ("Compiler", ex_gcc, "*").
Proof.
  split.
  - simpl. intuition discriminate.
  - reflexivity.
Qed.

(** ** Wildcard versions of non-axis dependencies *)

Lemma setup_error_is_wildcard (ext : dict slot) (r : list dep) :
  forall rext a bd e, setup ext r rext a bd = inl e -> e = UnsupportedWildcard.
Proof.
  induction r as [|[[m pk] pv] r IH]; intros rext a bd e H; [discriminate|].
  simpl in H. destruct (axis_key m); [eapply IH; exact H|].
  destruct (String.eqb pv "*"); [congruence | eapply IH; exact H].
Qed.

Lemma setup_wildcard_iff (ext : dict slot) (r : list dep) :
  forall rext a bd,
    setup ext r rext a bd = inl UnsupportedWildcard <->
    exists m pk, In (m, pk, "*") r /\ axis_key m = None.
Proof.
  induction r as [|[[m pk] pv] r IH]; intros rext a bd.
  - simpl. split; [discriminate | intros (? & ? & [] & _)].
  - simpl. destruct (axis_key m) as [k|] eqn:Hk.
    + rewrite IH. split.
      * intros (m' & pk' & Hin & Hk'). eauto.
      * intros (m' & pk' & [Heq|Hin] & Hk').
        -- inversion Heq; subst. congruence.
        -- eauto.
    + destruct (String.eqb pv "*") eqn:Hpv.
      * apply String.eqb_eq in Hpv. subst pv. split; [intros _; eauto | reflexivity].
      * rewrite IH. split.
        -- intros (m' & pk' & Hin & Hk'). eauto.
        -- intros (m' & pk' & [Heq|Hin] & Hk').
           ++ inversion Heq; subst. rewrite String.eqb_refl in Hpv. discriminate.
           ++ eauto.
Qed.

(** C9.  Processing a Resolution raises the wildcard error exactly when it
    holds a non-axis entry with version [*]; that is the only error the
    processing of the entries raises, and it is raised before any point of
    that Resolution is built and ends the whole run (no continuation runs). *)
Theorem wildcard_rejected_at_install :
  (forall ext r rext a bd,
      setup ext r rext a bd = inl UnsupportedWildcard <->
      exists m pk, In (m, pk, "*") r /\ axis_key m = None) /\
  (forall ext r rext a bd e, setup ext r rext a bd = inl e -> e = UnsupportedWildcard) /\
  (forall run_shell host rec tg ext r rs rext a be st m pk B
          (k : dict string -> M B),
      In (m, pk, "*") r -> axis_key m = None ->
      bind (res_loop host run_shell rec tg ext (r :: rs) rext a be) k st =
        (Raise UnsupportedWildcard, st)).
Proof.
  split; [exact setup_wildcard_iff|]. split; [exact setup_error_is_wildcard|].
  intros run_shell host rec tg ext r rs rext a be st m pk B k Hin Hm.
  assert (H : setup ext r rext a [] = inl UnsupportedWildcard)
    by (apply setup_wildcard_iff; eauto).
  unfold bind. simpl. rewrite H. reflexivity.
Qed.

(** Witness of C9: [lib] declares [zlib] without a version; the resolver
    returns the wildcard entry without error, and installing [lib] stops
    with the wildcard error before building anything. *)
Lemma wildcard_rejected_at_install_witness :
  resolve_dependencies ex_catalog ex_lib = Some [[("Libraries", ex_zlib, "*")]] /\
  bind (res_loop ex_host ex_shell (fun _ _ _ => ret tt)
          (mkTarget ex_lib "/opt/apps" "x86_64" "0.5" [] "/src/lib/0.5") []
          [[("Libraries", ex_zlib, "*")]] [] init_axes []) (fun _ => ret tt) ex_state =
    (Raise UnsupportedWildcard, ex_state).
Proof.
  split; [reflexivity|].
  apply (proj2 (proj2 wildcard_rejected_at_install) ex_shell ex_host
           (fun _ _ _ => ret tt) _ [] [("Libraries", ex_zlib, "*")] [] [] init_axes []
           ex_state "Libraries" ex_zlib unit (fun _ => ret tt)).
  - left. reflexivity.
  - reflexivity.
Defined.

(** ** The build environment *)

(** C7 (as the code has it).  The [BUILD_DIR] placed in the build
    environment is [build_dir] of the package's source directory
    [package_path/source/name/version]: the prefix's architecture and axis
    components under [<source dir>/build], not under the base path; the
    [PACKAGE_PREFIX] beside it is the install prefix. *)
Theorem build_dir_env (package_path : string) (p : Package)
  (basepath arch v0 : string) (srcs : list string) (r : dict slot)
  (be srcd : dict string) (st st' : state) (res : dict string * string) :
  prepare_env (mkTarget p basepath arch v0 srcs (source_dir package_path p v0))
              r be srcd st = (Ok res, st') ->
  dict_get "BUILD_DIR" (fst res) =
    build_dir_path (join_all package_path ["source"; name p; v0]) arch r /\
  dict_get "PACKAGE_PREFIX" (fst res) = prefix p basepath arch v0 r.
Proof.
  unfold prepare_env, source_dir. cbn [t_source_path t_arch t_pkg t_basepath t_version].
  destruct (build_dir_path (join_all package_path ["source"; name p; v0]) arch r)
    as [bdir|] eqn:Hb; [|intros H; discriminate H].
  unfold bind at 1. cbn [lift]. unfold ret at 1.
  unfold bind at 1. destruct (ensure_dir bdir st) as [[u| |] st1]; try discriminate.
  destruct (prefix p basepath arch v0 r) as [pre|] eqn:Hp; [|intros H; discriminate H].
  cbn. intros H. inversion H; subst. cbn.
  rewrite !dict_get_set. simpl. split; reflexivity.
Qed.

(** Witness of C7: installing [zlib/1.2] with the packages directory
    [/home/user/martisan/packages]. *)
Lemma build_dir_env_witness :
  match prepare_env
          (mkTarget ex_zlib "/opt/apps" "x86_64" "1.2" []
                    (source_dir "/home/user/martisan/packages" ex_zlib "1.2"))
          [] [] [] ex_state with
  | (Ok res, _) =>
      dict_get "BUILD_DIR" (fst res) =
        build_dir_path "/home/user/martisan/packages/source/zlib/1.2" "x86_64" []
  | _ => False
  end.
Proof.
  destruct (prepare_env
              (mkTarget ex_zlib "/opt/apps" "x86_64" "1.2" []
                        (source_dir "/home/user/martisan/packages" ex_zlib "1.2"))
              [] [] [] ex_state) as [[res| |] st'] eqn:H.
  - exact (proj1 (build_dir_env "/home/user/martisan/packages" ex_zlib "/opt/apps"
                    "x86_64" "1.2" [] [] [] [] ex_state st' res H)).
  - vm_compute in H. discriminate H.
  - vm_compute in H. discriminate H.
Defined.

(** C7 counterexample: with base path [/opt/apps], [BUILD_DIR] lies under
    the packages directory, not under [/opt/apps/build]. *)
Lemma build_dir_not_under_basepath :
  match prepare_env
          (mkTarget ex_zlib "/opt/apps" "x86_64" "1.2" []
                    (source_dir "/home/user/martisan/packages" ex_zlib "1.2"))
          [] [] [] ex_state with
  | (Ok res, _) =>
      dict_get "BUILD_DIR" (fst res) =
        Some "/home/user/martisan/packages/source/zlib/1.2/build/x86_64" /\
      String.prefix "/opt/apps/build" "/home/user/martisan/packages/source/zlib/1.2/build/x86_64"
        = false
  | _ => False
  end.
Proof. vm_compute. split; reflexivity. Qed.

(** C2.  When the build shell of a target exits with a nonzero code, the
    build ends with [exit(1)]; afterwards the target prefix is absent (and,
    when the shell had created it, nothing below it remains), and the exit
    propagates through whatever the orchestration would have run next. *)
Theorem build_failure_rollback
  (run_shell : string -> dict string -> list string -> list string -> nat * list string)
  (tg : target) (r : dict slot) (bdeps : list dep) (env : dict string)
  (pre : string) (lines : list string) (st : state) :
  fst (run_shell (t_source_path tg) env (shell_input (t_pkg tg) lines) (fs st)) <> 0 ->
  exists st',
    run_build run_shell tg r bdeps env pre lines st = (Exit 1, st') /\
    ~ In pre (fs st') /\
    (In pre (snd (run_shell (t_source_path tg) env (shell_input (t_pkg tg) lines) (fs st))) ->
     forall x, In x (fs st') -> String.prefix (pre ++ "/") x = false) /\
    (forall B (k : unit -> M B),
       bind (run_build run_shell tg r bdeps env pre lines) k st = (Exit 1, st')).
Proof.
  intros Hc.
  enough (exists st',
    run_build run_shell tg r bdeps env pre lines st = (Exit 1, st') /\
    ~ In pre (fs st') /\
    (In pre (snd (run_shell (t_source_path tg) env (shell_input (t_pkg tg) lines) (fs st))) ->
     forall x, In x (fs st') -> String.prefix (pre ++ "/") x = false)) as (st' & Hr & H1 & H2).
  { exists st'. split; [exact Hr|]. split; [exact H1|]. split; [exact H2|].
    intros B k. unfold bind at 1. rewrite Hr. reflexivity. }
  unfold run_build, launch, bind at 1.
  destruct (run_shell (t_source_path tg) env (shell_input (t_pkg tg) lines) (fs st))
    as [c fs'] eqn:E.
  simpl in Hc. simpl fst in *. simpl snd in *.
  unfold finish_build.
  destruct (Nat.eqb c 0) eqn:Ec; [apply Nat.eqb_eq in Ec; contradiction|].
  unfold bind, path_exists. cbn [fs].
  destruct (existsb (String.eqb pre) fs') eqn:Hex.
  - eexists. split; [reflexivity|]. simpl.
    split.
    + intros Hin. apply filter_In in Hin. destruct Hin as [_ Hn].
      rewrite String.eqb_refl in Hn. discriminate Hn.
    + intros _ x Hx. apply filter_In in Hx. destruct Hx as [_ Hn].
      destruct (String.prefix (pre ++ "/") x); [|reflexivity].
      rewrite orb_true_r in Hn. discriminate Hn.
  - eexists. split; [reflexivity|]. simpl.
    split.
    + apply existsb_eqb_false. exact Hex.
    + intros Hin. exfalso. exact (existsb_eqb_false _ _ Hex Hin).
Qed.

(** Witness of C2: a build of [zlib/1.2] whose shell creates the prefix and
    exits with 2. *)
Lemma build_failure_rollback_witness :
  fst (ex_failing_shell "/src/zlib" [("PACKAGE_PREFIX", "/opt/apps/x86_64/zlib/1.2")]
         (shell_input ex_zlib []) (fs ex_state)) <> 0 /\
  exists st',
    run_build ex_failing_shell (mkTarget ex_zlib "/opt/apps" "x86_64" "1.2" [] "/src/zlib")
      [] [] [("PACKAGE_PREFIX", "/opt/apps/x86_64/zlib/1.2")] "/opt/apps/x86_64/zlib/1.2" []
      ex_state = (Exit 1, st') /\
    ~ In "/opt/apps/x86_64/zlib/1.2" (fs st').
Proof.
  split; [vm_compute; discriminate|].
  destruct (build_failure_rollback ex_failing_shell
              (mkTarget ex_zlib "/opt/apps" "x86_64" "1.2" [] "/src/zlib")
              [] [] [("PACKAGE_PREFIX", "/opt/apps/x86_64/zlib/1.2")]
              "/opt/apps/x86_64/zlib/1.2" [] ex_state)
    as (st' & H1 & H2 & _ & _).
  - vm_compute. discriminate.
  - exists st'. split; [exact H1 | exact H2].
Defined.

(** ** Module load lines *)

Lemma bind_ok {A B} (m : M A) (k : A -> M B) (st : state) (b : B) (st' : state) :
  bind m k st = (Ok b, st') -> exists a st1, m st = (Ok a, st1) /\ k a st1 = (Ok b, st').
Proof.
  unfold bind. destruct (m st) as [[a| |] st1]; intros H; try discriminate H.
  exists a, st1. split; [reflexivity | exact H].
Qed.

Lemma setup_bdeps (ext : dict slot) (r : list dep) (rext : dict slot) (a : axes)
  (bd0 : list dep) rext1 a1 bd :
  setup ext r rext a bd0 = inr (rext1, a1, bd) -> bd = (bd0 ++ filter non_axis r)%list.
Proof.
  revert rext a bd0. induction r as [|[[m pk] pv] r IH]; intros rext a bd0 H.
  - simpl in H. inversion H. rewrite app_nil_r. reflexivity.
  - simpl in H.
    change (filter non_axis ((m, pk, pv) :: r))
      with (if non_axis (m, pk, pv) then (m, pk, pv) :: filter non_axis r
            else filter non_axis r).
    unfold non_axis at 1. simpl fst. destruct (axis_key m) as [k|] eqn:Ek.
    + exact (IH _ _ _ H).
    + destruct (String.eqb pv "*"); [discriminate H|].
      rewrite (IH _ _ _ H). rewrite <- app_assoc. reflexivity.
Qed.

Lemma axis_line_ok (rec : installer) (s : slot) (v : string) (r : dict slot)
  (st : state) (l : list string) (st' : state) :
  axis_line rec s s v r st = (Ok l, st') -> l = axis_load s v.
Proof.
  unfold axis_line. destruct s as [|pk vs|pk pv]; simpl.
  - intros H. inversion H. reflexivity.
  - intros H. apply bind_ok in H. destruct H as (u & st1 & _ & H).
    inversion H. reflexivity.
  - unfold bind, raise. intros H. discriminate H.
Qed.

Lemma ordinary_lines_ok (rec : installer) (bd : list dep) (r : dict slot)
  (st : state) (l : list string) (st' : state) :
  ordinary_lines rec bd r st = (Ok l, st') -> l = map dep_load bd.
Proof.
  revert st l st'. induction bd as [|[[m pk] pv] bd IH]; intros st l st' H.
  - inversion H. reflexivity.
  - simpl in H. apply bind_ok in H. destruct H as (u & st1 & _ & H).
    apply bind_ok in H. destruct H as (rest & st2 & Hr & H).
    inversion H. rewrite (IH _ _ _ Hr). reflexivity.
Qed.

(** C5 (as the code has it).  For a resolution [r] whose setup gives the
    axes [a] without a Boost package, the [module load] lines of a point
    are those of the compiler, python, mpi and cuda axes that are set, in
    that fixed order, each with the axis package's own name and the
    point's version, followed by one line per ordinary dependency of [r]
    in the order of [r], each with its own name and version. *)
Theorem module_load_order (rec : installer) (ext : dict slot) (r : list dep)
  (rext0 : dict slot) (a0 : axes) (rext1 : dict slot) (a : axes) (bdeps : list dep)
  (pt : point) (st : state) (lines : list string) (st' : state) :
  setup ext r rext0 a0 [] = inr (rext1, a, bdeps) ->
  ax_boost a = SNone ->
  dep_phase rec a bdeps pt st = (Ok lines, st') ->
  lines = (axis_load (ax_compiler a) (pt_compiler pt)
           ++ axis_load (ax_python a) (pt_python pt)
           ++ axis_load (ax_mpi a) (pt_mpi pt)
           ++ axis_load (ax_cuda a) (pt_cuda pt)
           ++ map dep_load (filter non_axis r))%list.
Proof.
  intros Hs Hb H. apply setup_bdeps in Hs. simpl in Hs. subst bdeps.
  unfold dep_phase in H.
  apply bind_ok in H. destruct H as (l1 & s1 & H1 & H).
  apply bind_ok in H. destruct H as (l2 & s2 & H2 & H).
  apply bind_ok in H. destruct H as (l3 & s3 & H3 & H).
  apply bind_ok in H. destruct H as (l4 & s4 & H4 & H).
  apply bind_ok in H. destruct H as (l5 & s5 & H5 & H).
  apply bind_ok in H. destruct H as (l6 & s6 & H6 & H).
  unfold ret in H. inversion H. subst lines.
  rewrite (axis_line_ok _ _ _ _ _ _ _ H1), (axis_line_ok _ _ _ _ _ _ _ H2),
          (axis_line_ok _ _ _ _ _ _ _ H3), (axis_line_ok _ _ _ _ _ _ _ H4),
          (ordinary_lines_ok _ _ _ _ _ _ H6).
  unfold axis_line in H5. rewrite Hb in H5. simpl in H5. inversion H5. reflexivity.
Qed.

(** Witness of C5: the second resolution of [tool], [mpich] then [zlib]. *)
Lemma module_load_order_witness :
  match dep_phase (fun _ _ _ => ret tt) init_axes
          [("Libraries", ex_mpich, "3.3"); ("Libraries", ex_zlib, "1.2")]
          (mkPoint "*" "*" "*" "*" "*" []) ex_state with
  | (Ok lines, _) =>
      lines = map dep_load [("Libraries", ex_mpich, "3.3"); ("Libraries", ex_zlib, "1.2")]
  | _ => False
  end.
Proof.
  destruct (dep_phase (fun _ _ _ => ret tt) init_axes
              [("Libraries", ex_mpich, "3.3"); ("Libraries", ex_zlib, "1.2")]
              (mkPoint "*" "*" "*" "*" "*" []) ex_state) as [[l| |] s] eqn:H.
  - exact (module_load_order (fun _ _ _ => ret tt) []
             [("Libraries", ex_mpich, "3.3"); ("Libraries", ex_zlib, "1.2")]
             [] init_axes [] init_axes
             [("Libraries", ex_mpich, "3.3"); ("Libraries", ex_zlib, "1.2")]
             (mkPoint "*" "*" "*" "*" "*" []) ex_state l s eq_refl eq_refl H).
  - vm_compute in H. discriminate H.
  - vm_compute in H. discriminate H.
Defined.

(** C5 counterexample: [tool] declares [zlib/1.2] before the optional
    [+mpich/3.3]; when its second resolution is built, the build shell
    loads [mpich/3.3] before [zlib/1.2]. *)
Lemma module_load_not_declaration_order :
  dependencies ex_tool = ["zlib/1.2"; "+mpich/3.3"] /\
  nth_error (map run_input (runs (snd (install_version ex_catalog "/pk" ex_host
               ex_noop_shell 5 ex_tool "/opt/apps" "x86_64" (VStr "2.1") [] [] ex_state)))) 4
  = Some (shell_input ex_tool ["module load mpich/3.3"; "module load zlib/1.2"]).
Proof. split; vm_compute; reflexivity. Qed.

(** ** Axis assignments across resolutions *)

Lemma res_loop_plan host run_shell (rec : installer) (tg : target)
  (ext : dict slot) (rs : list (list dep)) (rext : dict slot) (a : axes)
  (be : dict string) (st : state) :
  res_loop host run_shell rec tg ext rs rext a be st =
  run_groups host run_shell rec tg (fst (plan ext rs rext a))
             (snd (plan ext rs rext a)) be st.
Proof.
  revert rext a be st. induction rs as [|r rs IH]; intros rext a be st; simpl.
  - reflexivity.
  - destruct (setup ext r rext a []) as [e|[[rext1 a1] bd]]; [reflexivity|].
    destruct (product a1 rext1) as [[pts rext2]|]; [|reflexivity].
    destruct (plan ext rs rext2 a1) as [gs e] eqn:Ep. simpl.
    unfold bind.
    destruct (points_loop host run_shell rec tg a1 bd pts be st)
      as [[be'| |] st']; try reflexivity.
    rewrite IH, Ep. reflexivity.
Qed.

Lemma dict_mem_set {V} (k k' : string) (v : V) (d : dict V) :
  dict_mem k (dict_set k' v d) = (String.eqb k k' || dict_mem k d)%bool.
Proof. unfold dict_mem. rewrite dict_get_set. destruct (String.eqb k k'); reflexivity. Qed.

Lemma same_keys_refl {V} (d : dict V) : same_keys d d.
Proof. intros k. reflexivity. Qed.

Lemma same_keys_trans {U V W} (d1 : dict U) (d2 : dict V) (d3 : dict W) :
  same_keys d1 d2 -> same_keys d2 d3 -> same_keys d1 d3.
Proof. intros H1 H2 k. rewrite H1. apply H2. Qed.

Lemma pin_same (k : string) (s : slot) (v : string) (r : dict slot) :
  (slot_truthy s = true -> dict_mem k r = true) -> same_keys (pin k s v r) r.
Proof.
  destruct s as [|pk vs|pk pv]; simpl; intros H k'; try reflexivity.
  rewrite dict_mem_set. destruct (String.eqb k' k) eqn:E; [|reflexivity].
  apply String.eqb_eq in E. subst k'. rewrite H by reflexivity. reflexivity.
Qed.

Lemma iter_keeps (R : dict slot) (vs : list string) (r : dict slot)
  (body : string -> dict slot -> option (list point * dict slot)) :
  same_keys r R -> (forall v r', same_keys r' R -> keeps R (body v r')) ->
  keeps R (iter vs r body).
Proof.
  revert r. induction vs as [|v vs IH]; intros r Hr Hb; simpl.
  - split; [intros pt []|exact Hr].
  - specialize (Hb v r Hr) as Hv. destruct (body v r) as [[ps r']|]; [|exact I].
    destruct Hv as [Hps Hr'].
    specialize (IH r' Hr' Hb). destruct (iter vs r' body) as [[ps' r'']|]; [|exact I].
    destruct IH as [Hps' Hr''].
    split; [|exact Hr''].
    intros pt Hin. apply in_app_or in Hin. destruct Hin as [Hin|Hin]; auto.
Qed.

Lemma level_keeps (R : dict slot) (s : slot) (k : string)
  (body : string -> dict slot -> option (list point * dict slot)) (r : dict slot) :
  same_keys r R -> (slot_truthy s = true -> dict_mem k R = true) ->
  (forall v r', same_keys r' R -> keeps R (body v r')) ->
  keeps R (level s k body r).
Proof.
  intros Hr Hk Hb. unfold level. destruct (slot_versions s) as [vs|]; [|exact I].
  apply iter_keeps; [exact Hr|].
  intros v r' Hr'. apply Hb.
  apply same_keys_trans with r'; [|exact Hr'].
  apply pin_same. intros Ht. rewrite Hr'. exact (Hk Ht).
Qed.

Lemma product_keeps (a : axes) (r : dict slot) :
  axes_in a r -> keeps r (product a r).
Proof.
  intros (Hc & Hm & Hb & Hu & Hp). unfold product.
  apply level_keeps; [apply same_keys_refl | exact Hb |].
  intros bv r1 H1. apply level_keeps; [exact H1 | exact Hu |].
  intros cuv r2 H2. apply level_keeps; [exact H2 | exact Hm |].
  intros mv r3 H3. apply level_keeps; [exact H3 | exact Hp |].
  intros pyv r4 H4. apply level_keeps; [exact H4 | exact Hc |].
  intros cv r5 H5. simpl. split; [intros pt [<-|[]]; exact H5 | exact H5].
Qed.

Lemma axes_in_same (a : axes) (r1 r2 : dict slot) :
  same_keys r2 r1 -> axes_in a r1 -> axes_in a r2.
Proof.
  intros Hs (Hc & Hm & Hb & Hu & Hp). unfold axes_in. rewrite !Hs.
  repeat split; assumption.
Qed.

Lemma axes_in_set (m k : string) (v : slot) (a : axes) (r : dict slot) :
  axis_key m = Some k -> axes_in a r -> axes_in (set_axis k v a) (dict_set k v r).
Proof.
  intros Ek (Hc & Hm & Hb & Hu & Hp). unfold axis_key in Ek.
  destruct (String.eqb m "Compiler"); [injection Ek as <-|];
  [|destruct (String.eqb m "MPI"); [injection Ek as <-|];
  [|destruct (String.eqb m "Boost"); [injection Ek as <-|];
  [|destruct (String.eqb m "CUDA"); [injection Ek as <-|];
  [|destruct (String.eqb m "Python"); [injection Ek as <-|discriminate Ek]]]]];
  unfold axes_in; rewrite !dict_mem_set; simpl;
  repeat split; intros Ht; auto; rewrite ?Hc, ?Hm, ?Hb, ?Hu, ?Hp; auto.
Qed.

Lemma setup_keys (ext : dict slot) (r : list dep) (rext : dict slot) (a : axes)
  (bd : list dep) rext1 a1 bd1 :
  setup ext r rext a bd = inr (rext1, a1, bd1) -> axes_in a rext ->
  axes_in a1 rext1 /\
  (forall k, dict_mem k rext1 = true <->
             dict_mem k rext = true \/ exists t, In t r /\ sets_axis k t).
Proof.
  revert rext a bd. induction r as [|[[m pk] pv] r IH]; intros rext a bd H Ha.
  - simpl in H. inversion H; subst. split; [exact Ha|].
    intros k. split; [intros Hk; left; exact Hk|].
    intros [Hk|(t & [] & _)]. exact Hk.
  - simpl in H. destruct (axis_key m) as [k0|] eqn:Ek.
    + apply IH in H; [|apply (axes_in_set m); assumption].
      destruct H as [Ha1 Hk]. split; [exact Ha1|].
      intros k. rewrite Hk, dict_mem_set. split.
      * intros [Hm|(t & Ht & Hs)].
        -- destruct (String.eqb k k0) eqn:E.
           ++ apply String.eqb_eq in E. subst k0. right.
              exists (m, pk, pv). split; [left; reflexivity | exact Ek].
           ++ left. exact Hm.
        -- right. exists t. split; [right; exact Ht | exact Hs].
      * intros [Hm|(t & [<-|Ht] & Hs)].
        -- left. rewrite Hm. apply orb_true_r.
        -- unfold sets_axis in Hs. simpl in Hs. rewrite Ek in Hs.
           injection Hs as ->. left. rewrite String.eqb_refl. reflexivity.
        -- right. exists t. split; assumption.
    + destruct (String.eqb pv "*"); [discriminate H|].
      apply IH in H; [|exact Ha]. destruct H as [Ha1 Hk]. split; [exact Ha1|].
      intros k. rewrite Hk. split.
      * intros [Hm|(t & Ht & Hs)]; [left; exact Hm|].
        right. exists t. split; [right; exact Ht | exact Hs].
      * intros [Hm|(t & [<-|Ht] & Hs)].
        -- left. exact Hm.
        -- unfold sets_axis in Hs. simpl in Hs. congruence.
        -- right. exists t. split; assumption.
Qed.

Lemma plan_keys (ext : dict slot) (rs : list (list dep)) (rext : dict slot) (a : axes)
  gs e (i : nat) (g : group) (pt : point) :
  plan ext rs rext a = (gs, e) -> axes_in a rext ->
  nth_error gs i = Some g -> In pt (g_points g) ->
  forall k, dict_mem k (pt_deps pt) = true <->
            dict_mem k rext = true \/
            exists j r t, j <= i /\ nth_error rs j = Some r /\ In t r /\ sets_axis k t.
Proof.
  revert rext a gs i. induction rs as [|r rs IH]; intros rext a gs i Hp Ha Hn Hin k.
  - simpl in Hp. inversion Hp; subst. destruct i; discriminate Hn.
  - simpl in Hp.
    destruct (setup ext r rext a []) as [x|[[rext1 a1] bd]] eqn:Es;
      [inversion Hp; subst; destruct i; discriminate Hn|].
    destruct (product a1 rext1) as [[pts rext2]|] eqn:Epr;
      [|inversion Hp; subst; destruct i; discriminate Hn].
    destruct (plan ext rs rext2 a1) as [gs' e'] eqn:Ep'.
    inversion Hp; subst gs e.
    destruct (setup_keys _ _ _ _ _ _ _ _ Es Ha) as [Ha1 Hk1].
    pose proof (product_keeps a1 rext1 Ha1) as Hkp. rewrite Epr in Hkp.
    destruct Hkp as [Hpts Hr2].
    destruct i as [|i].
    + simpl in Hn. injection Hn as <-. simpl in Hin.
      rewrite (Hpts pt Hin), Hk1. split.
      * intros [Hm|(t & Ht & Hs)]; [left; exact Hm|].
        right. exists 0, r, t. repeat split; first [assumption | lia | reflexivity].
      * intros [Hm|(j & r' & t & Hj & Hj' & Ht & Hs)]; [left; exact Hm|].
        destruct j; [|lia]. simpl in Hj'. injection Hj' as <-.
        right. exists t. split; assumption.
    + simpl in Hn.
      rewrite (IH rext2 a1 gs' i Ep' (axes_in_same _ _ _ Hr2 Ha1) Hn Hin k).
      rewrite (Hr2 k), Hk1. split.
      * intros [[Hm|(t & Ht & Hs)]|(j & r' & t & Hj & Hj' & Ht & Hs)].
        -- left. exact Hm.
        -- right. exists 0, r, t. repeat split; first [assumption | lia | reflexivity].
        -- right. exists (S j), r', t. repeat split; first [assumption | lia | reflexivity].
      * intros [Hm|(j & r' & t & Hj & Hj' & Ht & Hs)].
        -- left. left. exact Hm.
        -- destruct j as [|j].
           ++ simpl in Hj'. injection Hj' as <-. left. right. exists t. split; assumption.
           ++ right. exists j, r', t. repeat split; first [assumption | lia | reflexivity].
Qed.

Lemma iter_inv (I : dict slot -> Prop) (Pt : point -> Prop) (vs : list string)
  (r : dict slot) (body : string -> dict slot -> option (list point * dict slot)) pts r2 :
  iter vs r body = Some (pts, r2) -> I r ->
  (forall v r' ps r'', In v vs -> I r' -> body v r' = Some (ps, r'') -> I r'' /\ Forall Pt ps) ->
  I r2 /\ Forall Pt pts.
Proof.
  revert r pts. induction vs as [|v vs IH]; intros r pts H Hr Hb; simpl in H.
  - injection H as <- <-. split; [exact Hr | constructor].
  - destruct (body v r) as [[ps r']|] eqn:E1; [|discriminate].
    destruct (iter vs r' body) as [[ps' r'']|] eqn:E2; [|discriminate].
    injection H as <- <-.
    destruct (Hb v r ps r' (or_introl eq_refl) Hr E1) as [Hr' Hps].
    destruct (IH r' ps' E2 Hr' (fun v0 a b c Hv => Hb v0 a b c (or_intror Hv))) as [Hr'' Hps'].
    split; [exact Hr'' | apply Forall_app; split; assumption].
Qed.

Lemma level_inv (I : dict slot -> Prop) (Pt : point -> Prop) (s : slot) (k : string)
  (body : string -> dict slot -> option (list point * dict slot)) (r : dict slot) pts r2 :
  level s k body r = Some (pts, r2) -> I r ->
  (forall vs, slot_versions s = Some vs -> forall v r' ps r'', In v vs -> I r' ->
     body v (pin k s v r') = Some (ps, r'') -> I r'' /\ Forall Pt ps) ->
  I r2 /\ Forall Pt pts.
Proof.
  unfold level. destruct (slot_versions s) as [vs|] eqn:Ev; [|discriminate].
  intros H Hr Hb. eapply iter_inv; [exact H | exact Hr|].
  intros v r' ps r'' Hv Hr' Hbody. exact (Hb vs eq_refl v r' ps r'' Hv Hr' Hbody).
Qed.

Lemma pin_other (k k' : string) (s : slot) (v : string) (r : dict slot) :
  String.eqb k k' = false -> dict_get k (pin k' s v r) = dict_get k r.
Proof. intros E. destruct s; simpl; try reflexivity. rewrite dict_get_set, E. reflexivity. Qed.

Lemma key_kept_pin_other a r0 (k k' : string) (s : slot) (v : string) (r : dict slot) :
  String.eqb k k' = false -> key_kept a r0 k r -> key_kept a r0 k (pin k' s v r).
Proof. intros E. unfold key_kept. rewrite (pin_other k k' s v r E). auto. Qed.

Lemma key_pinned_pin_other a r0 (k k' v : string) (s : slot) (v' : string) (r : dict slot) :
  String.eqb k k' = false -> key_pinned a r0 k v r -> key_pinned a r0 k v (pin k' s v' r).
Proof. intros E. unfold key_pinned. rewrite (pin_other k k' s v' r E). auto. Qed.

Lemma key_pinned_kept a r0 (k v : string) (r : dict slot) :
  key_pinned a r0 k v r -> key_kept a r0 k r.
Proof.
  unfold key_pinned, key_kept. destruct (get_axis k a); try tauto.
  intros [H _]. right. exists v. exact H.
Qed.

Lemma key_pinned_enter a r0 (k : string) vs (v : string) (r : dict slot) :
  slot_versions (get_axis k a) = Some vs -> In v vs -> key_kept a r0 k r ->
  key_pinned a r0 k v (pin k (get_axis k a) v r).
Proof.
  unfold key_pinned, key_kept. destruct (get_axis k a) as [|pk vs0|pk pv]; simpl.
  - intros _ _ H. exact H.
  - intros E Hv _. injection E as <-. rewrite dict_get_set, String.eqb_refl. split; auto.
  - discriminate.
Qed.

(** The points of [product] and the [rext_deps] it leaves, key by key. *)
Lemma product_pins (a : axes) (r0 : dict slot) pts r2 :
  product a r0 = Some (pts, r2) ->
  (forall k, In k axis_names -> key_kept a r0 k r2) /\
  Forall (fun pt => forall k, In k axis_names -> key_pinned a r0 k (pt_version k pt) (pt_deps pt))
         pts.
Proof.
  set (Base := fun r => forall k, In k axis_names -> key_kept a r0 k r).
  set (Pt := fun pt : point =>
         forall k, In k axis_names -> key_pinned a r0 k (pt_version k pt) (pt_deps pt)).
  assert (HB : Base r0) by (intros k _; unfold key_kept; destruct (get_axis k a); auto).
  assert (Benter : forall k vs v r, In k axis_names ->
            slot_versions (get_axis k a) = Some vs -> In v vs -> Base r ->
            Base (pin k (get_axis k a) v r) /\ key_pinned a r0 k v (pin k (get_axis k a) v r)).
  { intros k vs v r Hk Ev Hv Hr. split.
    - intros k' Hk'. destruct (String.eqb k' k) eqn:E.
      + apply String.eqb_eq in E. subst k'.
        apply key_pinned_kept with v. apply key_pinned_enter with vs; auto.
      + apply key_kept_pin_other; auto.
    - apply key_pinned_enter with vs; auto. }
  intros H. unfold product in H.
  change (ax_boost a) with (get_axis "boost" a) in H.
  change (ax_cuda a) with (get_axis "cuda" a) in H.
  change (ax_mpi a) with (get_axis "mpi" a) in H.
  change (ax_python a) with (get_axis "python" a) in H.
  change (ax_compiler a) with (get_axis "compiler" a) in H.
  eapply level_inv with (I := Base); [exact H | exact HB|].
  intros vs1 Ev1 bv q1 ps1 q1' Hv1 Hr1 H1.
  destruct (Benter "boost" vs1 bv q1 ltac:(simpl; tauto) Ev1 Hv1 Hr1) as [B1 P1].
  set (Pb := key_pinned a r0 "boost" bv).
  eapply level_inv with (I := fun r => Base r /\ Pb r) in H1;
    [destruct H1 as [[Hi _] Hf]; split; [exact Hi | exact Hf] | split; assumption|].
  intros vs2 Ev2 cuv q2 ps2 q2' Hv2 [Hr2 Q1] H2.
  destruct (Benter "cuda" vs2 cuv q2 ltac:(simpl; tauto) Ev2 Hv2 Hr2) as [B2 P2].
  set (Pc := key_pinned a r0 "cuda" cuv).
  eapply level_inv with (I := fun r => (Base r /\ Pb r) /\ Pc r) in H2;
    [destruct H2 as [[Hi _] Hf]; split; [exact Hi | exact Hf]
    | split; [split|]; [exact B2 | apply key_pinned_pin_other; [reflexivity | exact Q1] | exact P2]|].
  intros vs3 Ev3 mv q3 ps3 q3' Hv3 [[Hr3 Q2] Q3] H3.
  destruct (Benter "mpi" vs3 mv q3 ltac:(simpl; tauto) Ev3 Hv3 Hr3) as [B3 P3].
  set (Pm := key_pinned a r0 "mpi" mv).
  eapply level_inv with (I := fun r => ((Base r /\ Pb r) /\ Pc r) /\ Pm r) in H3;
    [destruct H3 as [[Hi _] Hf]; split; [exact Hi | exact Hf]
    | split; [split; [split|]|];
      [exact B3 | apply key_pinned_pin_other; [reflexivity | exact Q2]
      | apply key_pinned_pin_other; [reflexivity | exact Q3] | exact P3]|].
  intros vs4 Ev4 pyv q4 ps4 q4' Hv4 [[[Hr4 Q4] Q5] Q6] H4.
  destruct (Benter "python" vs4 pyv q4 ltac:(simpl; tauto) Ev4 Hv4 Hr4) as [B4 P4].
  set (Ppy := key_pinned a r0 "python" pyv).
  eapply level_inv with (I := fun r => (((Base r /\ Pb r) /\ Pc r) /\ Pm r) /\ Ppy r) in H4;
    [destruct H4 as [[Hi _] Hf]; split; [exact Hi | exact Hf]
    | split; [split; [split; [split|]|]|];
      [exact B4 | apply key_pinned_pin_other; [reflexivity | exact Q4]
      | apply key_pinned_pin_other; [reflexivity | exact Q5]
      | apply key_pinned_pin_other; [reflexivity | exact Q6] | exact P4]|].
  intros vs5 Ev5 cv q5 ps5 q5' Hv5 [[[[Hr5 Q7] Q8] Q9] Q10] H5.
  destruct (Benter "compiler" vs5 cv q5 ltac:(simpl; tauto) Ev5 Hv5 Hr5) as [B5 P5].
  injection H5 as <- <-.
  split.
  - split; [split; [split; [split|]|]|];
      [exact B5 | apply key_pinned_pin_other; [reflexivity | assumption] ..].
  - constructor; [|constructor].
    intros k Hk. simpl in Hk.
    destruct Hk as [<-|[<-|[<-|[<-|[<-|[]]]]]]; unfold pt_version; simpl pt_deps;
      simpl pt_compiler; simpl pt_mpi; simpl pt_boost; simpl pt_cuda; simpl pt_python;
      simpl String.eqb; cbv iota.
    + exact P5.
    + apply key_pinned_pin_other; [reflexivity | exact Q9].
    + apply key_pinned_pin_other; [reflexivity | exact Q7].
    + apply key_pinned_pin_other; [reflexivity | exact Q8].
    + apply key_pinned_pin_other; [reflexivity | exact Q10].
Qed.

Lemma axis_key_names (m k : string) : axis_key m = Some k -> In k axis_names.
Proof.
  unfold axis_key.
  destruct (String.eqb m "Compiler"); [intros E; injection E as <-; simpl; tauto|].
  destruct (String.eqb m "MPI"); [intros E; injection E as <-; simpl; tauto|].
  destruct (String.eqb m "Boost"); [intros E; injection E as <-; simpl; tauto|].
  destruct (String.eqb m "CUDA"); [intros E; injection E as <-; simpl; tauto|].
  destruct (String.eqb m "Python"); [intros E; injection E as <-; simpl; tauto|].
  discriminate.
Qed.

Lemma get_set_axis (k k' : string) (v : slot) (a : axes) :
  In k axis_names -> In k' axis_names ->
  get_axis k (set_axis k' v a) = if String.eqb k k' then v else get_axis k a.
Proof.
  intros Hk Hk'. simpl in Hk, Hk'.
  destruct Hk as [<-|[<-|[<-|[<-|[<-|[]]]]]];
  destruct Hk' as [<-|[<-|[<-|[<-|[<-|[]]]]]]; reflexivity.
Qed.

Lemma assigned_snoc (ext : dict slot) (k : string) (l : list dep) (t : dep) :
  assigned ext k (l ++ [t])%list =
  match axis_key (fst (fst t)) with
  | Some k' =>
      if String.eqb k' k then
        Some (match dict_get k ext with
              | Some s => s
              | None => extract_package (snd (fst t)) (snd t)
              end)
      else assigned ext k l
  | None => assigned ext k l
  end.
Proof. unfold assigned. rewrite fold_left_app. reflexivity. Qed.

Lemma setup_inv (ext : dict slot) (r : list dep) (rext : dict slot) (a : axes)
  (bd : list dep) (l : list dep) rext1 a1 bd1 :
  setup ext r rext a bd = inr (rext1, a1, bd1) -> axis_inv ext l rext a ->
  axis_inv ext (l ++ r)%list rext1 a1.
Proof.
  revert l rext a bd. induction r as [|[[m pk] pv] r IH]; intros l rext a bd H Hi.
  - simpl in H. injection H as <- <- _. rewrite app_nil_r. exact Hi.
  - simpl in H.
    change (axis_inv ext (l ++ [(m, pk, pv)] ++ r)%list rext1 a1). rewrite app_assoc.
    destruct (axis_key m) as [k0|] eqn:Ek.
    + apply (IH _ _ _ _ H). intros k Hk.
      pose proof (axis_key_names m k0 Ek) as Hk0.
      rewrite assigned_snoc. simpl fst. simpl snd. rewrite Ek.
      rewrite get_set_axis by assumption. rewrite dict_get_set.
      destruct (String.eqb k0 k) eqn:E.
      * apply String.eqb_eq in E. subst k0. rewrite String.eqb_refl.
        destruct (match dict_get k ext with Some s => s | None => extract_package pk pv end)
          as [|pk' vs'|pk' v']; split; eauto.
      * assert (E' : String.eqb k k0 = false)
          by (rewrite String.eqb_sym; exact E).
        rewrite E'. exact (Hi k Hk).
    + destruct (String.eqb pv "*"); [discriminate H|].
      apply (IH _ _ _ _ H). intros k Hk.
      rewrite assigned_snoc. simpl fst. rewrite Ek. exact (Hi k Hk).
Qed.

Lemma axis_inv_after (ext : dict slot) (l : list dep) (rext rext2 : dict slot) (a : axes) :
  axis_inv ext l rext a -> (forall k, In k axis_names -> key_kept a rext k rext2) ->
  axis_inv ext l rext2 a.
Proof.
  intros Hi Hk k Hn. destruct (Hi k Hn) as [Ha Hr]. split; [exact Ha|].
  specialize (Hk k Hn). unfold key_kept in Hk. rewrite Ha in Hk.
  destruct (assigned ext k l) as [[|pk vs|pk v]|].
  - rewrite Hk. exact Hr.
  - destruct Hr as [vs' Hr]. destruct Hk as [Hk|[v Hk]].
    + exists vs'. rewrite Hk. exact Hr.
    + exists [v]. exact Hk.
  - rewrite Hk. exact Hr.
  - rewrite Hk. exact Hr.
Qed.

Lemma axis_inv_point (ext : dict slot) (l : list dep) (rext : dict slot) (a : axes)
  (k : string) (pt : point) :
  axis_inv ext l rext a -> In k axis_names ->
  key_pinned a rext k (pt_version k pt) (pt_deps pt) ->
  get_axis k a = match assigned ext k l with Some s => s | None => SNone end /\
  match assigned ext k l with
  | Some (STuple pk vs) =>
      dict_get k (pt_deps pt) = Some (STuple pk [pt_version k pt]) /\ In (pt_version k pt) vs
  | o => dict_get k (pt_deps pt) = o
  end.
Proof.
  intros Hi Hn Hp. destruct (Hi k Hn) as [Ha Hr]. split; [exact Ha|].
  unfold key_pinned in Hp. rewrite Ha in Hp.
  destruct (assigned ext k l) as [[|pk vs|pk v]|]; try contradiction.
  - rewrite Hp. exact Hr.
  - exact Hp.
  - rewrite Hp. exact Hr.
Qed.

Lemma plan_vals (ext : dict slot) (rs : list (list dep)) (rext : dict slot) (a : axes)
  (l : list dep) gs e :
  plan ext rs rext a = (gs, e) -> axis_inv ext l rext a ->
  forall i g pt k, nth_error gs i = Some g -> In pt (g_points g) -> In k axis_names ->
    get_axis k (g_axes g) =
      match assigned ext k (l ++ concat (firstn (S i) rs))%list with Some s => s | None => SNone end /\
    match assigned ext k (l ++ concat (firstn (S i) rs))%list with
    | Some (STuple pk vs) =>
        dict_get k (pt_deps pt) = Some (STuple pk [pt_version k pt]) /\ In (pt_version k pt) vs
    | o => dict_get k (pt_deps pt) = o
    end.
Proof.
  revert rext a l gs e. induction rs as [|r rs IH]; intros rext a l gs e Hp Hi i g pt k Hn Hin Hk.
  - simpl in Hp. injection Hp as <- _. destruct i; discriminate Hn.
  - simpl in Hp.
    destruct (setup ext r rext a []) as [x|[[rext1 a1] bd]] eqn:Es;
      [injection Hp as <- _; destruct i; discriminate Hn|].
    destruct (product a1 rext1) as [[pts rext2]|] eqn:Epr;
      [|injection Hp as <- _; destruct i; discriminate Hn].
    destruct (plan ext rs rext2 a1) as [gs' e'] eqn:Ep'.
    injection Hp as <- _.
    pose proof (setup_inv ext r rext a [] l rext1 a1 bd Es Hi) as Hi1.
    destruct (product_pins a1 rext1 pts rext2 Epr) as [Hkept Hpts].
    destruct i as [|i].
    + simpl in Hn. injection Hn as <-. simpl g_axes. simpl g_points in Hin.
      simpl firstn. simpl concat. rewrite app_nil_r.
      rewrite Forall_forall in Hpts.
      exact (axis_inv_point ext (l ++ r)%list rext1 a1 k pt Hi1 Hk (Hpts pt Hin k Hk)).
    + simpl in Hn.
      pose proof (IH rext2 a1 (l ++ r)%list gs' e' Ep' (axis_inv_after _ _ _ _ _ Hi1 Hkept)
                     i g pt k Hn Hin Hk) as H.
      replace ((l ++ concat (firstn (S (S i)) (r :: rs)))%list)
        with (((l ++ r) ++ concat (firstn (S i) rs))%list)
        by (rewrite <- app_assoc; reflexivity).
      exact H.
Qed.

(** C3 (as the code has it).  [res_loop], started as [install_version]
    starts it, runs the groups of [plan] in order.  At every point of the
    [i]-th group the assignment [rext_deps] has exactly the axes set by
    the resolutions [0 .. i]: the current one and every one processed
    before it in the same call.  Each axis variable of the group holds the
    value of the last entry for it among those resolutions (the pinned
    [ext_deps] value replacing the expanded one), and at the point
    [rext_deps] holds, for an axis with a package tuple, that package with
    the single version the point iterates (one of the tuple's versions),
    and otherwise that value unchanged. *)
Theorem axis_assignment_accumulates host run_shell (rec : installer)
  (tg : target) (ext : dict slot) (rs : list (list dep)) gs e :
  plan ext rs [] init_axes = (gs, e) ->
  (forall be st, res_loop host run_shell rec tg ext rs [] init_axes be st =
                 run_groups host run_shell rec tg gs e be st) /\
  (forall i g pt k, nth_error gs i = Some g -> In pt (g_points g) ->
     (dict_mem k (pt_deps pt) = true <->
      exists j r t, j <= i /\ nth_error rs j = Some r /\ In t r /\ sets_axis k t)) /\
  (forall i g pt k, nth_error gs i = Some g -> In pt (g_points g) -> In k axis_names ->
     get_axis k (g_axes g) =
       match assigned ext k (concat (firstn (S i) rs)) with Some s => s | None => SNone end /\
     match assigned ext k (concat (firstn (S i) rs)) with
     | Some (STuple pk vs) =>
         dict_get k (pt_deps pt) = Some (STuple pk [pt_version k pt]) /\ In (pt_version k pt) vs
     | o => dict_get k (pt_deps pt) = o
     end).
Proof.
  intros Hp. split; [|split].
  - intros be st. rewrite res_loop_plan, Hp. reflexivity.
  - intros i g pt k Hn Hin.
    assert (Ha : axes_in init_axes []) by (repeat split; discriminate).
    rewrite (plan_keys ext rs [] init_axes gs e i g pt Hp Ha Hn Hin k).
    split; [intros [Hm|H]; [discriminate Hm | exact H] | intros H; right; exact H].
  - intros i g pt k Hn Hin Hk.
    assert (Hi : axis_inv ext [] [] init_axes).
    { intros k' Hk'. simpl in Hk'.
      destruct Hk' as [<-|[<-|[<-|[<-|[<-|[]]]]]]; split; reflexivity. }
    exact (plan_vals ext rs [] init_axes [] gs e Hp Hi i g pt k Hn Hin Hk).
Qed.

(** Witness of C3: the two resolutions of [app], a compiler one and an MPI
    one; the point of the second group carries the compiler, pinned to
    version [9] of [gcc], the value the first resolution gave the axis. *)
Lemma axis_assignment_accumulates_witness :
  plan [] [[("Compiler", ex_gcc, "*")]; [("MPI", ex_openmpi, "*")]] [] init_axes =
    ([mkGroup (mkAxes (STuple ex_gcc ["9"]) SNone SNone SNone SNone) []
              [mkPoint "*" "*" "*" "*" "9" [("compiler", STuple ex_gcc ["9"])]];
      mkGroup (mkAxes (STuple ex_gcc ["9"]) (STuple ex_openmpi ["4.0"]) SNone SNone SNone) []
              [mkPoint "*" "*" "4.0" "*" "9"
                       [("compiler", STuple ex_gcc ["9"]); ("mpi", STuple ex_openmpi ["4.0"])]]],
     None) /\
  (dict_mem "compiler" [("compiler", STuple ex_gcc ["9"]); ("mpi", STuple ex_openmpi ["4.0"])]
     = true <->
   exists j r t, j <= 1 /\
     nth_error [[("Compiler", ex_gcc, "*")]; [("MPI", ex_openmpi, "*")]] j = Some r /\
     In t r /\ sets_axis "compiler" t) /\
  (STuple ex_gcc ["9"] =
     match assigned [] "compiler" [("Compiler", ex_gcc, "*"); ("MPI", ex_openmpi, "*")] with
     | Some s => s | None => SNone end /\
   match assigned [] "compiler" [("Compiler", ex_gcc, "*"); ("MPI", ex_openmpi, "*")] with
   | Some (STuple pk vs) =>
       dict_get "compiler" [("compiler", STuple ex_gcc ["9"]); ("mpi", STuple ex_openmpi ["4.0"])]
         = Some (STuple pk ["9"]) /\ In "9" vs
   | o => dict_get "compiler" [("compiler", STuple ex_gcc ["9"]);
                               ("mpi", STuple ex_openmpi ["4.0"])] = o
   end).
Proof.
  pose proof (axis_assignment_accumulates ex_host ex_shell (fun _ _ _ => ret tt)
                  (mkTarget ex_app "/opt/apps" "x86_64" "1.0" [] "/pk/source/app/1.0") []
                  [[("Compiler", ex_gcc, "*")]; [("MPI", ex_openmpi, "*")]]
                  [mkGroup (mkAxes (STuple ex_gcc ["9"]) SNone SNone SNone SNone) []
                           [mkPoint "*" "*" "*" "*" "9" [("compiler", STuple ex_gcc ["9"])]];
                   mkGroup (mkAxes (STuple ex_gcc ["9"]) (STuple ex_openmpi ["4.0"])
                                   SNone SNone SNone) []
                           [mkPoint "*" "*" "4.0" "*" "9"
                                    [("compiler", STuple ex_gcc ["9"]);
                                     ("mpi", STuple ex_openmpi ["4.0"])]]]
                  None eq_refl) as [_ [H2 H3]].
  split; [reflexivity|]. split.
  - apply (H2 1 (mkGroup (mkAxes (STuple ex_gcc ["9"]) (STuple ex_openmpi ["4.0"])
                                 SNone SNone SNone) []
                         [mkPoint "*" "*" "4.0" "*" "9"
                                  [("compiler", STuple ex_gcc ["9"]);
                                   ("mpi", STuple ex_openmpi ["4.0"])]])
              (mkPoint "*" "*" "4.0" "*" "9"
                       [("compiler", STuple ex_gcc ["9"]); ("mpi", STuple ex_openmpi ["4.0"])])
              "compiler" eq_refl).
    left. reflexivity.
  - apply (H3 1 (mkGroup (mkAxes (STuple ex_gcc ["9"]) (STuple ex_openmpi ["4.0"])
                                 SNone SNone SNone) []
                         [mkPoint "*" "*" "4.0" "*" "9"
                                  [("compiler", STuple ex_gcc ["9"]);
                                   ("mpi", STuple ex_openmpi ["4.0"])]])
              (mkPoint "*" "*" "4.0" "*" "9"
                       [("compiler", STuple ex_gcc ["9"]); ("mpi", STuple ex_openmpi ["4.0"])])
              "compiler" eq_refl).
    + left. reflexivity.
    + left. reflexivity.
Defined.

(** C3 counterexample: [app] declares [Compiler] and [MPI]; its second
    resolution holds only the MPI package, yet [app] is built there under
    the prefix [gcc-9/openmpi-4.0], with the compiler of the first
    resolution. *)
Lemma axis_assignment_carries_over :
  resolve_dependencies ex_catalog ex_app =
    Some [[("Compiler", ex_gcc, "*")]; [("MPI", ex_openmpi, "*")]] /\
  map (fun r => dict_get "PACKAGE_PREFIX" (run_env r))
      (runs (snd (install_version ex_catalog "/pk" ex_host ex_shell 5 ex_app
                    "/opt/apps" "x86_64" (VStr "1.0") [] [] ex_state))) =
    [Some "/opt/apps/x86_64/gcc/9"; Some "/opt/apps/x86_64/gcc-9/app/1.0";
     Some "/opt/apps/x86_64/openmpi/4.0";
     Some "/opt/apps/x86_64/gcc-9/openmpi-4.0/app/1.0"].
Proof. split; vm_compute; reflexivity. Qed.

(** ** Idempotence *)

Lemma bind_ok_step {A B} (m : M A) (k : A -> M B) (st : state) (a : A) (st1 : state) :
  m st = (Ok a, st1) -> bind m k st = k a st1.
Proof. intros H. unfold bind. rewrite H. reflexivity. Qed.

Lemma grows_bind {A B} (m : M A) (k : A -> M B) :
  grows m -> (forall a, grows (k a)) -> grows (bind m k).
Proof.
  intros Hm Hk st b st'. unfold bind.
  destruct (m st) as [[a| |] s1] eqn:E; intros H; try discriminate H.
  apply incl_tran with (fs s1); [exact (Hm _ _ _ E) | exact (Hk a _ _ _ H)].
Qed.

Lemma grows_ret {A} (a : A) : grows (ret a).
Proof. intros st b st' H. inversion H. apply incl_refl. Qed.

Lemma grows_raise {A} (e : exc) : grows (A := A) (raise e).
Proof. intros st b st' H. discriminate H. Qed.

Lemma grows_lift {A} (e : exc) (o : option A) : grows (lift e o).
Proof. destruct o; [apply grows_ret | apply grows_raise]. Qed.

Lemma grows_path_exists (p : string) : grows (path_exists p).
Proof. intros st b st' H. inversion H. apply incl_refl. Qed.

Lemma grows_makedirs (p : string) : grows (makedirs p).
Proof. intros st b st' H. inversion H. simpl. apply incl_appr, incl_refl. Qed.

Lemma grows_write_file (p : string) (c : list string) : grows (write_file p c).
Proof. intros st b st' H. inversion H. simpl. apply incl_tl, incl_refl. Qed.

Lemma grows_symlink (p : string) : grows (symlink p).
Proof. intros st b st' H. inversion H. simpl. apply incl_tl, incl_refl. Qed.

Lemma grows_touch (p : string) : grows (touch p).
Proof. intros st b st' H. inversion H. simpl. apply incl_tl, incl_refl. Qed.

Create HintDb grows.
#[local] Hint Resolve grows_ret grows_raise grows_lift grows_path_exists grows_makedirs
  grows_write_file grows_symlink grows_touch : grows.

Ltac grows_auto :=
  cbv zeta;
  repeat first
    [ solve [eauto with grows]
    | apply grows_bind; [|intros ?]
    | match goal with |- grows (if ?b then _ else _) => destruct b end
    | match goal with |- grows (match ?x with _ => _ end) => destruct x end ].

Lemma grows_ensure_dir (p : string) : grows (ensure_dir p).
Proof. unfold ensure_dir. grows_auto. Qed.
#[local] Hint Resolve grows_ensure_dir : grows.

Lemma grows_download_source host (u d : string) : grows (download_source host u d).
Proof. unfold download_source. grows_auto. Qed.

Lemma grows_extract_source host (sp fn : string) :
  grows (extract_source host sp fn).
Proof. unfold extract_source. grows_auto. Qed.
#[local] Hint Resolve grows_download_source grows_extract_source : grows.

Lemma grows_fetch_sources host (idx : nat) (srcs : list string) (sp : string) :
  grows (fetch_sources host idx srcs sp).
Proof.
  revert idx. induction srcs as [|u us IH]; intros idx; simpl; grows_auto.
Qed.

Lemma grows_base_modulefile (p : Package) (b a : string) (r : dict slot) (bd : list dep) :
  grows (base_modulefile p b a r bd).
Proof. unfold base_modulefile. grows_auto. Qed.
#[local] Hint Resolve grows_fetch_sources grows_base_modulefile : grows.

Lemma grows_write_modulefile (p : Package) (b a v : string) (r : dict slot) (bd : list dep) :
  grows (write_modulefile p b a v r bd).
Proof. unfold write_modulefile. grows_auto. Qed.
#[local] Hint Resolve grows_write_modulefile : grows.

Lemma grows_prepare_env (tg : target) (r : dict slot) (be sd : dict string) :
  grows (prepare_env tg r be sd).
Proof. unfold prepare_env. grows_auto. Qed.

Lemma grows_is_installed (p : Package) (b a v : string) (r : dict slot) :
  grows (is_installed p b a v r).
Proof. unfold is_installed. grows_auto. Qed.
#[local] Hint Resolve grows_prepare_env grows_is_installed : grows.

Lemma finish_build_fail (tg : target) (r : dict slot) (bd : list dep) (pre : string)
  (c : nat) (st : state) u st' :
  Nat.eqb c 0 = false -> finish_build tg r bd pre c st <> (Ok u, st').
Proof.
  intros Hc. unfold finish_build. rewrite Hc. unfold bind, path_exists.
  destruct (existsb (String.eqb pre) (fs st)); simpl; discriminate.
Qed.

Lemma ancestors_in (acc s : string) : In (acc ++ s) (ancestors_aux acc s).
Proof.
  revert acc. induction s as [|c s IH]; intros acc; simpl.
  - left. induction acc as [|a acc IHa]; simpl; [reflexivity | f_equal; exact IHa].
  - assert (E : acc ++ String c s = (acc ++ String c "") ++ s).
    { clear IH. induction acc as [|a acc IHa]; simpl; [reflexivity | f_equal; exact IHa]. }
    rewrite E. destruct (Ascii.eqb c slash).
    + apply in_or_app. right. apply IH.
    + apply IH.
Qed.

Lemma ensure_dir_in (p : string) (st : state) u st' :
  ensure_dir p st = (Ok u, st') -> In p (fs st').
Proof.
  unfold ensure_dir, bind, path_exists.
  destruct (existsb (String.eqb p) (fs st)) eqn:E; intros H; inversion H; subst; simpl.
  - apply existsb_exists in E. destruct E as (x & Hx & Hxe).
    apply String.eqb_eq in Hxe. subst x. exact Hx.
  - apply in_or_app. left. exact (ancestors_in "" p).
Qed.

Lemma ensure_dir_present (p : string) (st : state) :
  In p (fs st) -> ensure_dir p st = (Ok tt, st).
Proof.
  intros Hin. unfold ensure_dir, bind, path_exists.
  assert (E : existsb (String.eqb p) (fs st) = true)
    by (apply existsb_exists; exists p; split; [exact Hin | apply String.eqb_refl]).
  rewrite E. reflexivity.
Qed.

Lemma prepare_env_ok (tg : target) (r : dict slot) (be sd : dict string) (st : state)
  ep st' :
  prepare_env tg r be sd st = (Ok ep, st') ->
  prefix (t_pkg tg) (t_basepath tg) (t_arch tg) (t_version tg) r = Some (snd ep) /\
  dict_get "PACKAGE_PREFIX" (fst ep) = Some (snd ep).
Proof.
  unfold prepare_env. cbv zeta. intros H.
  apply bind_ok in H. destruct H as (bdir & s1 & _ & H).
  apply bind_ok in H. destruct H as (u & s2 & _ & H).
  apply bind_ok in H. destruct H as (pre & s3 & Hp & H).
  inversion H; subst. simpl.
  destruct (prefix (t_pkg tg) (t_basepath tg) (t_arch tg) (t_version tg) r) eqn:E;
    [|discriminate Hp].
  inversion Hp; subst. split; [reflexivity|].
  rewrite dict_get_set, String.eqb_refl. reflexivity.
Qed.

Section Idempotence.

Variable cat : catalog.
Variable package_path : string.
Variable host : source_host.
Variable run_shell : string -> dict string -> list string -> list string -> nat * list string.

(** The build shell deletes nothing. *)
Hypothesis run_shell_grows :
  forall cwd env input paths, incl paths (snd (run_shell cwd env input paths)).

(** A successful build creates its [PACKAGE_PREFIX]. *)
Hypothesis run_shell_prefix :
  forall cwd env input paths pre,
    dict_get "PACKAGE_PREFIX" env = Some pre ->
    fst (run_shell cwd env input paths) = 0 ->
    In pre (snd (run_shell cwd env input paths)).

Lemma grows_launch (cwd : string) (env : dict string) (input : list string) :
  grows (launch run_shell cwd env input).
Proof.
  intros st n st' H. unfold launch in H.
  pose proof (run_shell_grows cwd env input (fs st)) as Hg.
  destruct (run_shell cwd env input (fs st)) as [c fs'].
  inversion H. simpl. exact Hg.
Qed.

Lemma grows_run_build (tg : target) (r : dict slot) (bd : list dep) (env : dict string)
  (pre : string) (lines : list string) :
  grows (run_build run_shell tg r bd env pre lines).
Proof.
  unfold run_build. apply grows_bind; [apply grows_launch|].
  intros c st u st' H. destruct (Nat.eqb c 0) eqn:Ec.
  - unfold finish_build in H. rewrite Ec in H. exact (grows_write_modulefile _ _ _ _ _ _ _ _ _ H).
  - exfalso. exact (finish_build_fail _ _ _ _ _ _ _ _ Ec H).
Qed.
#[local] Hint Resolve grows_run_build : grows.

Lemma run_build_done (tg : target) (r : dict slot) (bd : list dep) (env : dict string)
  (pre : string) (lines : list string) (st : state) u st' :
  dict_get "PACKAGE_PREFIX" env = Some pre ->
  run_build run_shell tg r bd env pre lines st = (Ok u, st') -> In pre (fs st').
Proof.
  intros Henv H. unfold run_build in H. apply bind_ok in H.
  destruct H as (c & s1 & Hl & H).
  unfold launch in Hl.
  pose proof (run_shell_prefix (t_source_path tg) env (shell_input (t_pkg tg) lines)
                (fs st) pre Henv) as Hp.
  destruct (run_shell (t_source_path tg) env (shell_input (t_pkg tg) lines) (fs st))
    as [c' fs'].
  inversion Hl; subst. simpl in Hp.
  destruct (Nat.eqb c 0) eqn:Ec.
  - apply Nat.eqb_eq in Ec. subst c.
    unfold finish_build in H. simpl in H.
    exact (grows_write_modulefile _ _ _ _ _ _ _ _ _ H _ (Hp eq_refl)).
  - exfalso. exact (finish_build_fail _ _ _ _ _ _ _ _ Ec H).
Qed.

Section WithInstaller.

Variable rec : installer.
Hypothesis rec_ok : rec_grows rec.

Lemma grows_axis_line (s ns : slot) (v : string) (r : dict slot) :
  grows (axis_line rec s ns v r).
Proof.
  unfold axis_line. destruct (slot_truthy s); [|apply grows_ret].
  apply grows_bind; [|intros _; grows_auto].
  destruct s; [apply grows_raise | apply rec_ok | apply grows_raise].
Qed.

Lemma grows_ordinary_lines (bd : list dep) (r : dict slot) :
  grows (ordinary_lines rec bd r).
Proof.
  induction bd as [|[[m pk] pv] bd IH]; simpl; [apply grows_ret|].
  apply grows_bind; [apply rec_ok|]. intros _. apply grows_bind; [exact IH|].
  intros ?. apply grows_ret.
Qed.
#[local] Hint Resolve grows_axis_line grows_ordinary_lines : grows.

Lemma grows_dep_phase (a : axes) (bd : list dep) (pt : point) :
  grows (dep_phase rec a bd pt).
Proof. unfold dep_phase. grows_auto. Qed.
#[local] Hint Resolve grows_dep_phase : grows.

Lemma grows_point_body (tg : target) (a : axes) (bd : list dep) (pt : point)
  (be : dict string) : grows (point_body host run_shell rec tg a bd pt be).
Proof. unfold point_body. grows_auto. Qed.
#[local] Hint Resolve grows_point_body : grows.

Lemma grows_points_loop (tg : target) (a : axes) (bd : list dep) (pts : list point)
  (be : dict string) : grows (points_loop host run_shell rec tg a bd pts be).
Proof.
  revert be. induction pts as [|pt pts IH]; intros be; simpl; grows_auto.
Qed.
#[local] Hint Resolve grows_points_loop : grows.

Lemma grows_run_groups (tg : target) (gs : list group) (e : option exc) (be : dict string) :
  grows (run_groups host run_shell rec tg gs e be).
Proof.
  revert be. induction gs as [|g gs IH]; intros be; simpl; grows_auto.
Qed.

Lemma grows_res_loop (tg : target) (ext : dict slot) (rs : list (list dep))
  (rext : dict slot) (a : axes) (be : dict string) :
  grows (res_loop host run_shell rec tg ext rs rext a be).
Proof.
  intros st b st' H. rewrite res_loop_plan in H. exact (grows_run_groups _ _ _ _ _ _ _ H).
Qed.

Lemma point_body_done (tg : target) (a : axes) (bd : list dep) (pt : point)
  (be : dict string) (st : state) be' st' :
  point_body host run_shell rec tg a bd pt be st = (Ok be', st') ->
  exists pre, prefix (t_pkg tg) (t_basepath tg) (t_arch tg) (t_version tg) (pt_deps pt)
              = Some pre /\ In pre (fs st').
Proof.
  unfold point_body. intros H. apply bind_ok in H. destruct H as (inst & s1 & Hi & H).
  unfold is_installed in Hi. apply bind_ok in Hi. destruct Hi as (pre & s0 & Hl & Hi).
  destruct (prefix (t_pkg tg) (t_basepath tg) (t_arch tg) (t_version tg) (pt_deps pt))
    as [pre0|] eqn:Ep; [|discriminate Hl].
  inversion Hl; subst pre0 s0. unfold path_exists in Hi. inversion Hi; subst inst s1.
  exists pre. split; [reflexivity|].
  destruct (existsb (String.eqb pre) (fs st)) eqn:Ex.
  - inversion H; subst. apply existsb_exists in Ex. destruct Ex as (x & Hx & Hxe).
    apply String.eqb_eq in Hxe. subst x. exact Hx.
  - apply bind_ok in H. destruct H as (lines & s2 & _ & H).
    apply bind_ok in H. destruct H as (srcd & s3 & _ & H).
    apply bind_ok in H. destruct H as (ep & s4 & Hpe & H).
    apply bind_ok in H. destruct H as (u & s5 & Hrb & H).
    inversion H; subst.
    destruct (prepare_env_ok _ _ _ _ _ _ _ Hpe) as [Hp1 Hp2].
    rewrite Ep in Hp1. injection Hp1 as Hpre. rewrite Hpre.
    exact (run_build_done _ _ _ _ _ _ _ _ _ Hp2 Hrb).
Qed.

Lemma points_loop_done (tg : target) (a : axes) (bd : list dep) (pts : list point)
  (be : dict string) (st : state) be' st' :
  points_loop host run_shell rec tg a bd pts be st = (Ok be', st') ->
  forall pt, In pt pts ->
    exists pre, prefix (t_pkg tg) (t_basepath tg) (t_arch tg) (t_version tg) (pt_deps pt)
                = Some pre /\ In pre (fs st').
Proof.
  revert be st. induction pts as [|p0 pts IH]; intros be st H pt Hin; [destruct Hin|].
  simpl in H. apply bind_ok in H. destruct H as (be1 & s1 & Hb & H).
  destruct Hin as [<-|Hin].
  - destruct (point_body_done _ _ _ _ _ _ _ _ Hb) as (pre & Hp & Hpre).
    exists pre. split; [exact Hp|]. exact (grows_points_loop _ _ _ _ _ _ _ _ H _ Hpre).
  - exact (IH _ _ H pt Hin).
Qed.

Lemma run_groups_done (tg : target) (gs : list group) (e : option exc) (be : dict string)
  (st : state) be' st' :
  run_groups host run_shell rec tg gs e be st = (Ok be', st') ->
  e = None /\
  forall g pt, In g gs -> In pt (g_points g) ->
    exists pre, prefix (t_pkg tg) (t_basepath tg) (t_arch tg) (t_version tg) (pt_deps pt)
                = Some pre /\ In pre (fs st').
Proof.
  revert be st. induction gs as [|g0 gs IH]; intros be st H.
  - simpl in H. destruct e; [discriminate H|]. split; [reflexivity | intros g pt []].
  - simpl in H. apply bind_ok in H. destruct H as (be1 & s1 & Hp & H).
    destruct (IH _ _ H) as [He Hall]. split; [exact He|].
    intros g pt [<-|Hg] Hpt.
    + destruct (points_loop_done _ _ _ _ _ _ _ _ Hp pt Hpt) as (pre & Hpr & Hin).
      exists pre. split; [exact Hpr|]. exact (grows_run_groups _ _ _ _ _ _ _ H _ Hin).
    + exact (Hall g pt Hg Hpt).
Qed.

End WithInstaller.

Lemma point_body_skip (rec : installer) (tg : target) (a : axes) (bd : list dep)
  (pt : point) (be : dict string) (st : state) (pre : string) :
  prefix (t_pkg tg) (t_basepath tg) (t_arch tg) (t_version tg) (pt_deps pt) = Some pre ->
  In pre (fs st) ->
  point_body host run_shell rec tg a bd pt be st = (Ok be, st).
Proof.
  intros Hp Hin.
  assert (E : existsb (String.eqb pre) (fs st) = true)
    by (apply existsb_exists; exists pre; split; [exact Hin | apply String.eqb_refl]).
  unfold point_body, is_installed.
  rewrite (bind_ok_step _ _ st true st); [reflexivity|].
  unfold lift. rewrite Hp. unfold bind, ret, path_exists. rewrite E. reflexivity.
Qed.

Lemma points_loop_skip (rec : installer) (tg : target) (a : axes) (bd : list dep)
  (pts : list point) (be : dict string) (st : state) :
  (forall pt, In pt pts ->
     exists pre, prefix (t_pkg tg) (t_basepath tg) (t_arch tg) (t_version tg) (pt_deps pt)
                 = Some pre /\ In pre (fs st)) ->
  points_loop host run_shell rec tg a bd pts be st = (Ok be, st).
Proof.
  induction pts as [|pt pts IH]; intros Hall; [reflexivity|].
  simpl. destruct (Hall pt (or_introl eq_refl)) as (pre & Hp & Hin).
  rewrite (bind_ok_step _ _ _ _ _ (point_body_skip rec tg a bd pt be st pre Hp Hin)).
  apply IH. intros pt' Hpt'. apply Hall. right. exact Hpt'.
Qed.

Lemma run_groups_skip (rec : installer) (tg : target) (gs : list group)
  (be : dict string) (st : state) :
  (forall g pt, In g gs -> In pt (g_points g) ->
     exists pre, prefix (t_pkg tg) (t_basepath tg) (t_arch tg) (t_version tg) (pt_deps pt)
                 = Some pre /\ In pre (fs st)) ->
  run_groups host run_shell rec tg gs None be st = (Ok be, st).
Proof.
  revert be. induction gs as [|g gs IH]; intros be Hall; [reflexivity|].
  simpl.
  rewrite (bind_ok_step _ _ _ _ _
             (points_loop_skip rec tg (g_axes g) (g_bdeps g) (g_points g) be st
                (fun pt Hpt => Hall g pt (or_introl eq_refl) Hpt))).
  apply IH. intros g' pt Hg Hpt. exact (Hall g' pt (or_intror Hg) Hpt).
Qed.

Lemma grows_install_version (n : nat) :
  forall p basepath arch v env ext,
    grows (install_version cat package_path host run_shell n p basepath arch v env ext).
Proof.
  induction n as [|n IH]; intros p basepath arch v env ext; simpl; [apply grows_raise|].
  unfold install_body. cbv zeta.
  destruct (normalize_version p v) as [[v0 srcs]|]; [|apply grows_raise].
  apply grows_bind; [apply grows_ensure_dir|]. intros _.
  destruct (resolve_dependencies cat p) as [rs|]; [|apply grows_raise].
  apply grows_bind; [|intros _; apply grows_ret].
  apply grows_res_loop. intros pk v' r. apply IH.
Qed.

End Idempotence.

Lemma ensure_dir_ok (p : string) (st : state) :
  ensure_dir p st = (Ok tt, snd (ensure_dir p st)).
Proof.
  unfold ensure_dir, bind, path_exists. destruct (existsb (String.eqb p) (fs st)); reflexivity.
Qed.

Lemma ex_shell_grows (cwd : string) (env : dict string) (input paths : list string) :
  incl paths (snd (ex_shell cwd env input paths)).
Proof.
  unfold ex_shell. simpl. destruct (dict_get "PACKAGE_PREFIX" env).
  - apply incl_tl, incl_refl.
  - apply incl_refl.
Qed.

Lemma ex_shell_prefix (cwd : string) (env : dict string) (input paths : list string)
  (pre : string) :
  dict_get "PACKAGE_PREFIX" env = Some pre -> fst (ex_shell cwd env input paths) = 0 ->
  In pre (snd (ex_shell cwd env input paths)).
Proof. intros He _. unfold ex_shell. rewrite He. left. reflexivity. Qed.

Ltac in_solve := repeat (first [left; reflexivity | right]).

(** C1 (as the code has it).  (a) When every point of the product of every
    resolution already has its prefix directory, [install_version] installs
    no dependency, runs no build shell and writes no file: its whole effect
    is the [makedirs] of the package's source directory
    [<package_path>/source/<name>/<version>] when that is missing.  (b) For a
    build shell that deletes nothing and creates [PACKAGE_PREFIX] whenever
    it succeeds, a second call with the arguments of a successful call
    leaves the state (paths, written files and the list of build shell
    runs) unchanged. *)
Theorem install_idempotent (cat : catalog) (package_path : string)
  (host : source_host)
  (run_shell : string -> dict string -> list string -> list string -> nat * list string)
  (Hgrow : forall cwd env input paths, incl paths (snd (run_shell cwd env input paths)))
  (Hpre : forall cwd env input paths pre,
            dict_get "PACKAGE_PREFIX" env = Some pre ->
            fst (run_shell cwd env input paths) = 0 ->
            In pre (snd (run_shell cwd env input paths))) :
  (forall n p basepath arch v env ext v0 srcs rs gs st,
     normalize_version p v = Some (v0, srcs) ->
     resolve_dependencies cat p = Some rs ->
     plan ext rs [] init_axes = (gs, None) ->
     (forall g pt, In g gs -> In pt (g_points g) ->
        exists pre, prefix p basepath arch v0 (pt_deps pt) = Some pre /\ In pre (fs st)) ->
     install_version cat package_path host run_shell (S n) p basepath arch v env ext st
       = (Ok tt, snd (ensure_dir (source_dir package_path p v0) st))) /\
  (forall fuel p basepath arch v env ext st st1,
     install_version cat package_path host run_shell fuel p basepath arch v env ext st
       = (Ok tt, st1) ->
     install_version cat package_path host run_shell fuel p basepath arch v env ext st1
       = (Ok tt, st1)).
Proof.
  split.
  - intros n p basepath arch v env ext v0 srcs rs gs st Hn Hr Hp Hall.
    simpl. unfold install_body. rewrite Hn. cbv zeta.
    rewrite (bind_ok_step _ _ _ _ _ (ensure_dir_ok (source_dir package_path p v0) st)).
    rewrite Hr.
    set (s1 := snd (ensure_dir (source_dir package_path p v0) st)).
    assert (Hincl : incl (fs st) (fs s1))
      by exact (grows_ensure_dir _ _ _ _ (ensure_dir_ok (source_dir package_path p v0) st)).
    match goal with
    | |- bind (res_loop ?ar ?rsh ?rc ?tg ?ex ?rs' ?rx ?ax ?be) ?k ?s = _ =>
        rewrite (bind_ok_step (res_loop ar rsh rc tg ex rs' rx ax be) k s be s);
          [reflexivity|]
    end.
    rewrite res_loop_plan, Hp. simpl.
    apply run_groups_skip. intros g pt Hg Hpt.
    destruct (Hall g pt Hg Hpt) as (pre & Hpr & Hin).
    exists pre. split; [exact Hpr | exact (Hincl _ Hin)].
  - intros fuel p basepath arch v env ext st st1 H.
    destruct fuel as [|n]; [discriminate H|].
    simpl in H |- *. unfold install_body in H |- *.
    destruct (normalize_version p v) as [[v0 srcs]|] eqn:En; [|discriminate H].
    cbv zeta in H |- *.
    apply bind_ok in H. destruct H as (u & s1 & Hens & H).
    destruct (resolve_dependencies cat p) as [rs|] eqn:Er; [|discriminate H].
    apply bind_ok in H. destruct H as (be' & s2 & Hrl & H).
    inversion H; subst s2.
    assert (Hrec : rec_grows (fun pk v' r =>
              install_version cat package_path host run_shell n pk basepath arch
                              (VStr v') env r))
      by (intros pk v' r; apply (grows_install_version cat package_path host
                                   run_shell Hgrow)).
    pose proof (grows_res_loop host run_shell Hgrow _ Hrec _ _ _ _ _ _ _ _ _ Hrl)
      as Hincl.
    rewrite res_loop_plan in Hrl.
    destruct (plan ext rs [] init_axes) as [gs e] eqn:Hp. simpl in Hrl.
    destruct (run_groups_done host run_shell Hgrow Hpre _ Hrec _ _ _ _ _ _ _ Hrl)
      as [He Hall].
    subst e.
    assert (Hsp : In (source_dir package_path p v0) (fs st1))
      by exact (Hincl _ (ensure_dir_in _ _ _ _ Hens)).
    rewrite (bind_ok_step _ _ _ _ _ (ensure_dir_present _ _ Hsp)).
    match goal with
    | |- bind (res_loop ?ar ?rsh ?rc ?tg ?ex ?rs' ?rx ?ax ?be) ?k ?s = _ =>
        rewrite (bind_ok_step (res_loop ar rsh rc tg ex rs' rx ax be) k s be s);
          [reflexivity|]
    end.
    rewrite res_loop_plan, Hp. simpl.
    apply run_groups_skip. exact Hall.
Qed.

(** Witness of C1: installing [app/1.0] (a compiler and an MPI resolution,
    four builds) with a build shell that creates the prefix; after the
    first call every prefix exists, and the second call changes nothing. *)
Lemma install_idempotent_witness :
  install_version ex_catalog "/pk" ex_host ex_shell 5 ex_app "/opt/apps" "x86_64"
    (VStr "1.0") [] []
    (snd (install_version ex_catalog "/pk" ex_host ex_shell 5 ex_app "/opt/apps"
            "x86_64" (VStr "1.0") [] [] ex_state))
  = (Ok tt, snd (ensure_dir (source_dir "/pk" ex_app "1.0")
                  (snd (install_version ex_catalog "/pk" ex_host ex_shell 5 ex_app
                          "/opt/apps" "x86_64" (VStr "1.0") [] [] ex_state)))) /\
  install_version ex_catalog "/pk" ex_host ex_shell 5 ex_app "/opt/apps" "x86_64"
    (VStr "1.0") [] []
    (snd (install_version ex_catalog "/pk" ex_host ex_shell 5 ex_app "/opt/apps"
            "x86_64" (VStr "1.0") [] [] ex_state))
  = (Ok tt, snd (install_version ex_catalog "/pk" ex_host ex_shell 5 ex_app
                  "/opt/apps" "x86_64" (VStr "1.0") [] [] ex_state)).
Proof.
  split.
  - apply (proj1 (install_idempotent ex_catalog "/pk" ex_host ex_shell
                    ex_shell_grows ex_shell_prefix)
             4 ex_app "/opt/apps" "x86_64" (VStr "1.0") [] [] "1.0" []
             [[("Compiler", ex_gcc, "*")]; [("MPI", ex_openmpi, "*")]]
             [mkGroup (mkAxes (STuple ex_gcc ["9"]) SNone SNone SNone SNone) []
                      [mkPoint "*" "*" "*" "*" "9" [("compiler", STuple ex_gcc ["9"])]];
              mkGroup (mkAxes (STuple ex_gcc ["9"]) (STuple ex_openmpi ["4.0"])
                              SNone SNone SNone) []
                      [mkPoint "*" "*" "4.0" "*" "9"
                               [("compiler", STuple ex_gcc ["9"]);
                                ("mpi", STuple ex_openmpi ["4.0"])]]]).
    + vm_compute. reflexivity.
    + vm_compute. reflexivity.
    + reflexivity.
    + intros g pt Hg Hpt.
      destruct Hg as [<-|[<-|[]]]; destruct Hpt as [<-|[]];
        (eexists; split; [reflexivity | vm_compute; in_solve]).
  - apply (proj2 (install_idempotent ex_catalog "/pk" ex_host ex_shell
                    ex_shell_grows ex_shell_prefix)
             5 ex_app "/opt/apps" "x86_64" (VStr "1.0") [] [] ex_state).
    vm_compute. reflexivity.
Defined.

(** C1 counterexample: with every prefix of [zlib/1.2] present but its
    source directory missing, [install_version] is not free of side
    effects: it creates [/pk/source/zlib/1.2] (and its ancestors). *)
Lemma install_creates_source_dir :
  install_version ex_catalog "/pk" ex_host ex_shell 5 ex_zlib "/opt/apps" "x86_64"
    (VStr "1.2") [] [] (mkState ["/opt/apps/x86_64/zlib/1.2"] [] [])
  = (Ok tt, mkState ["/pk"; "/pk/source"; "/pk/source/zlib"; "/pk/source/zlib/1.2";
                     "/opt/apps/x86_64/zlib/1.2"] [] []).
Proof. vm_compute. reflexivity. Qed.

(** ** Further properties of the code *)

(** *** The resolutions [get_deps] combines *)

Lemma length_flat_map_const {A B} (f : A -> list B) (l : list A) (n : nat) :
  (forall x, length (f x) = n) -> length (flat_map f l) = length l * n.
Proof.
  intros Hf. induction l as [|x l IH]; [reflexivity|].
  simpl. rewrite length_app, Hf, IH. reflexivity.
Qed.

(** The number of resolutions: one per mandatory module candidate (or one
    when there is none), times one plus the number of optional ordinary
    dependencies, times one plus the number of optional module candidates. *)
Theorem resolutions_count (b : buckets) :
  length (combine_buckets b) =
    Nat.max 1 (length (module_deps b)) * (1 + length (optional_deps b))
    * (1 + length (optional_module_deps b)).
Proof.
  destruct b as [md omd ds od]. unfold combine_buckets. cbv zeta.
  cbn [module_deps optional_module_deps deps optional_deps].
  rewrite length_app.
  erewrite (length_flat_map_const _ omd) by (intros; apply length_map).
  destruct md as [|x xs].
  - simpl. rewrite length_map. nia.
  - rewrite (length_flat_map_const _ (x :: xs) (1 + length od))
      by (intros; simpl; rewrite !length_map; reflexivity).
    simpl. nia.
Qed.

Lemma res_deps_in (md ds od r : list dep) :
  In r (match md with
        | [] => ds :: map (fun o => o :: ds) od
        | d :: l => flat_map (fun m => (m :: ds) :: map (fun d0 => m :: d0)
                                                     (map (fun o => o :: ds) od)) (d :: l)
        end) <->
  exists m o, r = (opt_list m ++ opt_list o ++ ds)%list /\ opt_in o od /\
              match m with None => md = [] | Some x => In x md end.
Proof.
  destruct md as [|x xs].
  - split.
    + intros [<- | Hin].
      * exists None, None. repeat split.
      * apply in_map_iff in Hin. destruct Hin as (o & <- & Ho).
        exists None, (Some o). repeat split. exact Ho.
    + intros (m & o & -> & Ho & Hm). destruct m as [y|]; [destruct Hm|].
      destruct o as [o|].
      * right. apply in_map_iff. exists o. split; [reflexivity | exact Ho].
      * left. reflexivity.
  - rewrite in_flat_map. split.
    + intros (m & Hm & [<- | Hin]).
      * exists (Some m), None. repeat split. exact Hm.
      * rewrite map_map in Hin. apply in_map_iff in Hin. destruct Hin as (o & <- & Ho).
        exists (Some m), (Some o). repeat split; assumption.
    + intros (m & o & -> & Ho & Hm). destruct m as [y|]; [|discriminate Hm].
      exists y. split; [exact Hm|].
      destruct o as [o|].
      * right. rewrite map_map. apply in_map_iff. exists o. split; [reflexivity | exact Ho].
      * left. reflexivity.
Qed.

(** Every resolution is the list of mandatory ordinary dependencies,
    preceded by at most one optional module candidate, then one mandatory
    module candidate (exactly one when there is any), then at most one
    optional ordinary dependency; and every such list is a resolution. *)
Theorem resolutions_shape (b : buckets) (r : list dep) :
  In r (combine_buckets b) <->
  exists om m od,
    r = (opt_list om ++ opt_list m ++ opt_list od ++ deps b)%list /\
    opt_in om (optional_module_deps b) /\
    opt_in od (optional_deps b) /\
    match m with None => module_deps b = [] | Some x => In x (module_deps b) end.
Proof.
  destruct b as [md omd ds od]. unfold combine_buckets. cbv zeta.
  cbn [module_deps optional_module_deps deps optional_deps].
  rewrite in_app_iff, in_flat_map. split.
  - intros [Hr | (om & Hom & Hr)].
    + apply res_deps_in in Hr. destruct Hr as (m & o & -> & Ho & Hm).
      exists None, m, o. repeat split; assumption.
    + apply in_map_iff in Hr. destruct Hr as (r' & <- & Hr').
      apply res_deps_in in Hr'. destruct Hr' as (m & o & -> & Ho & Hm).
      exists (Some om), m, o. repeat split; assumption.
  - intros (om & m & o & -> & Hom & Ho & Hm). destruct om as [x|].
    + right. exists x. split; [exact Hom|]. apply in_map_iff.
      exists (opt_list m ++ opt_list o ++ ds)%list. split; [reflexivity|].
      apply res_deps_in. exists m, o. repeat split; assumption.
    + left. apply res_deps_in. exists m, o. repeat split; assumption.
Qed.

(** *** The catalog lookup *)

Lemma find_package_nil (s : string) : find_package [] s = None.
Proof. reflexivity. Qed.

Lemma find_package_cons (m : string) (bucket : dict Package) (cat : catalog) (s : string) :
  find_package ((m, bucket) :: cat) s =
    match dict_get (target_name s) bucket with
    | Some found =>
        if has_version found (target_version s)
        then Some (m, found, target_version s) else find_package cat s
    | None => find_package cat s
    end.
Proof. reflexivity. Qed.

(** [find_package] returns the first bucket, in catalog order, holding a
    package called [name[0]] that accepts the version read from the
    argument ([*] without a version); later buckets are not consulted. *)
Theorem find_package_first (cat : catalog) (s : string) (t : dep) :
  find_package cat s = Some t <->
  exists pre m bucket pk rest,
    cat = (pre ++ (m, bucket) :: rest)%list /\
    dict_get (target_name s) bucket = Some pk /\
    has_version pk (target_version s) = true /\
    t = (m, pk, target_version s) /\
    Forall (fun mb => bucket_match (target_name s) (target_version s) (snd mb) = false) pre.
Proof.
  induction cat as [|[m0 b0] cat IH].
  - rewrite find_package_nil. split; [discriminate|].
    intros (pre & m & bucket & pk & rest & Hc & _). destruct pre; discriminate Hc.
  - rewrite find_package_cons. split.
    + destruct (dict_get (target_name s) b0) as [f|] eqn:Hg;
        [destruct (has_version f (target_version s)) eqn:Hh|].
      * intros H. injection H as <-.
        exists [], m0, b0, f, cat. repeat split; auto.
      * intros H. apply IH in H. destruct H as (pre & m & bucket & pk & rest & Hc & H1 & H2 & H3 & H4).
        exists ((m0, b0) :: pre), m, bucket, pk, rest.
        repeat split; auto; [rewrite Hc; reflexivity|].
        constructor; [|exact H4]. simpl. unfold bucket_match. rewrite Hg. exact Hh.
      * intros H. apply IH in H. destruct H as (pre & m & bucket & pk & rest & Hc & H1 & H2 & H3 & H4).
        exists ((m0, b0) :: pre), m, bucket, pk, rest.
        repeat split; auto; [rewrite Hc; reflexivity|].
        constructor; [|exact H4]. simpl. unfold bucket_match. rewrite Hg. reflexivity.
    + intros (pre & m & bucket & pk & rest & Hc & Hg & Hh & Ht & Hpre).
      destruct pre as [|[m1 b1] pre].
      * simpl in Hc. injection Hc as -> -> ->. rewrite Hg, Hh, Ht. reflexivity.
      * simpl in Hc. injection Hc as -> -> Hc.
        apply Forall_cons_iff in Hpre as [Hb Hpre']. simpl in Hb. unfold bucket_match in Hb.
        assert (Hrest : find_package cat s = Some t).
        { apply IH. exists pre, m, bucket, pk, rest. repeat split; assumption. }
        destruct (dict_get (target_name s) b1) as [f|]; [|exact Hrest].
        rewrite Hb. exact Hrest.
Qed.

(** *** The modulefiles directory: [get_deps_path] *)

Lemma str_app_assoc (a b c : string) : ((a ++ b) ++ c)%string = (a ++ b ++ c)%string.
Proof. induction a as [|x a IH]; simpl; [reflexivity | f_equal; exact IH]. Qed.

Lemma dash_add_empty (acc x : string) :
  (if String.eqb x "" then acc else acc ++ "-" ++ x) = "" <-> acc = "" /\ x = "".
Proof.
  destruct (String.eqb x "") eqn:E.
  - apply String.eqb_eq in E. subst x. tauto.
  - split.
    + intros H. exfalso. exact (app_nonempty acc ("-" ++ x) ltac:(discriminate) H).
    + intros [_ ->]. discriminate E.
Qed.

Lemma get_dir_empty (d : dict slot) (k x : string) :
  get_dir d k = Some x -> (x = "" <-> dict_get k d = None).
Proof.
  unfold get_dir. destruct (dict_get k d) as [s|].
  - intros H. destruct s as [|pk vs|pk v]; try discriminate H.
    destruct vs as [|v vs]; [discriminate H|]. injection H as <-.
    split; [|discriminate].
    intros H. exfalso. exact (app_nonempty (name pk) ("-" ++ v) ltac:(discriminate) H).
  - intros H. injection H as <-. tauto.
Qed.

(** The directory of the version entry points and of the base module file
    is [Core] exactly when the assignment has none of the five axes: an
    axis present always contributes a nonempty [name-version] part. *)
Theorem deps_path_core (d : dict slot) :
  get_deps_path d = Some "" <-> (forall k, In k prefix_axis_keys -> dict_get k d = None).
Proof.
  split.
  - unfold get_deps_path. intros H.
    destruct (get_dir d "compiler") as [c|] eqn:Hc; [|discriminate H].
    destruct (get_dir d "cuda") as [cu|] eqn:Hcu; [|discriminate H].
    destruct (get_dir d "mpi") as [mp|] eqn:Hm; [|discriminate H].
    destruct (get_dir d "python") as [py|] eqn:Hpy; [|discriminate H].
    destruct (get_dir d "boost") as [bo|] eqn:Hb; [|discriminate H].
    injection H as H.
    apply dash_add_empty in H as [H E5]. apply dash_add_empty in H as [H E4].
    apply dash_add_empty in H as [H E3]. apply dash_add_empty in H as [E1 E2].
    apply get_dir_empty in Hc, Hcu, Hm, Hpy, Hb.
    intros k Hk. simpl in Hk.
    destruct Hk as [<-|[<-|[<-|[<-|[<-|[]]]]]]; tauto.
  - intros H. unfold get_deps_path, get_dir.
    rewrite (H "compiler"), (H "cuda"), (H "mpi"), (H "python"), (H "boost")
      by (simpl; tauto).
    reflexivity.
Qed.

Lemma dash_add_keep (acc x : string) :
  (acc = "" \/ exists rest, acc = "-" ++ rest) ->
  let y := if String.eqb x "" then acc else acc ++ "-" ++ x in
  y = "" \/ exists rest, y = "-" ++ rest.
Proof.
  intros Hacc y. subst y. destruct (String.eqb x ""); [exact Hacc|].
  right. destruct Hacc as [-> | (rest & ->)].
  - exists x. reflexivity.
  - exists (rest ++ "-" ++ x). rewrite str_app_assoc. reflexivity.
Qed.

(** Without a compiler axis, the directory name of an assignment with
    another axis starts with a dash: the parts after the compiler are
    always joined with a leading [-]. *)
Theorem deps_path_no_compiler (d : dict slot) (s : string) :
  dict_get "compiler" d = None -> get_deps_path d = Some s ->
  s = "" \/ exists rest, s = "-" ++ rest.
Proof.
  intros Hc H. unfold get_deps_path in H.
  assert (Hc' : get_dir d "compiler" = Some "") by (unfold get_dir; rewrite Hc; reflexivity).
  rewrite Hc' in H.
  destruct (get_dir d "cuda") as [cu|]; [|discriminate H].
  destruct (get_dir d "mpi") as [mp|]; [|discriminate H].
  destruct (get_dir d "python") as [py|]; [|discriminate H].
  destruct (get_dir d "boost") as [bo|]; [|discriminate H].
  injection H as <-.
  repeat apply dash_add_keep. left. reflexivity.
Qed.

(** *** The base path of the generated base module file *)

Lemma last_slash_head_app (x t : string) :
  last_slash_head t = None -> last_slash_head (x ++ "/" ++ t) = Some (x ++ "/").
Proof.
  intros Ht. induction x as [|c x IH].
  - simpl. rewrite Ht. reflexivity.
  - change (String c x ++ "/" ++ t) with (String c (x ++ "/" ++ t)).
    cbn [last_slash_head]. rewrite IH. reflexivity.
Qed.

Lemma all_slashes_app (x : string) :
  x <> "" -> ends_with_slash x = false -> all_slashes (x ++ "/") = false.
Proof.
  induction x as [|c x IH]; intros Hx He; [congruence|].
  destruct x as [|c' x'].
  - simpl in He |- *. rewrite He. reflexivity.
  - rewrite ends_with_slash_cons in He by discriminate.
    change (String c (String c' x') ++ "/") with (String c (String c' x' ++ "/")).
    cbn [all_slashes]. rewrite IH by (discriminate || exact He).
    apply andb_false_r.
Qed.

Lemma rstrip_slash_app (x : string) :
  ends_with_slash x = false -> rstrip_slash (x ++ "/") = x.
Proof.
  induction x as [|c x IH]; intros He; [reflexivity|].
  change (String c x ++ "/") with (String c (x ++ "/")). simpl rstrip_slash.
  destruct x as [|c' x'].
  - simpl in He. simpl. rewrite He. reflexivity.
  - rewrite ends_with_slash_cons in He by discriminate.
    rewrite IH by exact He. reflexivity.
Qed.

Lemma dirname_join_nan (x : string) :
  x <> "" -> ends_with_slash x = false -> dirname (join x "nan") = x.
Proof.
  intros Hx He. rewrite join_plain by (auto; reflexivity).
  unfold dirname. rewrite last_slash_head_app by reflexivity.
  rewrite all_slashes_app by assumption. apply rstrip_slash_app. exact He.
Qed.

Lemma join_name_plain (path n : string) :
  n <> "" -> ends_with_slash n = false ->
  join path n <> "" /\ ends_with_slash (join path n) = false.
Proof.
  intros Hn He. unfold join.
  destruct (starts_with_slash n); [auto|].
  destruct (String.eqb path "" || ends_with_slash path).
  - split; [apply app_nonempty; exact Hn | rewrite ends_with_slash_app; assumption].
  - split; [apply app_nonempty; discriminate|].
    rewrite ends_with_slash_app by discriminate.
    change ("/" ++ n) with (String "/"%char n).
    rewrite ends_with_slash_cons by exact Hn. exact He.
Qed.

Lemma prefix_base_version (p : Package) (basepath arch : string) (r : dict slot)
  (pn v : string) :
  name p <> "" -> ends_with_slash (name p) = false ->
  prefix p basepath arch "nan" r = Some pn ->
  prefix p basepath arch v r = Some (join (dirname pn) v).
Proof.
  intros Hn He. unfold prefix.
  destruct (with_axes (join basepath arch) r) as [path|]; [|discriminate].
  intros H. injection H as <-.
  destruct (join_name_plain path (name p) Hn He) as [H1 H2].
  rewrite dirname_join_nan by assumption. reflexivity.
Qed.

(** When [base_modulefile] writes the base module file, the base path that
    file computes for a version, [pathJoin(prefix_base, fullVersion)],
    is the install prefix of that version under the same assignment: all
    the versions of the package share the directory [prefix_base]. *)
Theorem base_module_base_path (p : Package) (basepath arch : string) (r : dict slot)
  (bd : list dep) (st : state) (bm entry : string) (st' : state) :
  name p <> "" -> ends_with_slash (name p) = false ->
  existsb (String.eqb bm) (fs st) = false ->
  base_modulefile p basepath arch r bd st = (Ok (bm, entry), st') ->
  exists prefix_base,
    In (bm, base_content p prefix_base bd) (files st') /\
    forall v, prefix p basepath arch v r = Some (join prefix_base v).
Proof.
  intros Hn He Hbm H. unfold base_modulefile in H. cbv zeta in H.
  apply bind_ok in H. destruct H as (dd & s1 & Hdd & H).
  destruct (get_deps_path r) as [dd0|]; [|discriminate Hdd].
  injection Hdd as <- <-.
  apply bind_ok in H. destruct H as (pre & s2 & Hpre & H).
  destruct (prefix p basepath arch "nan" r) as [pre0|] eqn:Ep; [|discriminate Hpre].
  injection Hpre as <- <-.
  apply bind_ok in H. destruct H as (b & s3 & Hb & H).
  unfold path_exists in Hb. injection Hb as <- <-.
  match type of H with
  | (if existsb (String.eqb ?x) (fs st) then _ else _) _ = _ =>
      destruct (existsb (String.eqb x) (fs st)) eqn:Eb
  end.
  - injection H as <- _. rewrite Hbm in Eb. discriminate Eb.
  - apply bind_ok in H. destruct H as (u & s4 & _ & H).
    apply bind_ok in H. destruct H as (u' & s5 & Hw & H).
    injection H as <- _ <-. injection Hw as _ <-.
    exists (dirname pre0). split; [left; reflexivity|].
    intros v. apply prefix_base_version; assumption.
Qed.

(** *** The command-line check of [main] *)

Lemma fold_or (cl : list bool) (a : bool) :
  fold_left (fun opt1 opt2 : bool => opt1 || opt2) cl a = a || existsb (fun b => b) cl.
Proof.
  revert a. induction cl as [|x cl IH]; intros a; simpl.
  - destruct a; reflexivity.
  - rewrite IH. destruct a, x; reflexivity.
Qed.

Lemma fold_xor (cl : list bool) (a : bool) :
  fold_left (fun opt1 opt2 : bool => if opt1 then negb opt2 else opt2) cl a =
    xorb a (Nat.odd (length (filter (fun b => b) cl))).
Proof.
  revert a. induction cl as [|x cl IH]; intros a; simpl.
  - destruct a; reflexivity.
  - rewrite IH. destruct x; simpl; [|destruct a; reflexivity].
    rewrite Nat.odd_succ, <- Nat.negb_odd.
    destruct a, (Nat.odd (length (filter (fun b => b) cl))); reflexivity.
Qed.

Lemma existsb_filter_nil (cl : list bool) :
  existsb (fun b => b) cl = false -> length (filter (fun b => b) cl) = 0.
Proof.
  induction cl as [|x cl IH]; simpl; [reflexivity|].
  destruct x; [discriminate | exact IH].
Qed.

(** [main] goes on exactly when an odd number of the commands [--list],
    [--available], [--install], [--uninstall] is given: one or three
    commands are accepted, none, two or four end in [exit(1)]. *)
Theorem check_commands_odd (command_list : list bool) (st : state) :
  check_commands command_list st =
    (if Nat.odd (length (filter (fun b => b) command_list)) then Ok tt else Exit 1, st).
Proof.
  unfold check_commands. rewrite fold_or, fold_xor. simpl orb.
  destruct (existsb (fun b => b) command_list) eqn:E.
  - simpl xorb. destruct (Nat.odd (length (filter (fun b => b) command_list)));
      reflexivity.
  - rewrite existsb_filter_nil by exact E. reflexivity.
Qed.

(** Witness: an assignment with an MPI axis and no compiler. *)
Lemma deps_path_no_compiler_witness :
  get_deps_path [("mpi", STuple ex_openmpi ["4.0"])] = Some "-openmpi-4.0" /\
  ("-openmpi-4.0" = "" \/ exists rest, "-openmpi-4.0" = "-" ++ rest).
Proof.
  split; [reflexivity|].
  apply (deps_path_no_compiler [("mpi", STuple ex_openmpi ["4.0"])] "-openmpi-4.0");
    reflexivity.
Defined.

(** Witness: the base module file of [zlib] under a [gcc-9] assignment. *)
Lemma base_module_base_path_witness :
  exists prefix_base,
    In ("/opt/apps/x86_64/modulefiles/gcc-9/.base/zlib/generic.lua",
        base_content ex_zlib prefix_base [])
       (files (snd (base_modulefile ex_zlib "/opt/apps" "x86_64"
                      [("compiler", STuple ex_gcc ["9"])] [] ex_state))) /\
    forall v, prefix ex_zlib "/opt/apps" "x86_64" v [("compiler", STuple ex_gcc ["9"])]
              = Some (join prefix_base v).
Proof.
  apply (base_module_base_path ex_zlib "/opt/apps" "x86_64"
           [("compiler", STuple ex_gcc ["9"])] [] ex_state
           "/opt/apps/x86_64/modulefiles/gcc-9/.base/zlib/generic.lua"
           "/opt/apps/x86_64/modulefiles/gcc-9/zlib").
  - discriminate.
  - reflexivity.
  - reflexivity.
  - vm_compute. reflexivity.
Defined.

(** *** Module files: [base_modulefile] and [write_modulefile] *)

Lemma existsb_in (p : string) (l : list string) :
  existsb (String.eqb p) l = true <-> In p l.
Proof.
  rewrite existsb_exists. split.
  - intros (x & Hx & E). apply String.eqb_eq in E. subst x. exact Hx.
  - intros H. exists p. split; [exact H | apply String.eqb_refl].
Qed.

Lemma base_modulefile_post (p : Package) (basepath arch : string) (r : dict slot)
  (bd : list dep) (st : state) be s :
  base_modulefile p basepath arch r bd st = (Ok be, s) ->
  In (fst be) (fs s) /\
  forall bd' st', In (fst be) (fs st') ->
    base_modulefile p basepath arch r bd' st' = (Ok be, st').
Proof.
  intros H. unfold base_modulefile in H |- *. cbv zeta in H |- *.
  apply bind_ok in H. destruct H as (dd & s1 & Hdd & H).
  destruct (get_deps_path r) as [dd0|] eqn:Edd; [|discriminate Hdd].
  injection Hdd as <- <-.
  apply bind_ok in H. destruct H as (pre & s2 & Hpre & H).
  destruct (prefix p basepath arch "nan" r) as [pre0|] eqn:Ep; [|discriminate Hpre].
  injection Hpre as <- <-.
  apply bind_ok in H. destruct H as (b & s3 & Hb & H).
  unfold path_exists in Hb. injection Hb as <- <-.
  match type of H with
  | (if existsb (String.eqb ?x) (fs st) then _ else _) _ = _ =>
      destruct (existsb (String.eqb x) (fs st)) eqn:Eb
  end.
  - injection H as <- <-. split; [apply existsb_in; exact Eb|].
    intros bd' st' Hin. unfold bind at 1. simpl.
    unfold bind at 1. simpl. unfold bind, path_exists. simpl.
    apply existsb_in in Hin. simpl in Hin. rewrite Hin. reflexivity.
  - apply bind_ok in H. destruct H as (u & s4 & _ & H).
    apply bind_ok in H. destruct H as (u' & s5 & Hw & H).
    injection H as <- <-. injection Hw as _ <-. split; [left; reflexivity|].
    intros bd' st' Hin. unfold bind at 1. simpl.
    unfold bind at 1. simpl. unfold bind, path_exists. simpl.
    apply existsb_in in Hin. simpl in Hin. rewrite Hin. reflexivity.
Qed.

Lemma write_modulefile_post (p : Package) (basepath arch v : string) (r : dict slot)
  (bd : list dep) (st st1 : state) :
  write_modulefile p basepath arch v r bd st = (Ok tt, st1) ->
  exists be,
    (forall bd' st', In (fst be) (fs st') ->
       base_modulefile p basepath arch r bd' st' = (Ok be, st')) /\
    (exists s0, base_modulefile p basepath arch r bd st = (Ok be, s0)) /\
    In (fst be) (fs st1) /\ In (snd be) (fs st1) /\
    In (join (snd be) (v ++ ".lua")) (fs st1).
Proof.
  intros H. unfold write_modulefile in H. cbv zeta in H.
  apply bind_ok in H. destruct H as (be & s1 & Hb & H).
  destruct (base_modulefile_post _ _ _ _ _ _ _ _ Hb) as [Hin1 Hagain].
  apply bind_ok in H. destruct H as (u & s2 & He & H).
  apply bind_ok in H. destruct H as (b & s3 & Hx & H).
  unfold path_exists in Hx. injection Hx as <- <-.
  exists be. split; [exact Hagain|]. split; [exists s1; exact Hb|].
  pose proof (grows_ensure_dir _ _ _ _ He) as G1.
  pose proof (ensure_dir_in _ _ _ _ He) as Hin2.
  destruct (existsb (String.eqb (join (snd be) (v ++ ".lua"))) (fs s2)) eqn:Ex.
  - injection H as <-. split; [exact (G1 _ Hin1)|]. split; [exact Hin2|].
    apply existsb_in. exact Ex.
  - injection H as <-. simpl. split; [right; exact (G1 _ Hin1)|].
    split; [right; exact Hin2 | left; reflexivity].
Qed.

(** Once [write_modulefile] has succeeded under an assignment, no later
    call under that assignment writes a file: a call for the same version
    changes nothing (whatever its build dependencies), and a call for any
    version [v'] returns normally and only adds the link [v'.lua] next to
    the one the first call made (nothing if it exists), so the base module
    file keeps the content, with the [load] lines, written by the first
    call. *)
Theorem write_modulefile_again (p : Package) (basepath arch v : string) (r : dict slot)
  (bd : list dep) (st st1 : state) :
  write_modulefile p basepath arch v r bd st = (Ok tt, st1) ->
  (forall bd' st', incl (fs st1) (fs st') ->
     write_modulefile p basepath arch v r bd' st' = (Ok tt, st')) /\
  (exists entry,
     In (join entry (v ++ ".lua")) (fs st1) /\
     forall v' bd',
       write_modulefile p basepath arch v' r bd' st1 =
         (Ok tt, mkState (if existsb (String.eqb (join entry (v' ++ ".lua"))) (fs st1)
                          then fs st1 else join entry (v' ++ ".lua") :: fs st1)
                         (files st1) (runs st1))).
Proof.
  intros H.
  destruct (write_modulefile_post _ _ _ _ _ _ _ _ H)
    as (be & Hagain & _ & Hin1 & Hin2 & Hin3).
  split.
  - intros bd' st' Hincl. unfold write_modulefile. cbv zeta.
    rewrite (bind_ok_step _ _ _ _ _ (Hagain bd' st' (Hincl _ Hin1))).
    rewrite (bind_ok_step _ _ _ _ _ (ensure_dir_present _ _ (Hincl _ Hin2))).
    unfold bind, path_exists.
    assert (E : existsb (String.eqb (join (snd be) (v ++ ".lua"))) (fs st') = true)
      by (apply existsb_in; exact (Hincl _ Hin3)).
    rewrite E. reflexivity.
  - exists (snd be). split; [exact Hin3|].
    intros v' bd'. unfold write_modulefile. cbv zeta.
    rewrite (bind_ok_step _ _ _ _ _ (Hagain bd' st1 Hin1)).
    rewrite (bind_ok_step _ _ _ _ _ (ensure_dir_present _ _ Hin2)).
    unfold bind, path_exists.
    destruct (existsb (String.eqb (join (snd be) (v' ++ ".lua"))) (fs st1));
      [destruct st1; reflexivity | reflexivity].
Qed.

(** Witness: [zlib/1.2] under [gcc-9], then again and for other versions. *)
Lemma write_modulefile_again_witness :
  (forall bd' st',
     incl (fs (snd (write_modulefile ex_zlib "/opt" "x86_64" "1.2"
                     [("compiler", STuple ex_gcc ["9"])] [] ex_state))) (fs st') ->
     write_modulefile ex_zlib "/opt" "x86_64" "1.2" [("compiler", STuple ex_gcc ["9"])]
                      bd' st' = (Ok tt, st')) /\
  (exists entry,
     In (join entry ("1.2" ++ ".lua"))
        (fs (snd (write_modulefile ex_zlib "/opt" "x86_64" "1.2"
                   [("compiler", STuple ex_gcc ["9"])] [] ex_state))) /\
     forall v' bd',
       write_modulefile ex_zlib "/opt" "x86_64" v' [("compiler", STuple ex_gcc ["9"])] bd'
         (snd (write_modulefile ex_zlib "/opt" "x86_64" "1.2"
                 [("compiler", STuple ex_gcc ["9"])] [] ex_state)) =
       (Ok tt,
        mkState
          (if existsb (String.eqb (join entry (v' ++ ".lua")))
                (fs (snd (write_modulefile ex_zlib "/opt" "x86_64" "1.2"
                           [("compiler", STuple ex_gcc ["9"])] [] ex_state)))
           then fs (snd (write_modulefile ex_zlib "/opt" "x86_64" "1.2"
                          [("compiler", STuple ex_gcc ["9"])] [] ex_state))
           else join entry (v' ++ ".lua")
                :: fs (snd (write_modulefile ex_zlib "/opt" "x86_64" "1.2"
                              [("compiler", STuple ex_gcc ["9"])] [] ex_state)))
          (files (snd (write_modulefile ex_zlib "/opt" "x86_64" "1.2"
                         [("compiler", STuple ex_gcc ["9"])] [] ex_state)))
          (runs (snd (write_modulefile ex_zlib "/opt" "x86_64" "1.2"
                        [("compiler", STuple ex_gcc ["9"])] [] ex_state))))).
Proof.
  apply (write_modulefile_again ex_zlib "/opt" "x86_64" "1.2"
           [("compiler", STuple ex_gcc ["9"])] [] ex_state).
  vm_compute. reflexivity.
Defined.

(** *** Uninstallation: [uninstall_version] *)

Lemma join_empty_core (x : string) :
  x <> "" -> ends_with_slash x = false -> join (join x "") "Core" = join x "Core".
Proof.
  intros Hx He.
  rewrite (join_plain x "") by (auto; reflexivity).
  rewrite (join_plain x "Core") by (auto; reflexivity).
  unfold join. change (starts_with_slash "Core") with false. cbv iota.
  rewrite (ends_with_slash_app x ("/" ++ "")) by discriminate.
  rewrite orb_true_r. apply str_app_assoc.
Qed.

Lemma base_modulefile_link (p : Package) (basepath arch : string) (r : dict slot)
  (bd : list dep) (st : state) be s :
  base_modulefile p basepath arch r bd st = (Ok be, s) ->
  exists dd, get_deps_path r = Some dd /\
    forall f, join (snd be) f =
      join_all basepath [arch; "modulefiles"; if String.eqb dd "" then "Core" else dd;
                         name p; f].
Proof.
  intros H. unfold base_modulefile in H. cbv zeta in H.
  apply bind_ok in H. destruct H as (dd & s1 & Hdd & H).
  destruct (get_deps_path r) as [dd0|] eqn:Edd; [|discriminate Hdd].
  injection Hdd as <- <-.
  apply bind_ok in H. destruct H as (pre & s2 & Hpre & H).
  destruct (prefix p basepath arch "nan" r); [|discriminate Hpre].
  injection Hpre as <- <-.
  apply bind_ok in H. destruct H as (b & s3 & Hb & H).
  unfold path_exists in Hb. injection Hb as <- <-.
  exists dd0. split; [reflexivity|].
  assert (Hbe : snd be =
            (if String.eqb dd0 "" then join_all (join (join (join basepath arch) "modulefiles") dd0)
                                                ["Core"; name p]
             else join (join (join (join basepath arch) "modulefiles") dd0) (name p))).
  { match type of H with
    | (if ?c then _ else _) _ = _ => destruct c
    end.
    - injection H as <- _. reflexivity.
    - apply bind_ok in H. destruct H as (u & s4 & _ & H).
      apply bind_ok in H. destruct H as (u' & s5 & _ & H).
      injection H as <- _. reflexivity. }
  intros f. rewrite Hbe. unfold join_all. simpl fold_left.
  destruct (String.eqb dd0 "") eqn:E; [|reflexivity].
  apply String.eqb_eq in E. subst dd0.
  destruct (join_name_plain (join basepath arch) "modulefiles" ltac:(discriminate) eq_refl)
    as [H1 H2].
  rewrite join_empty_core by assumption. reflexivity.
Qed.

(** Uninstalling removes what an installation created: after
    [write_modulefile] has made the entry point of version [v0] under an
    assignment whose prefix exists, the innermost step of
    [uninstall_version] for that version and assignment removes the
    prefix and every path below it, keeping every other path.  When the
    link [write_modulefile] created lies outside the prefix, the step then
    removes exactly that link too and returns normally; when the link lies
    inside the prefix, [rmtree] has already removed it and [os.remove]
    raises.  It writes no file and runs no build. *)
Theorem uninstall_removes_install (p : Package) (basepath arch v0 : string)
  (r : dict slot) (bd : list dep) (st st1 : state) (pre : string) :
  write_modulefile p basepath arch v0 r bd st = (Ok tt, st1) ->
  prefix p basepath arch v0 r = Some pre ->
  In pre (fs st1) ->
  exists be s0,
    base_modulefile p basepath arch r bd st = (Ok be, s0) /\
    let link := join (snd be) (v0 ++ ".lua") in
    let kept := filter (fun x => negb (String.eqb x pre || String.prefix (pre ++ "/") x))
                       (fs st1) in
    (forall x, In x kept <-> In x (fs st1) /\ x <> pre /\ String.prefix (pre ++ "/") x = false) /\
    (link <> pre -> String.prefix (pre ++ "/") link = false ->
       uninstall_point p basepath arch v0 r st1 =
         (inl tt, mkState (filter (fun x => negb (String.eqb x link)) kept)
                          (files st1) (runs st1)) /\
       (forall x, In x (filter (fun x => negb (String.eqb x link)) kept) <->
                  In x kept /\ x <> link)) /\
    (link = pre \/ String.prefix (pre ++ "/") link = true ->
       uninstall_point p basepath arch v0 r st1 =
         (inr UFileNotFound, mkState kept (files st1) (runs st1))).
Proof.
  intros Hw Hp Hin.
  destruct (write_modulefile_post _ _ _ _ _ _ _ _ Hw)
    as (be & _ & (s0 & Hb) & _ & _ & Hlink).
  exists be, s0. split; [exact Hb|].
  destruct (base_modulefile_link _ _ _ _ _ _ _ _ Hb) as (dd & Hdd & Hj).
  cbv zeta.
  set (link := join (snd be) (v0 ++ ".lua")).
  set (fs1 := filter (fun x => negb (String.eqb x pre || String.prefix (pre ++ "/") x))
                     (fs st1)).
  assert (Hkept : forall x, In x fs1 <->
                  In x (fs st1) /\ x <> pre /\ String.prefix (pre ++ "/") x = false).
  { intros x. unfold fs1. rewrite filter_In. split.
    - intros [H1 H2]. apply negb_true_iff, orb_false_iff in H2. destruct H2 as [E1 E2].
      apply String.eqb_neq in E1. tauto.
    - intros (H1 & H2 & H3). split; [exact H1|]. apply String.eqb_neq in H2.
      rewrite H2, H3. reflexivity. }
  assert (Ein : existsb (String.eqb pre) (fs st1) = true) by (apply existsb_in; exact Hin).
  assert (Erun : uninstall_point p basepath arch v0 r st1 =
                 uremove link (mkState fs1 (files st1) (runs st1))).
  { cbv [uninstall_point ubind ulift uret uexists urmtree]. rewrite Hp, Ein.
    cbv zeta. rewrite Hdd. rewrite <- (Hj (v0 ++ ".lua")). fold link.
    reflexivity. }
  split; [exact Hkept|]. split.
  - intros Hne Hnp. rewrite Erun.
    assert (Hl1 : In link fs1).
    { apply Hkept. split; [exact Hlink|]. split; [exact Hne | exact Hnp]. }
    assert (Eln : existsb (String.eqb link) fs1 = true) by (apply existsb_in; exact Hl1).
    unfold uremove. simpl fs. rewrite Eln. split; [reflexivity|].
    intros x. rewrite filter_In. split.
    + intros [H1 H2]. apply negb_true_iff, String.eqb_neq in H2. tauto.
    + intros [H1 H2]. split; [exact H1|]. apply String.eqb_neq in H2. rewrite H2. reflexivity.
  - intros Hinside. rewrite Erun.
    assert (Hl1 : ~ In link fs1).
    { intros H. apply Hkept in H. destruct H as (_ & H1 & H2).
      destruct Hinside as [H|H]; [contradiction | congruence]. }
    assert (Eln : existsb (String.eqb link) fs1 = false).
    { destruct (existsb (String.eqb link) fs1) eqn:E; [|reflexivity].
      apply existsb_in in E. contradiction. }
    unfold uremove. simpl fs. rewrite Eln. reflexivity.
Qed.

(** Witness: [zlib/1.2] under [gcc-9], installed with a file in its
    prefix; the step removes the prefix, that file and the link, and
    returns normally. *)
Lemma uninstall_removes_install_witness :
  write_modulefile ex_zlib "/opt" "x86_64" "1.2" [("compiler", STuple ex_gcc ["9"])] []
    (mkState ["/opt/x86_64/gcc-9/zlib/1.2/lib/libz.so"; "/opt/x86_64/gcc-9/zlib/1.2"] [] [])
  = (Ok tt, snd (write_modulefile ex_zlib "/opt" "x86_64" "1.2"
                   [("compiler", STuple ex_gcc ["9"])] []
                   (mkState ["/opt/x86_64/gcc-9/zlib/1.2/lib/libz.so";
                             "/opt/x86_64/gcc-9/zlib/1.2"] [] []))) /\
  prefix ex_zlib "/opt" "x86_64" "1.2" [("compiler", STuple ex_gcc ["9"])]
  = Some "/opt/x86_64/gcc-9/zlib/1.2" /\
  In "/opt/x86_64/gcc-9/zlib/1.2"
     (fs (snd (write_modulefile ex_zlib "/opt" "x86_64" "1.2"
                 [("compiler", STuple ex_gcc ["9"])] []
                 (mkState ["/opt/x86_64/gcc-9/zlib/1.2/lib/libz.so";
                           "/opt/x86_64/gcc-9/zlib/1.2"] [] [])))) /\
  uninstall_point ex_zlib "/opt" "x86_64" "1.2" [("compiler", STuple ex_gcc ["9"])]
    (snd (write_modulefile ex_zlib "/opt" "x86_64" "1.2"
            [("compiler", STuple ex_gcc ["9"])] []
            (mkState ["/opt/x86_64/gcc-9/zlib/1.2/lib/libz.so";
                      "/opt/x86_64/gcc-9/zlib/1.2"] [] [])))
  = (inl tt,
     mkState ["/opt"; "/opt/x86_64"; "/opt/x86_64/modulefiles";
              "/opt/x86_64/modulefiles/gcc-9"; "/opt/x86_64/modulefiles/gcc-9/zlib";
              "/opt/x86_64/modulefiles/gcc-9/.base/zlib/generic.lua"; "/opt";
              "/opt/x86_64"; "/opt/x86_64/modulefiles"; "/opt/x86_64/modulefiles/gcc-9";
              "/opt/x86_64/modulefiles/gcc-9/.base";
              "/opt/x86_64/modulefiles/gcc-9/.base/zlib"]
             (files (snd (write_modulefile ex_zlib "/opt" "x86_64" "1.2"
                            [("compiler", STuple ex_gcc ["9"])] []
                            (mkState ["/opt/x86_64/gcc-9/zlib/1.2/lib/libz.so";
                                      "/opt/x86_64/gcc-9/zlib/1.2"] [] []))))
             []).
Proof.
  assert (H1 : write_modulefile ex_zlib "/opt" "x86_64" "1.2"
                 [("compiler", STuple ex_gcc ["9"])] []
                 (mkState ["/opt/x86_64/gcc-9/zlib/1.2/lib/libz.so";
                           "/opt/x86_64/gcc-9/zlib/1.2"] [] [])
               = (Ok tt, snd (write_modulefile ex_zlib "/opt" "x86_64" "1.2"
                   [("compiler", STuple ex_gcc ["9"])] []
                   (mkState ["/opt/x86_64/gcc-9/zlib/1.2/lib/libz.so";
                             "/opt/x86_64/gcc-9/zlib/1.2"] [] []))))
    by (vm_compute; reflexivity).
  assert (H2 : prefix ex_zlib "/opt" "x86_64" "1.2" [("compiler", STuple ex_gcc ["9"])]
               = Some "/opt/x86_64/gcc-9/zlib/1.2") by (vm_compute; reflexivity).
  assert (H3 : In "/opt/x86_64/gcc-9/zlib/1.2"
                 (fs (snd (write_modulefile ex_zlib "/opt" "x86_64" "1.2"
                             [("compiler", STuple ex_gcc ["9"])] []
                             (mkState ["/opt/x86_64/gcc-9/zlib/1.2/lib/libz.so";
                                       "/opt/x86_64/gcc-9/zlib/1.2"] [] [])))))
    by (vm_compute; repeat first [left; reflexivity | right]).
  split; [exact H1|]. split; [exact H2|]. split; [exact H3|].
  destruct (uninstall_removes_install ex_zlib "/opt" "x86_64" "1.2"
              [("compiler", STuple ex_gcc ["9"])] []
              (mkState ["/opt/x86_64/gcc-9/zlib/1.2/lib/libz.so";
                        "/opt/x86_64/gcc-9/zlib/1.2"] [] [])
              _ "/opt/x86_64/gcc-9/zlib/1.2" H1 H2 H3) as (be & s0 & Hb & Hout).
  vm_compute in Hb. injection Hb as Hbe _. subst be.
  cbv zeta in Hout. destruct Hout as (_ & Hout & _).
  destruct Hout as [E _].
  - intros E. vm_compute in E. discriminate E.
  - vm_compute. reflexivity.
  - rewrite E. vm_compute. reflexivity.
Defined.

Lemma uiter_inv (P Q : dict slot -> Prop) (vs : list string) (d : dict slot)
  (body : string -> dict slot -> list (dict slot) * dict slot) :
  P d ->
  (forall v d', In v vs -> P d' -> Forall Q (fst (body v d')) /\ P (snd (body v d'))) ->
  Forall Q (fst (uiter vs d body)) /\ P (snd (uiter vs d body)).
Proof.
  revert d. induction vs as [|v vs IH]; intros d Hd Hb; simpl.
  - split; [constructor | exact Hd].
  - destruct (Hb v d (or_introl eq_refl) Hd) as [Hq Hp].
    destruct (body v d) as [ps d1] eqn:E1. simpl in Hq, Hp.
    destruct (IH d1 Hp (fun v' d' Hv => Hb v' d' (or_intror Hv))) as [Hq' Hp'].
    destruct (uiter vs d1 body) as [ps' d2]. simpl in *.
    split; [apply Forall_app; split; assumption | exact Hp'].
Qed.

Lemma ulevel_inv (P Pin Q : dict slot -> Prop) (k : string) (o : option Package)
  (body : dict slot -> list (dict slot) * dict slot) (d : dict slot) :
  P d ->
  (forall v d', In v (extract_versions o) -> P d' -> Pin (uset k o v d')) ->
  (forall d', Pin d' -> P d') ->
  (forall d', Pin d' -> Forall Q (fst (body d')) /\ Pin (snd (body d'))) ->
  Forall Q (fst (ulevel k o body d)) /\ P (snd (ulevel k o body d)).
Proof.
  intros Hd Hset Hw Hb. unfold ulevel. apply uiter_inv; [exact Hd|].
  intros v d' Hv Hp. destruct (Hb _ (Hset v d' Hv Hp)) as [Hq Hp'].
  split; [exact Hq | apply Hw; exact Hp'].
Qed.

Lemma axis_slot_weaken (k : string) (o : option Package) (s : bool) (d : dict slot) :
  axis_slot k o true d -> axis_slot k o s d.
Proof.
  destruct o; simpl; [|auto]. intros [[H _]|H]; [discriminate H | right; exact H].
Qed.

Lemma axis_slot_set_other (k k' : string) (o o' : option Package) (s : bool) v d :
  k <> k' -> axis_slot k o s d -> axis_slot k o s (uset k' o' v d).
Proof.
  intros Hk. destruct o' as [pk'|]; simpl; [|auto].
  unfold axis_slot. rewrite dict_get_set.
  apply String.eqb_neq in Hk. rewrite Hk. auto.
Qed.

Lemma axis_slot_set_same (k : string) (o : option Package) (s : bool) v d :
  In v (extract_versions o) -> axis_slot k o s d -> axis_slot k o true (uset k o v d).
Proof.
  destruct o as [pk|]; simpl; [|auto]. intros Hv _.
  right. exists v. split; [exact Hv|]. rewrite dict_get_set, String.eqb_refl. reflexivity.
Qed.

Ltac slots_solve :=
  intros;
  repeat match goal with
  | H : axes_slots _ _ _ _ _ _ _ |- _ => destruct H as (? & ? & ? & ? & ?)
  end;
  repeat split;
  first [ eapply axis_slot_set_same; eassumption
        | apply axis_slot_set_other; [discriminate|]; assumption
        | apply axis_slot_weaken; assumption
        | assumption ].

Lemma upoints_slots (a : uaxes) :
  Forall (axes_slots a true true true true true) (fst (upoints a [])).
Proof.
  assert (H0 : axes_slots a false false false false false []).
  { unfold axes_slots, axis_slot.
    repeat split; match goal with |- match ?o with _ => _ end => destruct o end; auto. }
  unfold upoints.
  apply (ulevel_inv (axes_slots a false false false false false)
                    (axes_slots a true false false false false)); [exact H0|slots_solve..|].
  intros d1 H1.
  apply (ulevel_inv (axes_slots a true false false false false)
                    (axes_slots a true true false false false)); [exact H1|slots_solve..|].
  intros d2 H2.
  apply (ulevel_inv (axes_slots a true true false false false)
                    (axes_slots a true true true false false)); [exact H2|slots_solve..|].
  intros d3 H3.
  apply (ulevel_inv (axes_slots a true true true false false)
                    (axes_slots a true true true true false)); [exact H3|slots_solve..|].
  intros d4 H4.
  apply (ulevel_inv (axes_slots a true true true true false)
                    (axes_slots a true true true true true)); [exact H4|slots_solve..|].
  intros d5 H5. simpl. split; [constructor; [exact H5|constructor] | exact H5].
Qed.

(** The assignments [uninstall_version] visits, for the collected axes
    [a]: in each, the entry [compiler], [mpi], [boost], [cuda] or [python]
    is absent when the axis was not collected, and is the axis with one of
    its own versions otherwise. *)
Theorem upoints_assignments (a : uaxes) (d : dict slot) :
  In d (fst (upoints a [])) ->
  axis_slot "compiler" (u_compiler a) true d /\ axis_slot "mpi" (u_mpi a) true d /\
  axis_slot "boost" (u_boost a) true d /\ axis_slot "cuda" (u_cuda a) true d /\
  axis_slot "python" (u_python a) true d.
Proof.
  intros Hd. pose proof (upoints_slots a) as H. rewrite Forall_forall in H.
  destruct (H d Hd) as (Hb & Hc & Hm & Hp & Hco). tauto.
Qed.

Lemma uiter_length (vs : list string) (d : dict slot)
  (body : string -> dict slot -> list (dict slot) * dict slot) (c : nat) :
  (forall v d', length (fst (body v d')) = c) ->
  length (fst (uiter vs d body)) = length vs * c.
Proof.
  intros Hb. revert d. induction vs as [|v vs IH]; intros d; simpl; [reflexivity|].
  specialize (Hb v d). destruct (body v d) as [ps d1]. simpl in Hb.
  specialize (IH d1). destruct (uiter vs d1 body) as [ps' d2]. simpl in *.
  rewrite length_app, Hb, IH. reflexivity.
Qed.

Lemma ulevel_length (k : string) (o : option Package)
  (body : dict slot -> list (dict slot) * dict slot) (c : nat) (d : dict slot) :
  (forall d', length (fst (body d')) = c) ->
  length (fst (ulevel k o body d)) = length (extract_versions o) * c.
Proof. intros Hb. unfold ulevel. apply uiter_length. intros v d'. apply Hb. Qed.

(** [uninstall_version] runs its innermost body, per architecture, once
    for every combination of the versions of the collected axes, an axis
    that was not collected counting once (its single value ['*']). *)
Theorem upoints_count (a : uaxes) (d : dict slot) :
  length (fst (upoints a d)) =
    length (extract_versions (u_boost a)) * length (extract_versions (u_cuda a)) *
    length (extract_versions (u_mpi a)) * length (extract_versions (u_python a)) *
    length (extract_versions (u_compiler a)).
Proof.
  set (lb := length (extract_versions (u_boost a))).
  set (lc := length (extract_versions (u_cuda a))).
  set (lm := length (extract_versions (u_mpi a))).
  set (lp := length (extract_versions (u_python a))).
  set (lco := length (extract_versions (u_compiler a))).
  unfold upoints.
  rewrite (ulevel_length _ _ _ (lc * lm * lp * lco)); [fold lb; lia|].
  intros d1. rewrite (ulevel_length _ _ _ (lm * lp * lco)); [fold lc; lia|].
  intros d2. rewrite (ulevel_length _ _ _ (lp * lco)); [fold lm; lia|].
  intros d3. rewrite (ulevel_length _ _ _ (lco * 1)); [fold lp; lia|].
  intros d4. rewrite (ulevel_length _ _ _ 1); [fold lco; lia|].
  intros d5. reflexivity.
Qed.

Lemma uninstall_axes_none (module : string) (build_deps : list (list dep)) :
  String.eqb module "Boost" = false -> String.eqb module "CUDA" = false ->
  String.eqb module "Python" = false ->
  u_boost (uninstall_axes module build_deps) = None /\
  u_cuda (uninstall_axes module build_deps) = None /\
  u_python (uninstall_axes module build_deps) = None.
Proof.
  intros Hb Hc Hp. unfold uninstall_axes.
  assert (Hstep : forall a t, u_boost a = None /\ u_cuda a = None /\ u_python a = None ->
            let a' := uaxis_step module a t in
            u_boost a' = None /\ u_cuda a' = None /\ u_python a' = None).
  { intros a [[pm pk] pv] H. unfold uaxis_step. cbv zeta.
    destruct (String.eqb pm "Compiler"); [exact H|].
    destruct (String.eqb pm "MPI"); [exact H|].
    rewrite Hb, Hc, Hp. exact H. }
  assert (Hrow : forall r a, u_boost a = None /\ u_cuda a = None /\ u_python a = None ->
            let a' := fold_left (uaxis_step module) r a in
            u_boost a' = None /\ u_cuda a' = None /\ u_python a' = None).
  { induction r as [|t r IH]; intros a H; [exact H|]. simpl. apply IH, Hstep, H. }
  assert (Hall : forall bds a, u_boost a = None /\ u_cuda a = None /\ u_python a = None ->
            let a' := fold_left (fun a r => fold_left (uaxis_step module) r a) bds a in
            u_boost a' = None /\ u_cuda a' = None /\ u_python a' = None).
  { induction bds as [|r bds IH]; intros a H; [exact H|]. simpl. apply IH, Hrow, H. }
  apply Hall. repeat split.
Qed.

Lemma not_in_filter (f : string -> bool) (l : list string) (x : string) :
  In x l -> ~ In x (filter f l) -> f x = false.
Proof.
  intros Hx Hn. destruct (f x) eqn:E; [|reflexivity].
  exfalso. apply Hn. apply filter_In. split; assumption.
Qed.

Lemma rmtree_removed (q x : string) (l : list string) :
  In x l ->
  ~ In x (filter (fun y => negb (String.eqb y q || String.prefix (q ++ "/") y)) l) ->
  x = q \/ String.prefix (q ++ "/") x = true.
Proof.
  intros Hx Hn. apply not_in_filter in Hn; [|exact Hx].
  apply negb_false_iff, orb_true_iff in Hn. destruct Hn as [H|H]; [left|right; exact H].
  apply String.eqb_eq. exact H.
Qed.

Lemma removes_only_weaken {A} (P P' : string -> Prop) (m : UM A) :
  (forall x, P x -> P' x) -> removes_only P m -> removes_only P' m.
Proof. intros Hw Hm st o st' H x Hx Hn. apply Hw, (Hm st o st' H x Hx Hn). Qed.

Lemma removes_only_ret {A} (P : string -> Prop) (a : A) : removes_only P (uret a).
Proof. intros st o st' H x Hx Hn. injection H as _ <-. contradiction. Qed.

Lemma removes_only_raise {A} (P : string -> Prop) (e : uexc) : removes_only P (@uraise A e).
Proof. intros st o st' H x Hx Hn. injection H as _ <-. contradiction. Qed.

Lemma removes_only_bind {A B} (P : string -> Prop) (m : UM A) (k : A -> UM B) :
  removes_only P m -> (forall a, removes_only P (k a)) -> removes_only P (ubind m k).
Proof.
  intros Hm Hk st o st' H x Hx Hn. unfold ubind in H.
  destruct (m st) as [[a|e] s1] eqn:E1.
  - destruct (in_dec string_dec x (fs s1)) as [Hi|Hi].
    + exact (Hk a s1 o st' H x Hi Hn).
    + exact (Hm st _ s1 E1 x Hx Hi).
  - injection H as _ <-. exact (Hm st _ s1 E1 x Hx Hn).
Qed.

Lemma removes_only_useq {A} (f : A -> UM unit) (P : A -> string -> Prop) (l : list A) :
  (forall y, In y l -> removes_only (P y) (f y)) ->
  removes_only (fun x => exists y, In y l /\ P y x) (useq f l).
Proof.
  induction l as [|y l IH]; intros Hf; simpl.
  - apply removes_only_ret.
  - apply removes_only_bind.
    + apply removes_only_weaken with (P y); [intros x Hx; exists y; split; [left; reflexivity | exact Hx]|].
      apply Hf. left. reflexivity.
    + intros _. apply removes_only_weaken with (fun x => exists z, In z l /\ P z x).
      * intros x (z & Hz & Hx). exists z. split; [right; exact Hz | exact Hx].
      * apply IH. intros z Hz. apply Hf. right. exact Hz.
Qed.

Lemma ubind_uret {A B} (a : A) (k : A -> UM B) : ubind (uret a) k = k a.
Proof. reflexivity. Qed.

Lemma ubind_uraise {A B} (e : uexc) (k : A -> UM B) : ubind (uraise e) k = uraise e.
Proof. reflexivity. Qed.

Lemma removes_only_uexists (P : string -> Prop) (q : string) : removes_only P (uexists q).
Proof. intros st o st' H x Hx Hn. injection H as _ <-. contradiction. Qed.

Lemma removes_only_urmtree (q : string) :
  removes_only (fun x => x = q \/ String.prefix (q ++ "/") x = true) (urmtree q).
Proof.
  intros st o st' H x Hx Hn. injection H as _ <-. exact (rmtree_removed q x (fs st) Hx Hn).
Qed.

Lemma removes_only_uremove (q : string) : removes_only (fun x => x = q) (uremove q).
Proof.
  intros st o st' H x Hx Hn. unfold uremove in H.
  destruct (existsb (String.eqb q) (fs st)); injection H as _ <-; [|contradiction].
  apply not_in_filter in Hn; [|exact Hx].
  apply negb_false_iff, String.eqb_eq in Hn. exact Hn.
Qed.

Lemma removes_only_point (p : Package) (basepath arch v0 : string) (d : dict slot) :
  removes_only (point_path p basepath arch v0 d) (uninstall_point p basepath arch v0 d).
Proof.
  unfold uninstall_point.
  destruct (prefix p basepath arch v0 d) as [q|] eqn:Eq; cbv [ulift];
    [|rewrite ubind_uraise; apply removes_only_raise].
  rewrite ubind_uret. apply removes_only_bind; [apply removes_only_uexists|].
  intros []; [|apply removes_only_ret].
  rewrite ubind_uret. apply removes_only_bind.
  - apply removes_only_weaken with (2 := removes_only_urmtree q).
    intros x [E|E]; exists q; split; [exact Eq | left; exact E | exact Eq | right; left; exact E].
  - intros _. destruct (get_deps_path d) as [dd|] eqn:Ed; cbv [ulift];
      [|rewrite ubind_uraise; apply removes_only_raise].
    rewrite ubind_uret.
    apply removes_only_weaken with (2 := removes_only_uremove _).
    intros x E. exists q. split; [exact Eq|]. right. right. exists dd. split; [exact Ed | exact E].
Qed.

(** [uninstall_version] reads the boost, CUDA and Python axes off its
    [module] argument instead of each dependency's own module: for a module
    other than [Boost], [CUDA] and [Python] none of the assignments it
    visits has a [boost], [cuda] or [python] entry, whatever the build
    dependencies, and every path it removes, however it ends, is the
    prefix of such an assignment (for one of the architectures and the
    version looked up), a path below that prefix, or that assignment's
    module file.  So an installation made with a [boost], [cuda] or
    [python] entry is removed only where its paths coincide with those. *)
Theorem uninstall_skips_extra_axes (architectures : list string) (p : Package)
  (build_deps : list (list dep)) (basepath module : string) (v : verarg)
  (st st' : state) o :
  String.eqb module "Boost" = false -> String.eqb module "CUDA" = false ->
  String.eqb module "Python" = false ->
  uninstall_version architectures p build_deps basepath module v st = (o, st') ->
  (forall d, In d (fst (upoints (uninstall_axes module build_deps) [])) ->
     dict_get "boost" d = None /\ dict_get "cuda" d = None /\ dict_get "python" d = None) /\
  (forall x, In x (fs st) -> ~ In x (fs st') ->
     exists arch d v0 srcs,
       In arch architectures /\ In d (fst (upoints (uninstall_axes module build_deps) [])) /\
       dict_get "boost" d = None /\ dict_get "cuda" d = None /\ dict_get "python" d = None /\
       normalize_version p v = Some (v0, srcs) /\ point_path p basepath arch v0 d x).
Proof.
  intros Hb Hc Hp Hrun.
  assert (Hnone : forall d, In d (fst (upoints (uninstall_axes module build_deps) [])) ->
            dict_get "boost" d = None /\ dict_get "cuda" d = None /\
            dict_get "python" d = None).
  { intros d Hd.
    destruct (uninstall_axes_none module build_deps Hb Hc Hp) as (Eb & Ec & Ep).
    pose proof (upoints_slots (uninstall_axes module build_deps)) as H.
    rewrite Forall_forall in H. destruct (H d Hd) as (Sb & Sc & _ & Sp & _).
    unfold axis_slot in Sb, Sc, Sp. rewrite Eb in Sb. rewrite Ec in Sc. rewrite Ep in Sp.
    tauto. }
  split; [exact Hnone|].
  set (pts := fst (upoints (uninstall_axes module build_deps) [])) in *.
  assert (Hro : removes_only
            (fun x => exists arch, In arch architectures /\
               exists d, In d pts /\
                 exists v0 srcs, normalize_version p v = Some (v0, srcs) /\
                                 point_path p basepath arch v0 d x)
            (uninstall_version architectures p build_deps basepath module v)).
  { unfold uninstall_version. fold pts. apply removes_only_useq. intros arch _.
    apply removes_only_useq. intros d _.
    destruct (normalize_version p v) as [[v0 srcs]|].
    - apply removes_only_weaken with (point_path p basepath arch v0 d);
        [intros x Hx; exists v0, srcs; split; [reflexivity | exact Hx]|].
      apply removes_only_point.
    - apply removes_only_raise. }
  intros x Hx Hn.
  destruct (Hro st o st' Hrun x Hx Hn) as (arch & Ha & d & Hd & v0 & srcs & Hv & Hpp).
  destruct (Hnone d Hd) as (E1 & E2 & E3).
  exists arch, d, v0, srcs. repeat split; assumption.
Qed.

(** Witness: [app] built with [gcc] and with a [Boost] dependency; of its
    two installations of [1.0], under [gcc-9] and under [gcc-9] with
    [zlib-1.2] as boost, uninstalling removes the first with its module
    file and keeps the second. *)
Lemma uninstall_skips_extra_axes_witness :
  String.eqb "app" "Boost" = false /\ String.eqb "app" "CUDA" = false /\
  String.eqb "app" "Python" = false /\
  uninstall_version ["x86_64"] ex_app [[("Compiler", ex_gcc, "9"); ("Boost", ex_zlib, "1.2")]]
    "/opt" "app" (VStr "1.0")
    (mkState ["/opt/x86_64/modulefiles/gcc-9/app/1.0.lua"; "/opt/x86_64/gcc-9/app/1.0";
              "/opt/x86_64/gcc-9/zlib-1.2/app/1.0"] [] [])
  = (inl tt, mkState ["/opt/x86_64/gcc-9/zlib-1.2/app/1.0"] [] []) /\
  prefix ex_app "/opt" "x86_64" "1.0"
    [("compiler", STuple ex_gcc ["9"]); ("boost", STuple ex_zlib ["1.2"])]
  = Some "/opt/x86_64/gcc-9/zlib-1.2/app/1.0" /\
  exists arch d v0 srcs,
    In arch ["x86_64"] /\
    In d (fst (upoints (uninstall_axes "app"
                          [[("Compiler", ex_gcc, "9"); ("Boost", ex_zlib, "1.2")]]) [])) /\
    dict_get "boost" d = None /\ dict_get "cuda" d = None /\ dict_get "python" d = None /\
    normalize_version ex_app (VStr "1.0") = Some (v0, srcs) /\
    point_path ex_app "/opt" arch v0 d "/opt/x86_64/gcc-9/app/1.0".
Proof.
  assert (Hrun : uninstall_version ["x86_64"] ex_app
                   [[("Compiler", ex_gcc, "9"); ("Boost", ex_zlib, "1.2")]]
                   "/opt" "app" (VStr "1.0")
                   (mkState ["/opt/x86_64/modulefiles/gcc-9/app/1.0.lua";
                             "/opt/x86_64/gcc-9/app/1.0";
                             "/opt/x86_64/gcc-9/zlib-1.2/app/1.0"] [] [])
                 = (inl tt, mkState ["/opt/x86_64/gcc-9/zlib-1.2/app/1.0"] [] []))
    by (vm_compute; reflexivity).
  split; [reflexivity|]. split; [reflexivity|]. split; [reflexivity|].
  split; [exact Hrun|]. split; [vm_compute; reflexivity|].
  exact (proj2 (uninstall_skips_extra_axes ["x86_64"] ex_app
                  [[("Compiler", ex_gcc, "9"); ("Boost", ex_zlib, "1.2")]] "/opt" "app"
                  (VStr "1.0") _ _ _ eq_refl eq_refl eq_refl Hrun)
           "/opt/x86_64/gcc-9/app/1.0" (or_intror (or_introl eq_refl))
           ltac:(intros [H|[]]; discriminate H)).
Defined.

Lemma upoints_assignments_witness :
  In [("mpi", STuple ex_openmpi ["4.0"]); ("compiler", STuple ex_gcc ["9"])]
     (fst (upoints (mkUAxes (Some ex_gcc) (Some ex_openmpi) None None None) [])) /\
  (axis_slot "compiler" (Some ex_gcc) true
     [("mpi", STuple ex_openmpi ["4.0"]); ("compiler", STuple ex_gcc ["9"])] /\
   axis_slot "mpi" (Some ex_openmpi) true
     [("mpi", STuple ex_openmpi ["4.0"]); ("compiler", STuple ex_gcc ["9"])] /\
   axis_slot "boost" None true
     [("mpi", STuple ex_openmpi ["4.0"]); ("compiler", STuple ex_gcc ["9"])] /\
   axis_slot "cuda" None true
     [("mpi", STuple ex_openmpi ["4.0"]); ("compiler", STuple ex_gcc ["9"])] /\
   axis_slot "python" None true
     [("mpi", STuple ex_openmpi ["4.0"]); ("compiler", STuple ex_gcc ["9"])]).
Proof.
  assert (H : In [("mpi", STuple ex_openmpi ["4.0"]); ("compiler", STuple ex_gcc ["9"])]
     (fst (upoints (mkUAxes (Some ex_gcc) (Some ex_openmpi) None None None) [])))
    by (vm_compute; left; reflexivity).
  split; [exact H|].
  exact (upoints_assignments (mkUAxes (Some ex_gcc) (Some ex_openmpi) None None None) _ H).
Defined.

Lemma find_none_intro {A} (f : A -> bool) (l : list A) :
  (forall x, In x l -> f x = false) -> find f l = None.
Proof.
  induction l as [|x l IH]; intros H; simpl; [reflexivity|].
  rewrite (H x (or_introl eq_refl)). apply IH. intros y Hy. apply H. right. exact Hy.
Qed.

(** [uninstall_version] given a version string that is not one of the
    package's versions keeps the string and indexes it: [version[0]] is
    its first character, so it uninstalls the installations of the version
    named by that character. *)
Theorem uninstall_unknown_version (architectures : list string) (p : Package)
  (build_deps : list (list dep)) (basepath module : string) (c : ascii) (rest : string)
  (srcs : list string) :
  (forall e, In e (versions_data p) -> fst e <> String c rest) ->
  uninstall_version architectures p build_deps basepath module (VStr (String c rest)) =
  uninstall_version architectures p build_deps basepath module (VTup (String c "") srcs).
Proof.
  intros H. unfold uninstall_version.
  assert (E : normalize_version p (VStr (String c rest)) =
              Some (String c "", map (fun ch => String ch "") (list_ascii_of_string rest))).
  { unfold normalize_version. rewrite find_none_intro; [reflexivity|].
    intros e He. apply String.eqb_neq. exact (H e He). }
  rewrite E. reflexivity.
Qed.

Lemma useq_raise {A} (f : A -> UM unit) (e : uexc) (l : list A) (st : state) :
  (forall x, f x st = (inr e, st)) ->
  useq f l st = (match l with [] => inl tt | _ => inr e end, st).
Proof.
  intros H. destruct l as [|x l]; simpl; [reflexivity|].
  unfold ubind. rewrite H. reflexivity.
Qed.

Lemma useq_skip {A} (f : A -> UM unit) (l : list A) (st : state) :
  (forall x, f x st = (inl tt, st)) -> useq f l st = (inl tt, st).
Proof.
  intros H. induction l as [|x l IH]; simpl; [reflexivity|].
  unfold ubind. rewrite H. exact IH.
Qed.

(** [uninstall_version] given the empty string as version, which no entry
    of the package has: [version[0]] raises [IndexError] at the first
    assignment it visits, before any change; with no architecture or no
    assignment to visit it returns without raising. *)
Theorem uninstall_empty_version (architectures : list string) (p : Package)
  (build_deps : list (list dep)) (basepath module : string) (st : state) :
  (forall e, In e (versions_data p) -> fst e <> "") ->
  uninstall_version architectures p build_deps basepath module (VStr "") st =
  (if Nat.eqb (length architectures) 0 ||
      Nat.eqb (length (fst (upoints (uninstall_axes module build_deps) []))) 0
   then inl tt else inr UIndexError, st).
Proof.
  intros H. unfold uninstall_version.
  assert (E : normalize_version p (VStr "") = None).
  { unfold normalize_version. rewrite find_none_intro; [reflexivity|].
    intros e He. apply String.eqb_neq. exact (H e He). }
  rewrite E.
  destruct (fst (upoints (uninstall_axes module build_deps) [])) as [|d ds] eqn:Ep.
  - rewrite orb_true_r. apply useq_skip. intros x. reflexivity.
  - change (Nat.eqb (length (d :: ds)) 0) with false. rewrite orb_false_r.
    rewrite (useq_raise _ UIndexError).
    + destruct architectures; reflexivity.
    + intros x. apply (useq_raise _ UIndexError (d :: ds) st). intros y. reflexivity.
Qed.

Lemma uninstall_unknown_version_witness :
  (forall e, In e (versions_data ex_zlib) -> fst e <> String "9" "9") /\
  uninstall_version ["x86_64"] ex_zlib [] "/opt" "zlib" (VStr "99") =
  uninstall_version ["x86_64"] ex_zlib [] "/opt" "zlib" (VTup "9" []).
Proof.
  assert (H : forall e, In e (versions_data ex_zlib) -> fst e <> String "9" "9").
  { simpl. intros e [<-|[]]. discriminate. }
  split; [exact H|]. exact (uninstall_unknown_version ["x86_64"] ex_zlib [] "/opt" "zlib" _ _ [] H).
Defined.

Lemma uninstall_empty_version_witness :
  (forall e, In e (versions_data ex_zlib) -> fst e <> "") /\
  uninstall_version ["x86_64"] ex_zlib [] "/opt" "zlib" (VStr "") ex_state =
  (inr UIndexError, ex_state).
Proof.
  assert (H : forall e, In e (versions_data ex_zlib) -> fst e <> "").
  { simpl. intros e [<-|[]]. discriminate. }
  split; [exact H|]. exact (uninstall_empty_version ["x86_64"] ex_zlib [] "/opt" "zlib" ex_state H).
Defined.

(** *** The build environment of [install_version] *)

Section Keeps.

Variable Q : shell_run -> Prop.

Lemma keeps_ret {A} (P : A -> Prop) (a : A) : P a -> run_keeps Q P (ret a).
Proof.
  intros Ha st o st' H. injection H as <- <-. split.
  - exists []. rewrite app_nil_r. split; [reflexivity | constructor].
  - intros a' E. injection E as <-. exact Ha.
Qed.

Lemma keeps_same {A} (m : M A) :
  (forall st o st', m st = (o, st') -> runs st' = runs st) -> run_keeps Q (fun _ => True) m.
Proof.
  intros Hm st o st' H. split; [|auto].
  exists []. rewrite app_nil_r. split; [exact (Hm _ _ _ H) | constructor].
Qed.

Lemma keeps_bind {A B} (P : A -> Prop) (R : B -> Prop) (m : M A) (k : A -> M B) :
  run_keeps Q P m -> (forall a, P a -> run_keeps Q R (k a)) -> run_keeps Q R (bind m k).
Proof.
  intros Hm Hk st o st' H. unfold bind in H.
  destruct (m st) as [o1 st1] eqn:E1.
  destruct (Hm _ _ _ E1) as [(new1 & Hr1 & Hq1) Hp1].
  destruct o1 as [a|e|c].
  - destruct (Hk a (Hp1 a eq_refl) _ _ _ H) as [(new2 & Hr2 & Hq2) Hp2].
    split; [|exact Hp2].
    exists (new1 ++ new2)%list. rewrite Hr2, Hr1, app_assoc.
    split; [reflexivity | apply Forall_app; split; assumption].
  - injection H as <- <-. split; [exists new1; split; assumption | discriminate].
  - injection H as <- <-. split; [exists new1; split; assumption | discriminate].
Qed.

Lemma keeps_weaken {A} (P P' : A -> Prop) (m : M A) :
  (forall a, P a -> P' a) -> run_keeps Q P m -> run_keeps Q P' m.
Proof.
  intros Hw Hm st o st' H. destruct (Hm _ _ _ H) as [Hr Hp].
  split; [exact Hr|]. intros a E. apply Hw, Hp, E.
Qed.

Lemma keeps_if {A} (P : A -> Prop) (b : bool) (m1 m2 : M A) :
  run_keeps Q P m1 -> run_keeps Q P m2 -> run_keeps Q P (if b then m1 else m2).
Proof. destruct b; auto. Qed.

Lemma keeps_raise {A} (P : A -> Prop) (e : exc) : run_keeps Q P (raise e).
Proof.
  intros st o st' H. injection H as <- <-. split; [|discriminate].
  exists []. rewrite app_nil_r. split; [reflexivity | constructor].
Qed.

Lemma keeps_exit {A} (P : A -> Prop) (c : nat) : run_keeps Q P (sys_exit c).
Proof.
  intros st o st' H. injection H as <- <-. split; [|discriminate].
  exists []. rewrite app_nil_r. split; [reflexivity | constructor].
Qed.

Lemma keeps_lift {A} (e : exc) (o : option A) : run_keeps Q (fun a => o = Some a) (lift e o).
Proof.
  destruct o as [a|]; simpl; [apply keeps_ret; reflexivity | apply keeps_raise].
Qed.

Lemma keeps_path_exists (p : string) : run_keeps Q (fun _ => True) (path_exists p).
Proof. apply keeps_same. intros st o st' H. injection H as _ <-. reflexivity. Qed.

Lemma keeps_ensure_dir (p : string) : run_keeps Q (fun _ => True) (ensure_dir p).
Proof.
  unfold ensure_dir. eapply keeps_bind; [apply keeps_path_exists|]. intros b _.
  apply keeps_if; [apply keeps_ret; exact I|].
  apply keeps_same. intros st o st' H. injection H as _ <-. reflexivity.
Qed.

Lemma keeps_base_modulefile (p : Package) (basepath arch : string) (r : dict slot)
  (bd : list dep) : run_keeps Q (fun _ => True) (base_modulefile p basepath arch r bd).
Proof.
  unfold base_modulefile. cbv zeta.
  eapply keeps_bind; [apply keeps_lift|]. intros dd _.
  eapply keeps_bind; [apply keeps_lift|]. intros pre _.
  eapply keeps_bind; [apply keeps_path_exists|]. intros b _.
  apply keeps_if; [apply keeps_ret; exact I|].
  eapply keeps_bind; [apply keeps_ensure_dir|]. intros u _.
  eapply keeps_bind; [|intros; apply keeps_ret; exact I].
  apply keeps_same. intros st o st' H. injection H as _ <-. reflexivity.
Qed.

Lemma keeps_write_modulefile (p : Package) (basepath arch v : string) (r : dict slot)
  (bd : list dep) : run_keeps Q (fun _ => True) (write_modulefile p basepath arch v r bd).
Proof.
  unfold write_modulefile. cbv zeta.
  eapply keeps_bind; [apply keeps_base_modulefile|]. intros be _.
  eapply keeps_bind; [apply keeps_ensure_dir|]. intros u _.
  eapply keeps_bind; [apply keeps_path_exists|]. intros b _.
  apply keeps_if; [apply keeps_ret; exact I|].
  apply keeps_same. intros st o st' H. injection H as _ <-. reflexivity.
Qed.

Lemma keeps_rmtree (p : string) : run_keeps Q (fun _ => True) (rmtree p).
Proof. apply keeps_same. intros st o st' H. injection H as _ <-. reflexivity. Qed.

End Keeps.

Lemma prefix_app_self (s t : string) : String.prefix s (s ++ t) = true.
Proof.
  induction s as [|c s IH]; simpl; [destruct t; reflexivity|].
  destruct (ascii_dec c c) as [_|n]; [exact IH | contradiction n; reflexivity].
Qed.

Lemma dict_get_update_other {V} (k : string) (d e : dict V) :
  (forall kv, In kv e -> fst kv <> k) -> dict_get k (dict_update d e) = dict_get k d.
Proof.
  unfold dict_update. revert d.
  induction e as [|[k1 v1] e IH]; intros d He; [reflexivity|]. simpl.
  rewrite IH by (intros kv Hkv; apply He; right; exact Hkv).
  rewrite dict_get_set.
  destruct (String.eqb k k1) eqn:E; [|reflexivity].
  apply String.eqb_eq in E. subst k1. exfalso. exact (He (k, v1) (or_introl eq_refl) eq_refl).
Qed.

Lemma agrees_set (env be : dict string) (k v : string) :
  reserved_key k = true -> agrees env be -> agrees env (dict_set k v be).
Proof.
  intros Hk Ha k' Hk'. rewrite dict_get_set.
  destruct (String.eqb k' k) eqn:E; [|apply Ha, Hk'].
  apply String.eqb_eq in E. subst k'. rewrite Hk in Hk'. discriminate.
Qed.

Lemma agrees_update (env be src : dict string) :
  Forall (fun kv => String.prefix "SRC_DIR" (fst kv) = true) src ->
  agrees env be -> agrees env (dict_update be src).
Proof.
  intros Hs Ha k Hk. rewrite dict_get_update_other; [apply Ha, Hk|].
  intros kv Hkv E. rewrite Forall_forall in Hs. specialize (Hs kv Hkv).
  rewrite E in Hs. unfold reserved_key in Hk. rewrite Hs in Hk.
  rewrite !orb_true_r in Hk. discriminate.
Qed.

Section Passthrough.

Variable cat : catalog.
Variable package_path : string.
Variable host : source_host.
Variable run_shell : string -> dict string -> list string -> list string
                     -> nat * list string.
Variable env : dict string.

Let Q : shell_run -> Prop := fun r => agrees env (run_env r).

Lemma download_source_runs (u d : string) (st st' : state) o :
  download_source host u d st = (o, st') -> runs st' = runs st.
Proof.
  cbv [download_source bind path_exists ret raise touch].
  destruct (existsb _ (fs st)); [|destruct (fetch_url host u)];
    intros H; injection H as _ <-; reflexivity.
Qed.

Lemma extract_source_runs (sp fn : string) (st st' : state) o :
  extract_source host sp fn st = (o, st') -> runs st' = runs st.
Proof.
  cbv [extract_source bind path_exists ret raise touch].
  destruct (source_dir_name fn (archive_of host fn)) as [e|d];
    [|destruct (existsb _ (fs st))];
    intros H; injection H as _ <-; reflexivity.
Qed.

Lemma keeps_fetch_sources (idx : nat) (srcs : list string) (sp : string) :
  run_keeps Q (Forall (fun kv => String.prefix "SRC_DIR" (fst kv) = true))
        (fetch_sources host idx srcs sp).
Proof.
  revert idx. induction srcs as [|u us IH]; intros idx; simpl.
  - apply keeps_ret. constructor.
  - eapply keeps_bind with (P := fun _ => True);
      [apply keeps_same; intros st o st'; apply download_source_runs|].
    intros fn _.
    eapply keeps_bind with (P := fun _ => True);
      [apply keeps_same; intros st o st'; apply extract_source_runs|].
    intros sd _.
    eapply keeps_bind; [apply IH|]. intros rest Hrest.
    apply keeps_ret. constructor; [exact (prefix_app_self "SRC_DIR" (nat_to_string idx)) | exact Hrest].
Qed.

Lemma keeps_prepare_env (tg : target) (r : dict slot) (be srcd : dict string) :
  agrees env be ->
  Forall (fun kv => String.prefix "SRC_DIR" (fst kv) = true) srcd ->
  run_keeps Q (fun ep => agrees env (fst ep)) (prepare_env tg r be srcd).
Proof.
  intros Hbe Hs. unfold prepare_env. cbv zeta.
  eapply keeps_bind; [apply keeps_lift|]. intros bdir _.
  eapply keeps_bind; [apply keeps_ensure_dir|]. intros u _.
  eapply keeps_bind; [apply keeps_lift|]. intros pre _.
  apply keeps_ret. simpl.
  apply agrees_set; [reflexivity|]. apply agrees_set; [reflexivity|].
  apply agrees_update; assumption.
Qed.

Lemma keeps_run_build (tg : target) (r : dict slot) (bd : list dep)
  (be : dict string) (pre : string) (lines : list string) :
  agrees env be -> run_keeps Q (fun _ => True) (run_build run_shell tg r bd be pre lines).
Proof.
  intros Hbe. unfold run_build.
  eapply keeps_bind with (P := fun _ => True).
  - intros st o st' H. unfold launch in H.
    destruct (run_shell _ _ _ _) as [c fs']. injection H as <- <-. simpl.
    split; [|auto]. exists [mkRun (t_source_path tg) be (shell_input (t_pkg tg) lines) c].
    split; [reflexivity|]. constructor; [exact Hbe | constructor].
  - intros c _. unfold finish_build.
    apply keeps_if; [apply keeps_write_modulefile|].
    eapply keeps_bind; [apply keeps_path_exists|]. intros b _.
    eapply keeps_bind; [apply keeps_if; [apply keeps_rmtree | apply keeps_ret; exact I]|].
    intros u _. apply keeps_exit.
Qed.

Section Rec.

Variable rec : installer.
Hypothesis Hrec : forall pk v r, run_keeps Q (fun _ => True) (rec pk v r).

Lemma keeps_axis_line (s name_src : slot) (v : string) (r : dict slot) :
  run_keeps Q (fun _ => True) (axis_line rec s name_src v r).
Proof.
  unfold axis_line. apply keeps_if; [|apply keeps_ret; exact I].
  eapply keeps_bind.
  - destruct s; try apply keeps_raise. apply Hrec.
  - intros u _. eapply keeps_bind; [apply keeps_lift|]. intros n _.
    apply keeps_ret. exact I.
Qed.

Lemma keeps_ordinary_lines (bd : list dep) (r : dict slot) :
  run_keeps Q (fun _ => True) (ordinary_lines rec bd r).
Proof.
  induction bd as [|[[m pk] pv] bd IH]; simpl; [apply keeps_ret; exact I|].
  eapply keeps_bind; [apply Hrec|]. intros u _.
  eapply keeps_bind; [apply IH|]. intros rest _. apply keeps_ret. exact I.
Qed.

Lemma keeps_dep_phase (a : axes) (bd : list dep) (pt : point) :
  run_keeps Q (fun _ => True) (dep_phase rec a bd pt).
Proof.
  unfold dep_phase. cbv zeta.
  do 5 (eapply keeps_bind; [apply keeps_axis_line|]; intros ? _).
  eapply keeps_bind; [apply keeps_ordinary_lines|]. intros ? _.
  apply keeps_ret. exact I.
Qed.

Lemma keeps_point_body (tg : target) (a : axes) (bd : list dep) (pt : point)
  (be : dict string) :
  agrees env be -> run_keeps Q (agrees env) (point_body host run_shell rec tg a bd pt be).
Proof.
  intros Hbe. unfold point_body.
  eapply keeps_bind.
  { unfold is_installed. eapply keeps_bind; [apply keeps_lift|]. intros pre _.
    apply keeps_path_exists. }
  intros inst _. apply keeps_if; [apply keeps_ret; exact Hbe|].
  eapply keeps_bind; [apply keeps_dep_phase|]. intros lines _.
  eapply keeps_bind; [apply keeps_fetch_sources|]. intros srcd Hs.
  eapply keeps_bind; [apply keeps_prepare_env; eassumption|]. intros ep Hep.
  eapply keeps_bind; [apply keeps_run_build; exact Hep|]. intros u _.
  apply keeps_ret. exact Hep.
Qed.

Lemma keeps_points_loop (tg : target) (a : axes) (bd : list dep) (pts : list point)
  (be : dict string) :
  agrees env be -> run_keeps Q (agrees env) (points_loop host run_shell rec tg a bd pts be).
Proof.
  revert be. induction pts as [|pt pts IH]; intros be Hbe; simpl; [apply keeps_ret; exact Hbe|].
  eapply keeps_bind; [apply keeps_point_body; exact Hbe|]. intros be' Hbe'. apply IH, Hbe'.
Qed.

Lemma keeps_res_loop (tg : target) (ext : dict slot) (rs : list (list dep))
  (rext : dict slot) (a : axes) (be : dict string) :
  agrees env be -> run_keeps Q (agrees env) (res_loop host run_shell rec tg ext rs rext a be).
Proof.
  revert rext a be. induction rs as [|r rs IH]; intros rext a be Hbe; simpl;
    [apply keeps_ret; exact Hbe|].
  destruct (setup ext r rext a []) as [e|[[rext1 a1] bd]]; [apply keeps_raise|].
  destruct (product a1 rext1) as [[pts rext2]|]; [|apply keeps_raise].
  eapply keeps_bind; [apply keeps_points_loop; exact Hbe|]. intros be' Hbe'. apply IH, Hbe'.
Qed.

End Rec.

Lemma keeps_install_version (fuel : nat) (p : Package) (basepath arch : string)
  (v : verarg) (ext : dict slot) :
  run_keeps Q (fun _ => True)
        (install_version cat package_path host run_shell fuel p basepath arch v env ext).
Proof.
  revert p v ext. induction fuel as [|n IH]; intros p v ext; simpl; [apply keeps_raise|].
  unfold install_body.
  destruct (normalize_version p v) as [[v0 srcs]|]; [|apply keeps_raise]. cbv zeta.
  eapply keeps_bind; [apply keeps_ensure_dir|]. intros u _.
  destruct (resolve_dependencies cat p) as [rs|]; [|apply keeps_raise].
  eapply keeps_bind; [|intros; apply keeps_ret; exact I].
  apply keeps_res_loop; [intros pk v' r; apply IH|].
  apply agrees_set; [reflexivity|]. intros k _. reflexivity.
Qed.

End Passthrough.

(** Every build shell [install_version] starts, for the package itself or
    for any dependency it installs on the way, and whatever the outcome,
    gets the caller's [env] unchanged except at [PACKAGE_VERSION],
    [BUILD_DIR], [PACKAGE_PREFIX] and the [SRC_DIR...] keys; the runs are
    only appended to those already recorded. *)
Theorem install_version_build_env (cat : catalog) (package_path : string)
  (host : source_host)
  (run_shell : string -> dict string -> list string -> list string -> nat * list string)
  (fuel : nat) (p : Package) (basepath arch : string) (v : verarg) (env : dict string)
  (ext : dict slot) (st st' : state) (o : outcome unit) :
  install_version cat package_path host run_shell fuel p basepath arch v env ext st
  = (o, st') ->
  exists new, runs st' = (runs st ++ new)%list /\
              Forall (fun r => agrees env (run_env r)) new.
Proof.
  intros H.
  exact (proj1 (keeps_install_version cat package_path host run_shell env
                  fuel p basepath arch v ext st o st' H)).
Qed.

Lemma install_version_build_env_witness :
  install_version ex_catalog "/pk" ex_host ex_shell 5 ex_app "/opt/apps" "x86_64"
    (VStr "1.0") [("HOME", "/root"); ("PATH", "/bin")] [] ex_state
  = (Ok tt, snd (install_version ex_catalog "/pk" ex_host ex_shell 5 ex_app
                   "/opt/apps" "x86_64" (VStr "1.0") [("HOME", "/root"); ("PATH", "/bin")] []
                   ex_state)) /\
  exists new,
    runs (snd (install_version ex_catalog "/pk" ex_host ex_shell 5 ex_app
                 "/opt/apps" "x86_64" (VStr "1.0") [("HOME", "/root"); ("PATH", "/bin")] []
                 ex_state)) = (runs ex_state ++ new)%list /\
    Forall (fun r => agrees [("HOME", "/root"); ("PATH", "/bin")] (run_env r)) new.
Proof.
  assert (H : install_version ex_catalog "/pk" ex_host ex_shell 5 ex_app "/opt/apps"
                "x86_64" (VStr "1.0") [("HOME", "/root"); ("PATH", "/bin")] [] ex_state
              = (Ok tt, snd (install_version ex_catalog "/pk" ex_host ex_shell 5 ex_app
                   "/opt/apps" "x86_64" (VStr "1.0") [("HOME", "/root"); ("PATH", "/bin")] []
                   ex_state))) by (vm_compute; reflexivity).
  split; [exact H|].
  exact (install_version_build_env ex_catalog "/pk" ex_host ex_shell 5 ex_app
           "/opt/apps" "x86_64" (VStr "1.0") [("HOME", "/root"); ("PATH", "/bin")] []
           ex_state _ _ H).
Defined.

(** *** Installing again: [install_version] and [Package.install] *)

Lemma install_version_again (cat : catalog) (package_path : string)
  (host : source_host)
  (run_shell : string -> dict string -> list string -> list string -> nat * list string)
  (Hgrow : forall cwd env input paths, incl paths (snd (run_shell cwd env input paths)))
  (Hpre : forall cwd env input paths pre,
            dict_get "PACKAGE_PREFIX" env = Some pre ->
            fst (run_shell cwd env input paths) = 0 ->
            In pre (snd (run_shell cwd env input paths)))
  (fuel : nat) (p : Package) (basepath arch : string) (v : verarg)
  (env env' : dict string) (ext : dict slot) (st st1 st2 : state) :
  install_version cat package_path host run_shell fuel p basepath arch v env ext st
    = (Ok tt, st1) ->
  incl (fs st1) (fs st2) ->
  install_version cat package_path host run_shell fuel p basepath arch v env' ext st2
    = (Ok tt, st2).
Proof.
  intros H Hincl2.
  destruct fuel as [|n]; [discriminate H|].
  simpl in H |- *. unfold install_body in H |- *.
  destruct (normalize_version p v) as [[v0 srcs]|] eqn:En; [|discriminate H].
  cbv zeta in H |- *.
  apply bind_ok in H. destruct H as (u & s1 & Hens & H).
  destruct (resolve_dependencies cat p) as [rs|] eqn:Er; [|discriminate H].
  apply bind_ok in H. destruct H as (be' & s2 & Hrl & H).
  inversion H; subst s2.
  assert (Hrec : rec_grows (fun pk v' r =>
            install_version cat package_path host run_shell n pk basepath arch
                            (VStr v') env r))
    by (intros pk v' r; apply (grows_install_version cat package_path host
                                 run_shell Hgrow)).
  pose proof (grows_res_loop host run_shell Hgrow _ Hrec _ _ _ _ _ _ _ _ _ Hrl)
    as Hincl.
  rewrite res_loop_plan in Hrl.
  destruct (plan ext rs [] init_axes) as [gs e] eqn:Hp. simpl in Hrl.
  destruct (run_groups_done host run_shell Hgrow Hpre _ Hrec _ _ _ _ _ _ _ Hrl)
    as [He Hall].
  subst e.
  assert (Hsp : In (source_dir package_path p v0) (fs st2))
    by exact (Hincl2 _ (Hincl _ (ensure_dir_in _ _ _ _ Hens))).
  rewrite (bind_ok_step _ _ _ _ _ (ensure_dir_present _ _ Hsp)).
  match goal with
  | |- bind (res_loop ?ar ?rsh ?rc ?tg ?ex ?rs' ?rx ?ax ?be) ?k ?s = _ =>
      rewrite (bind_ok_step (res_loop ar rsh rc tg ex rs' rx ax be) k s be s);
        [reflexivity|]
  end.
  rewrite res_loop_plan, Hp. simpl.
  apply run_groups_skip. intros g pt Hg Hpt.
  destruct (Hall g pt Hg Hpt) as (pre & Hpr & Hin).
  exists pre. split; [exact Hpr | exact (Hincl2 _ Hin)].
Qed.

(** Once [install_version] has returned normally, calling it again for the
    same package, version and external dependencies does nothing and
    returns normally, with any environment and in any later state that
    still has every path of the state it left (for a build shell that
    never removes paths and creates [PACKAGE_PREFIX] when it succeeds). *)
Theorem install_version_rerun (cat : catalog) (package_path : string)
  (host : source_host)
  (run_shell : string -> dict string -> list string -> list string -> nat * list string)
  (Hgrow : forall cwd env input paths, incl paths (snd (run_shell cwd env input paths)))
  (Hpre : forall cwd env input paths pre,
            dict_get "PACKAGE_PREFIX" env = Some pre ->
            fst (run_shell cwd env input paths) = 0 ->
            In pre (snd (run_shell cwd env input paths)))
  (fuel : nat) (p : Package) (basepath arch : string) (v : verarg)
  (env env' : dict string) (ext : dict slot) (st st1 st2 : state) :
  install_version cat package_path host run_shell fuel p basepath arch v env ext st
    = (Ok tt, st1) ->
  incl (fs st1) (fs st2) ->
  install_version cat package_path host run_shell fuel p basepath arch v env' ext st2
    = (Ok tt, st2).
Proof.
  intros H Hincl.
  exact (install_version_again cat package_path host run_shell Hgrow Hpre
           fuel p basepath arch v env env' ext st st1 st2 H Hincl).
Qed.

Lemma install_version_rerun_witness :
  install_version ex_catalog "/pk" ex_host ex_shell 5 ex_app "/opt/apps" "x86_64"
    (VStr "1.0") [] [] ex_state
  = (Ok tt, snd (install_version ex_catalog "/pk" ex_host ex_shell 5 ex_app
                   "/opt/apps" "x86_64" (VStr "1.0") [] [] ex_state)) /\
  incl (fs (snd (install_version ex_catalog "/pk" ex_host ex_shell 5 ex_app
                   "/opt/apps" "x86_64" (VStr "1.0") [] [] ex_state)))
       ("/tmp" :: fs (snd (install_version ex_catalog "/pk" ex_host ex_shell 5 ex_app
                   "/opt/apps" "x86_64" (VStr "1.0") [] [] ex_state))) /\
  install_version ex_catalog "/pk" ex_host ex_shell 5 ex_app "/opt/apps" "x86_64"
    (VStr "1.0") [("HOME", "/root")] []
    (mkState ("/tmp" :: fs (snd (install_version ex_catalog "/pk" ex_host ex_shell 5
                ex_app "/opt/apps" "x86_64" (VStr "1.0") [] [] ex_state))) [] [])
  = (Ok tt, mkState ("/tmp" :: fs (snd (install_version ex_catalog "/pk" ex_host
               ex_shell 5 ex_app "/opt/apps" "x86_64" (VStr "1.0") [] [] ex_state))) [] []).
Proof.
  assert (H1 : install_version ex_catalog "/pk" ex_host ex_shell 5 ex_app "/opt/apps"
                 "x86_64" (VStr "1.0") [] [] ex_state
               = (Ok tt, snd (install_version ex_catalog "/pk" ex_host ex_shell 5 ex_app
                   "/opt/apps" "x86_64" (VStr "1.0") [] [] ex_state)))
    by (vm_compute; reflexivity).
  assert (H2 : incl (fs (snd (install_version ex_catalog "/pk" ex_host ex_shell 5 ex_app
                   "/opt/apps" "x86_64" (VStr "1.0") [] [] ex_state)))
       ("/tmp" :: fs (snd (install_version ex_catalog "/pk" ex_host ex_shell 5 ex_app
                   "/opt/apps" "x86_64" (VStr "1.0") [] [] ex_state))))
    by (intros x Hx; apply in_cons; exact Hx).
  split; [exact H1|]. split; [exact H2|].
  exact (install_version_rerun ex_catalog "/pk" ex_host ex_shell
           ex_shell_grows ex_shell_prefix 5 ex_app "/opt/apps" "x86_64" (VStr "1.0")
           [] [("HOME", "/root")] [] ex_state
           (snd (install_version ex_catalog "/pk" ex_host ex_shell 5 ex_app
                   "/opt/apps" "x86_64" (VStr "1.0") [] [] ex_state))
           (mkState ("/tmp" :: fs (snd (install_version ex_catalog "/pk" ex_host
              ex_shell 5 ex_app "/opt/apps" "x86_64" (VStr "1.0") [] [] ex_state))) [] [])
           H1 H2).
Defined.


Lemma grows_install_seq (cat : catalog) (package_path : string)
  (host : source_host)
  (run_shell : string -> dict string -> list string -> list string -> nat * list string)
  (Hgrow : forall cwd env input paths, incl paths (snd (run_shell cwd env input paths)))
  (fuel : nat) (p : Package) (basepath arch : string) (vs : list verarg)
  (env : dict string) :
  grows (install_seq cat package_path host run_shell fuel p basepath arch vs env).
Proof.
  induction vs as [|v vs IH]; simpl; [apply grows_ret|].
  apply grows_bind; [apply (grows_install_version cat package_path host run_shell Hgrow)|].
  intros _. exact IH.
Qed.

Lemma install_seq_again (cat : catalog) (package_path : string)
  (host : source_host)
  (run_shell : string -> dict string -> list string -> list string -> nat * list string)
  (Hgrow : forall cwd env input paths, incl paths (snd (run_shell cwd env input paths)))
  (Hpre : forall cwd env input paths pre,
            dict_get "PACKAGE_PREFIX" env = Some pre ->
            fst (run_shell cwd env input paths) = 0 ->
            In pre (snd (run_shell cwd env input paths)))
  (fuel : nat) (p : Package) (basepath arch : string) (vs : list verarg)
  (env env' : dict string) (st st1 st2 : state) :
  install_seq cat package_path host run_shell fuel p basepath arch vs env st
    = (Ok tt, st1) ->
  incl (fs st1) (fs st2) ->
  install_seq cat package_path host run_shell fuel p basepath arch vs env' st2
    = (Ok tt, st2).
Proof.
  revert st. induction vs as [|v vs IH]; intros st H Hincl; simpl; [reflexivity|].
  simpl in H. apply bind_ok in H. destruct H as (u & s1 & Hv & H). destruct u.
  pose proof (grows_install_seq cat package_path host run_shell Hgrow
                fuel p basepath arch vs env _ _ _ H) as Hg.
  rewrite (bind_ok_step _ _ _ _ _
             (install_version_again cat package_path host run_shell Hgrow Hpre
                fuel p basepath arch v env env' [] st s1 st2 Hv
                (fun x Hx => Hincl x (Hg x Hx)))).
  exact (IH s1 H Hincl).
Qed.

(** [Package.install] (the [--install] command) after a normal return:
    running it again for the same versions changes nothing and returns
    normally, whatever the process environment, in any later state that
    keeps every path (for a build shell that never removes paths and
    creates [PACKAGE_PREFIX] when it succeeds). *)
Theorem package_install_rerun (cat : catalog) (package_path : string)
  (host : source_host)
  (run_shell : string -> dict string -> list string -> list string -> nat * list string)
  (script : string)
  (Hgrow : forall cwd env input paths, incl paths (snd (run_shell cwd env input paths)))
  (Hpre : forall cwd env input paths pre,
            dict_get "PACKAGE_PREFIX" env = Some pre ->
            fst (run_shell cwd env input paths) = 0 ->
            In pre (snd (run_shell cwd env input paths)))
  (fuel : nat) (p : Package) (basepath arch : string) (versions : list string)
  (environ environ' : dict string) (st st1 st2 : state) :
  package_install cat package_path host run_shell script fuel p basepath arch
    versions environ st = (Ok tt, st1) ->
  incl (fs st1) (fs st2) ->
  package_install cat package_path host run_shell script fuel p basepath arch
    versions environ' st2 = (Ok tt, st2).
Proof.
  unfold package_install. cbv zeta. intros H Hincl.
  exact (install_seq_again cat package_path host run_shell Hgrow Hpre fuel p
           basepath arch _ _ _ st st1 st2 H Hincl).
Qed.

Lemma keeps_install_seq (cat : catalog) (package_path : string)
  (host : source_host)
  (run_shell : string -> dict string -> list string -> list string -> nat * list string)
  (fuel : nat) (p : Package) (basepath arch : string) (vs : list verarg)
  (env : dict string) :
  run_keeps (fun r => agrees env (run_env r)) (fun _ => True)
    (install_seq cat package_path host run_shell fuel p basepath arch vs env).
Proof.
  induction vs as [|v vs IH]; simpl; [apply keeps_ret; exact I|].
  eapply keeps_bind; [apply keeps_install_version|]. intros _ _. exact IH.
Qed.

(** Every build shell [Package.install] starts, for the requested
    versions or for a dependency, has [COLUMNS] set to [80] and [BUILDIT]
    to ['python ' + script], and the process environment's value at every
    key other than those two, [PACKAGE_VERSION], [BUILD_DIR],
    [PACKAGE_PREFIX] and the [SRC_DIR...] keys. *)
Theorem package_install_build_env (cat : catalog) (package_path : string)
  (host : source_host)
  (run_shell : string -> dict string -> list string -> list string -> nat * list string)
  (script : string) (fuel : nat) (p : Package) (basepath arch : string)
  (versions : list string) (environ : dict string) (st st' : state) (o : outcome unit) :
  package_install cat package_path host run_shell script fuel p basepath arch
    versions environ st = (o, st') ->
  exists new, runs st' = (runs st ++ new)%list /\
    Forall (fun r => dict_get "COLUMNS" (run_env r) = Some "80" /\
                     dict_get "BUILDIT" (run_env r) = Some ("python " ++ script) /\
                     forall k, reserved_key k = false -> k <> "COLUMNS" -> k <> "BUILDIT" ->
                       dict_get k (run_env r) = dict_get k environ) new.
Proof.
  unfold package_install. cbv zeta. intros H.
  destruct (keeps_install_seq cat package_path host run_shell fuel p basepath arch
              _ (install_env script environ) st o st' H) as [(new & Hr & Hq) _].
  exists new. split; [exact Hr|].
  eapply Forall_impl; [|exact Hq]. intros r Hag. simpl in Hag.
  unfold install_env in Hag.
  split; [|split].
  - rewrite (Hag "COLUMNS" eq_refl), !dict_get_set. reflexivity.
  - rewrite (Hag "BUILDIT" eq_refl), !dict_get_set. reflexivity.
  - intros k Hk Hc Hb. rewrite (Hag k Hk), !dict_get_set.
    apply String.eqb_neq in Hc, Hb. rewrite Hc, Hb. reflexivity.
Qed.

Lemma package_install_build_env_witness :
  package_install ex_catalog "/pk" ex_host ex_shell "/src/build.py" 5 ex_app
    "/opt/apps" "x86_64" [] [("HOME", "/root")] ex_state
  = (Ok tt, snd (package_install ex_catalog "/pk" ex_host ex_shell "/src/build.py" 5
                   ex_app "/opt/apps" "x86_64" [] [("HOME", "/root")] ex_state)) /\
  exists new,
    runs (snd (package_install ex_catalog "/pk" ex_host ex_shell "/src/build.py" 5
                 ex_app "/opt/apps" "x86_64" [] [("HOME", "/root")] ex_state))
    = (runs ex_state ++ new)%list /\
    Forall (fun r => dict_get "COLUMNS" (run_env r) = Some "80" /\
                     dict_get "BUILDIT" (run_env r) = Some ("python " ++ "/src/build.py") /\
                     forall k, reserved_key k = false -> k <> "COLUMNS" -> k <> "BUILDIT" ->
                       dict_get k (run_env r) = dict_get k [("HOME", "/root")]) new.
Proof.
  assert (H : package_install ex_catalog "/pk" ex_host ex_shell "/src/build.py" 5
                ex_app "/opt/apps" "x86_64" [] [("HOME", "/root")] ex_state
              = (Ok tt, snd (package_install ex_catalog "/pk" ex_host ex_shell
                   "/src/build.py" 5 ex_app "/opt/apps" "x86_64" [] [("HOME", "/root")]
                   ex_state))) by (vm_compute; reflexivity).
  split; [exact H|].
  exact (package_install_build_env ex_catalog "/pk" ex_host ex_shell "/src/build.py" 5
           ex_app "/opt/apps" "x86_64" [] [("HOME", "/root")] ex_state _ _ H).
Defined.

Lemma package_install_rerun_witness :
  package_install ex_catalog "/pk" ex_host ex_shell "/src/build.py" 5 ex_app
    "/opt/apps" "x86_64" [] [] ex_state
  = (Ok tt, snd (package_install ex_catalog "/pk" ex_host ex_shell "/src/build.py" 5
                   ex_app "/opt/apps" "x86_64" [] [] ex_state)) /\
  incl (fs (snd (package_install ex_catalog "/pk" ex_host ex_shell "/src/build.py" 5
                   ex_app "/opt/apps" "x86_64" [] [] ex_state)))
       ("/tmp" :: fs (snd (package_install ex_catalog "/pk" ex_host ex_shell
                   "/src/build.py" 5 ex_app "/opt/apps" "x86_64" [] [] ex_state))) /\
  package_install ex_catalog "/pk" ex_host ex_shell "/src/build.py" 5 ex_app
    "/opt/apps" "x86_64" [] [("HOME", "/root")]
    (mkState ("/tmp" :: fs (snd (package_install ex_catalog "/pk" ex_host ex_shell
                "/src/build.py" 5 ex_app "/opt/apps" "x86_64" [] [] ex_state))) [] [])
  = (Ok tt, mkState ("/tmp" :: fs (snd (package_install ex_catalog "/pk" ex_host
               ex_shell "/src/build.py" 5 ex_app "/opt/apps" "x86_64" [] [] ex_state))) [] []).
Proof.
  assert (H1 : package_install ex_catalog "/pk" ex_host ex_shell "/src/build.py" 5
                 ex_app "/opt/apps" "x86_64" [] [] ex_state
               = (Ok tt, snd (package_install ex_catalog "/pk" ex_host ex_shell
                   "/src/build.py" 5 ex_app "/opt/apps" "x86_64" [] [] ex_state)))
    by (vm_compute; reflexivity).
  assert (H2 : incl (fs (snd (package_install ex_catalog "/pk" ex_host ex_shell
                   "/src/build.py" 5 ex_app "/opt/apps" "x86_64" [] [] ex_state)))
       ("/tmp" :: fs (snd (package_install ex_catalog "/pk" ex_host ex_shell
                   "/src/build.py" 5 ex_app "/opt/apps" "x86_64" [] [] ex_state))))
    by (intros x Hx; apply in_cons; exact Hx).
  split; [exact H1|]. split; [exact H2|].
  exact (package_install_rerun ex_catalog "/pk" ex_host ex_shell "/src/build.py"
           ex_shell_grows ex_shell_prefix 5 ex_app "/opt/apps" "x86_64" [] []
           [("HOME", "/root")] ex_state
           (snd (package_install ex_catalog "/pk" ex_host ex_shell "/src/build.py" 5
                   ex_app "/opt/apps" "x86_64" [] [] ex_state))
           (mkState ("/tmp" :: fs (snd (package_install ex_catalog "/pk" ex_host
              ex_shell "/src/build.py" 5 ex_app "/opt/apps" "x86_64" [] [] ex_state))) [] [])
           H1 H2).
Defined.

(** *** Sources: [download_source] and [extract_source] *)

Lemma download_source_ok (host : source_host) (u dest : string) (st st' : state) fn :
  download_source host u dest st = (Ok fn, st') -> fn = join dest (last_segment u).
Proof.
  cbv [download_source bind path_exists ret raise touch].
  intros H. destruct (existsb _ (fs st)); [|destruct (fetch_url host u)]; congruence.
Qed.

Lemma download_source_have (host : source_host) (u dest : string) (st : state) :
  In (join dest (last_segment u)) (fs st) \/ fetch_url host u = DlComplete ->
  exists st', download_source host u dest st = (Ok (join dest (last_segment u)), st').
Proof.
  intros H. cbv [download_source bind path_exists ret raise touch].
  destruct (existsb _ (fs st)) eqn:E; [eexists; reflexivity|].
  destruct H as [H|H].
  - apply existsb_in in H. congruence.
  - rewrite H. eexists; reflexivity.
Qed.

Lemma download_source_fails (host : source_host) (u dest : string) (st : state) :
  ~ In (join dest (last_segment u)) (fs st) -> fetch_url host u <> DlComplete ->
  fst (download_source host u dest st) = Raise IOError.
Proof.
  intros Hn Hf. cbv [download_source bind path_exists ret raise touch].
  destruct (existsb _ (fs st)) eqn:E.
  - apply existsb_in in E. contradiction.
  - destruct (fetch_url host u); [reflexivity | reflexivity | congruence].
Qed.

Lemma extract_source_ok (host : source_host) (sp fn : string) (st st' : state) sd :
  extract_source host sp fn st = (Ok sd, st') ->
  exists dn, source_dir_name fn (archive_of host fn) = inr dn /\ sd = join sp dn.
Proof.
  cbv [extract_source bind path_exists ret raise touch].
  intros H. destruct (source_dir_name fn (archive_of host fn)) as [e|dn]; [discriminate|].
  exists dn. split; [reflexivity|]. destruct (existsb _ (fs st)); congruence.
Qed.

Lemma extract_source_have (host : source_host) (sp fn : string) (st : state) dn :
  source_dir_name fn (archive_of host fn) = inr dn ->
  exists st', extract_source host sp fn st = (Ok (join sp dn), st').
Proof.
  intros H. cbv [extract_source bind path_exists ret raise touch]. rewrite H.
  destruct (existsb _ (fs st)); eexists; reflexivity.
Qed.

Lemma extract_source_fails (host : source_host) (sp fn : string) (st : state) e :
  source_dir_name fn (archive_of host fn) = inl e ->
  extract_source host sp fn st = (Raise e, st).
Proof. intros H. cbv [extract_source]. rewrite H. reflexivity. Qed.

(** The [src_dirs] loop of [install_version]: when it returns, the
    [i]-th source url (from [idx]) is bound as [SRC_DIRi] to the source
    path joined with the directory [extract_source] reads off the file
    named by the url's last segment, so every such file is a non-empty
    zip or tar archive; it returns whenever every download completes and
    every file is such an archive.  For the first url, a missing file
    whose download fails raises [IOError], and a file that is present or
    downloaded but is neither a zip nor a tar archive, or is empty, raises
    the error of [extract_source]. *)
Theorem fetch_sources_dirs (host : source_host) (srcs : list string)
  (sp : string) (idx : nat) (st : state) :
  (forall d st', fetch_sources host idx srcs sp st = (Ok d, st') ->
     exists dirs,
       Forall2 (fun u dn => source_dir_name (source_file sp u)
                              (archive_of host (source_file sp u)) = inr dn) srcs dirs /\
       d = combine (map (fun i => "SRC_DIR" ++ nat_to_string i) (seq idx (length srcs)))
                   (map (join sp) dirs)) /\
  ((forall u, In u srcs -> fetch_url host u = DlComplete /\
     exists dn, source_dir_name (source_file sp u) (archive_of host (source_file sp u)) = inr dn) ->
   exists d st', fetch_sources host idx srcs sp st = (Ok d, st')) /\
  (forall u us, srcs = u :: us ->
     ~ In (source_file sp u) (fs st) -> fetch_url host u <> DlComplete ->
     fst (fetch_sources host idx srcs sp st) = Raise IOError) /\
  (forall u us e, srcs = u :: us ->
     In (source_file sp u) (fs st) \/ fetch_url host u = DlComplete ->
     source_dir_name (source_file sp u) (archive_of host (source_file sp u)) = inl e ->
     fst (fetch_sources host idx srcs sp st) = Raise e).
Proof.
  unfold source_file. split; [|split; [|split]].
  - revert idx st. induction srcs as [|u us IH]; intros idx st d st' H.
    + simpl in H. injection H as <- _. exists []. split; [constructor | reflexivity].
    + cbn [fetch_sources] in H. cbv [bind ret] in H.
      destruct (download_source host u sp st) as [[fn|e|c] st1] eqn:E1; try discriminate H.
      apply download_source_ok in E1. subst fn.
      destruct (extract_source host sp _ st1) as [[sd|e|c] st2] eqn:E2; try discriminate H.
      apply extract_source_ok in E2. destruct E2 as (dn & Hdn & ->).
      destruct (fetch_sources host (S idx) us sp st2) as [[rest|e|c] st3] eqn:E3;
        try discriminate H.
      injection H as <- _.
      destruct (IH (S idx) st2 rest st3 E3) as (dirs & Hf & ->).
      exists (dn :: dirs). split; [constructor; assumption | reflexivity].
  - revert idx st. induction srcs as [|u us IH]; intros idx st Hall.
    + eexists; eexists; reflexivity.
    + destruct (Hall u (or_introl eq_refl)) as [Hc (dn & Hdn)].
      destruct (download_source_have host u sp st (or_intror Hc)) as [st1 E1].
      destruct (extract_source_have host sp _ st1 dn Hdn) as [st2 E2].
      destruct (IH (S idx) st2 (fun u' Hu' => Hall u' (or_intror Hu'))) as (rest & st3 & E3).
      cbn [fetch_sources]. cbv [bind ret]. rewrite E1, E2, E3.
      eexists; eexists; reflexivity.
  - intros u us -> Hn Hf. cbn [fetch_sources]. cbv [bind ret].
    pose proof (download_source_fails host u sp st Hn Hf) as E.
    destruct (download_source host u sp st) as [o st1]. simpl in E. subst o. reflexivity.
  - intros u us e -> Hh He. cbn [fetch_sources]. cbv [bind ret].
    destruct (download_source_have host u sp st Hh) as [st1 E1]. rewrite E1.
    rewrite (extract_source_fails host sp _ st1 e He). reflexivity.
Qed.

(** Witness: a refused download of an absent file, and a downloaded file
    that is no archive. *)
Lemma fetch_sources_dirs_witness :
  fst (fetch_sources (mkSourceHost (fun _ => DlRefused) (fun _ => NoArchive)) 0
         ["http://h/a.tgz"] "/src" ex_state) = Raise IOError /\
  fst (fetch_sources (mkSourceHost (fun _ => DlComplete) (fun _ => NoArchive)) 0
         ["http://h/a.tgz"] "/src" ex_state) = Raise UnboundLocalError.
Proof.
  split.
  - apply (proj1 (proj2 (proj2 (fetch_sources_dirs
              (mkSourceHost (fun _ => DlRefused) (fun _ => NoArchive))
              ["http://h/a.tgz"] "/src" 0 ex_state)))
            "http://h/a.tgz" [] eq_refl); [intros [] | discriminate].
  - apply (proj2 (proj2 (proj2 (fetch_sources_dirs
              (mkSourceHost (fun _ => DlComplete) (fun _ => NoArchive))
              ["http://h/a.tgz"] "/src" 0 ex_state)))
            "http://h/a.tgz" [] UnboundLocalError eq_refl); [right; reflexivity | reflexivity].
Defined.

(** *** Uninstalling again *)

Lemma ushrinks_bind {A B} (m : UM A) (k : A -> UM B) :
  ushrinks m -> (forall a, ushrinks (k a)) -> ushrinks (ubind m k).
Proof.
  intros Hm Hk st o st' H. unfold ubind in H.
  destruct (m st) as [[a|e] s1] eqn:E1; destruct (Hm _ _ _ E1) as (H1 & F1 & R1).
  - destruct (Hk a _ _ _ H) as (H2 & F2 & R2).
    split; [intros x Hx; apply H1, H2, Hx|]. split; congruence.
  - injection H as <- <-. auto.
Qed.

Lemma ushrinks_ret {A} (a : A) : ushrinks (uret a).
Proof. intros st o st' H. injection H as <- <-. split; [intros x Hx; exact Hx | auto]. Qed.

Lemma ushrinks_raise {A} (e : uexc) : ushrinks (@uraise A e).
Proof. intros st o st' H. injection H as <- <-. split; [intros x Hx; exact Hx | auto]. Qed.

Lemma ushrinks_lift {A} (o : option A) : ushrinks (ulift o).
Proof. destruct o; [apply ushrinks_ret | apply ushrinks_raise]. Qed.

Lemma ushrinks_filter (f : string -> bool) (st : state) :
  incl (filter f (fs st)) (fs st).
Proof. intros x Hx. apply filter_In in Hx. apply Hx. Qed.

Lemma ushrinks_uninstall_point (p : Package) (basepath arch v0 : string) (d : dict slot) :
  ushrinks (uninstall_point p basepath arch v0 d).
Proof.
  unfold uninstall_point.
  apply ushrinks_bind; [apply ushrinks_lift|]. intros pre.
  apply ushrinks_bind.
  { intros st o st' H. injection H as <- <-. split; [intros x Hx; exact Hx | auto]. }
  intros [|]; [|apply ushrinks_ret].
  apply ushrinks_bind; [apply ushrinks_lift|]. intros pre'.
  apply ushrinks_bind.
  { intros st o st' H. injection H as <- <-. simpl.
    split; [apply ushrinks_filter | auto]. }
  intros _. apply ushrinks_bind; [apply ushrinks_lift|]. intros dd.
  intros st o st' H. unfold uremove in H.
  destruct (existsb _ _); injection H as <- <-; simpl.
  - split; [apply ushrinks_filter | auto].
  - split; [intros x Hx; exact Hx | auto].
Qed.

Lemma ushrinks_useq {A} (f : A -> UM unit) (l : list A) :
  (forall x, ushrinks (f x)) -> ushrinks (useq f l).
Proof.
  intros Hf. induction l as [|x l IH]; simpl; [apply ushrinks_ret|].
  apply ushrinks_bind; [apply Hf | intros _; exact IH].
Qed.

Lemma useq_settles {A} (f : A -> UM unit) (l : list A) :
  (forall x, ushrinks (f x)) -> (forall x, usettles (f x)) -> usettles (useq f l).
Proof.
  intros Hs Hf. induction l as [|x l IH]; intros st st1 st2 H Hincl; simpl in *.
  - reflexivity.
  - unfold ubind in H |- *.
    destruct (f x st) as [[[]|e] s1] eqn:E1; [|discriminate H].
    destruct (ushrinks_useq f l Hs _ _ _ H) as (Hsh & _ & _).
    rewrite (Hf x st s1 st2 E1 (fun y Hy => Hsh y (Hincl y Hy))).
    exact (IH s1 st1 st2 H Hincl).
Qed.

Lemma uninstall_point_settles (p : Package) (basepath arch v0 : string) (d : dict slot) :
  usettles (uninstall_point p basepath arch v0 d).
Proof.
  intros st st1 st2 H Hincl.
  cbv [uninstall_point ubind ulift uret uexists] in H |- *.
  destruct (prefix p basepath arch v0 d) as [pre|]; [|discriminate H].
  cbv [uret] in H |- *.
  assert (Hout : ~ In pre (fs st1)).
  { destruct (existsb (String.eqb pre) (fs st)) eqn:Ein.
    - cbv [urmtree] in H. simpl in H.
      destruct (get_deps_path d) as [dd|]; [|discriminate H]. cbv [uret] in H.
      unfold uremove in H. simpl in H.
      match type of H with
      | (if ?c then _ else _) = _ => destruct c; [|discriminate H]
      end.
      injection H as <-. simpl.
      intros Hin. apply filter_In in Hin. destruct Hin as [Hin _].
      apply filter_In in Hin. destruct Hin as [_ Hin].
      rewrite String.eqb_refl in Hin. discriminate Hin.
    - injection H as <-. intros Hin. apply existsb_in in Hin. congruence. }
  assert (E : existsb (String.eqb pre) (fs st2) = false).
  { destruct (existsb (String.eqb pre) (fs st2)) eqn:E; [|reflexivity].
    apply existsb_in in E. exfalso. exact (Hout (Hincl _ E)). }
  rewrite E. reflexivity.
Qed.

Lemma uninstall_version_settles (architectures : list string) (p : Package)
  (build_deps : list (list dep)) (basepath module : string) (v : verarg) :
  ushrinks (uninstall_version architectures p build_deps basepath module v) /\
  usettles (uninstall_version architectures p build_deps basepath module v).
Proof.
  unfold uninstall_version. cbv zeta.
  assert (Hs : forall arch d, ushrinks (match normalize_version p v with
                                        | Some (v0, _) => uninstall_point p basepath arch v0 d
                                        | None => uraise UIndexError end)).
  { intros arch d. destruct (normalize_version p v) as [[v0 srcs]|];
      [apply ushrinks_uninstall_point | apply ushrinks_raise]. }
  assert (Ht : forall arch d, usettles (match normalize_version p v with
                                        | Some (v0, _) => uninstall_point p basepath arch v0 d
                                        | None => uraise UIndexError end)).
  { intros arch d. destruct (normalize_version p v) as [[v0 srcs]|];
      [apply uninstall_point_settles|].
    intros st st1 st2 H. discriminate H. }
  split.
  - apply ushrinks_useq. intros arch. apply ushrinks_useq. intros d. apply Hs.
  - apply useq_settles.
    + intros arch. apply ushrinks_useq. intros d. apply Hs.
    + intros arch. apply useq_settles; intros d; [apply Hs | apply Ht].
Qed.

(** [Package.uninstall] (the [--uninstall] command for one package) only
    removes paths: whatever its outcome it writes no file and runs no
    build, and every path it leaves existed before. *)
Theorem package_uninstall_shrinks (architectures : list string) (p : Package)
  (build_deps : list (list dep)) (basepath module : string) (versions : list string)
  (st st' : state) (o : unit + uexc) :
  package_uninstall architectures p build_deps basepath module versions st = (o, st') ->
  incl (fs st') (fs st) /\ files st' = files st /\ runs st' = runs st.
Proof.
  unfold package_uninstall. cbv zeta. apply ushrinks_useq.
  intros v. apply (uninstall_version_settles architectures p build_deps basepath module v).
Qed.

(** [Package.uninstall] after a normal return: running it again for the
    same versions changes nothing and returns normally, also in any later
    state that has no path the first run left missing. *)
Theorem package_uninstall_rerun (architectures : list string) (p : Package)
  (build_deps : list (list dep)) (basepath module : string) (versions : list string)
  (st st1 st2 : state) :
  package_uninstall architectures p build_deps basepath module versions st = (inl tt, st1) ->
  incl (fs st2) (fs st1) ->
  package_uninstall architectures p build_deps basepath module versions st2 = (inl tt, st2).
Proof.
  unfold package_uninstall. cbv zeta. apply useq_settles; intros v;
    apply (uninstall_version_settles architectures p build_deps basepath module v).
Qed.

Lemma package_uninstall_shrinks_witness :
  package_uninstall ["x86_64"] ex_zlib [] "/opt" "zlib" []
    (mkState ["/opt/x86_64/zlib/1.2"; "/opt/x86_64/zlib/1.2/lib";
              "/opt/x86_64/modulefiles/Core/zlib/1.2.lua";
              "/opt/x86_64/modulefiles/Core/zlib"] [] [])
  = (inl tt, mkState ["/opt/x86_64/modulefiles/Core/zlib"] [] []) /\
  (incl ["/opt/x86_64/modulefiles/Core/zlib"]
        ["/opt/x86_64/zlib/1.2"; "/opt/x86_64/zlib/1.2/lib";
         "/opt/x86_64/modulefiles/Core/zlib/1.2.lua"; "/opt/x86_64/modulefiles/Core/zlib"] /\
   @nil (string * list string) = [] /\ @nil shell_run = []).
Proof.
  assert (H : package_uninstall ["x86_64"] ex_zlib [] "/opt" "zlib" []
    (mkState ["/opt/x86_64/zlib/1.2"; "/opt/x86_64/zlib/1.2/lib";
              "/opt/x86_64/modulefiles/Core/zlib/1.2.lua";
              "/opt/x86_64/modulefiles/Core/zlib"] [] [])
    = (inl tt, mkState ["/opt/x86_64/modulefiles/Core/zlib"] [] [])) by (vm_compute; reflexivity).
  split; [exact H|].
  exact (package_uninstall_shrinks ["x86_64"] ex_zlib [] "/opt" "zlib" [] _ _ _ H).
Defined.

Lemma package_uninstall_rerun_witness :
  package_uninstall ["x86_64"] ex_zlib [] "/opt" "zlib" []
    (mkState ["/opt/x86_64/zlib/1.2"; "/opt/x86_64/zlib/1.2/lib";
              "/opt/x86_64/modulefiles/Core/zlib/1.2.lua";
              "/opt/x86_64/modulefiles/Core/zlib"] [] [])
  = (inl tt, mkState ["/opt/x86_64/modulefiles/Core/zlib"] [] []) /\
  incl (fs (mkState [] [("/etc/motd", [])] [])) (fs (mkState ["/opt/x86_64/modulefiles/Core/zlib"] [] [])) /\
  package_uninstall ["x86_64"] ex_zlib [] "/opt" "zlib" [] (mkState [] [("/etc/motd", [])] [])
  = (inl tt, mkState [] [("/etc/motd", [])] []).
Proof.
  assert (H1 : package_uninstall ["x86_64"] ex_zlib [] "/opt" "zlib" []
    (mkState ["/opt/x86_64/zlib/1.2"; "/opt/x86_64/zlib/1.2/lib";
              "/opt/x86_64/modulefiles/Core/zlib/1.2.lua";
              "/opt/x86_64/modulefiles/Core/zlib"] [] [])
    = (inl tt, mkState ["/opt/x86_64/modulefiles/Core/zlib"] [] [])) by (vm_compute; reflexivity).
  assert (H2 : incl (fs (mkState [] [("/etc/motd", [])] []))
                    (fs (mkState ["/opt/x86_64/modulefiles/Core/zlib"] [] [])))
    by (intros x []).
  split; [exact H1|]. split; [exact H2|].
  exact (package_uninstall_rerun ["x86_64"] ex_zlib [] "/opt" "zlib" [] _ _ _ H1 H2).
Defined.

(** *** The [--install] command: [install] *)

Lemma grows_mseq {A} (f : A -> M unit) (l : list A) :
  (forall x, grows (f x)) -> grows (mseq f l).
Proof.
  intros Hf. induction l as [|x l IH]; simpl; [apply grows_ret|].
  apply grows_bind; [apply Hf | intros _; exact IH].
Qed.

Lemma mseq_settles {A} (f g : A -> M unit) (l : list A) :
  (forall x, grows (f x)) -> (forall x, msettles (f x) (g x)) ->
  msettles (mseq f l) (mseq g l).
Proof.
  intros Hg Hf. induction l as [|x l IH]; intros st st1 st2 H Hincl; simpl in *.
  - reflexivity.
  - apply bind_ok in H. destruct H as ([] & s1 & Hx & H).
    pose proof (grows_mseq f l Hg _ _ _ H) as Hl.
    rewrite (bind_ok_step _ _ _ _ _ (Hf x st s1 st2 Hx (fun y Hy => Hincl y (Hl y Hy)))).
    exact (IH s1 st1 st2 H Hincl).
Qed.

(** The top-level [install] (the [--install] command) after a normal
    return: running the same command again changes nothing and returns
    normally, whatever the process environment, in any later state that
    keeps every path (for a build shell that never removes paths and
    creates [PACKAGE_PREFIX] when it succeeds). *)
Theorem install_cmd_rerun (cat : catalog) (package_path : string)
  (host : source_host)
  (run_shell : string -> dict string -> list string -> list string -> nat * list string)
  (script : string)
  (Hgrow : forall cwd env input paths, incl paths (snd (run_shell cwd env input paths)))
  (Hpre : forall cwd env input paths pre,
            dict_get "PACKAGE_PREFIX" env = Some pre ->
            fst (run_shell cwd env input paths) = 0 ->
            In pre (snd (run_shell cwd env input paths)))
  (fuel : nat) (architectures : list string) (basepath targets arch : string)
  (environ environ' : dict string) (m m' : M unit) (st st1 st2 : state) :
  install_cmd cat package_path host run_shell script fuel architectures basepath
    targets arch environ = Some m ->
  install_cmd cat package_path host run_shell script fuel architectures basepath
    targets arch environ' = Some m' ->
  m st = (Ok tt, st1) ->
  incl (fs st1) (fs st2) ->
  m' st2 = (Ok tt, st2).
Proof.
  intros Hm Hm'.
  enough (E : msettles m m') by (intros H Hi; exact (E st st1 st2 H Hi)).
  assert (Hg : forall p basepath arch versions environ,
            grows (package_install cat package_path host run_shell script fuel p
                     basepath arch versions environ)).
  { intros. apply grows_install_seq. exact Hgrow. }
  assert (Hs : forall p basepath arch versions e e',
            msettles
              (package_install cat package_path host run_shell script fuel p basepath
                 arch versions e)
              (package_install cat package_path host run_shell script fuel p basepath
                 arch versions e')).
  { intros p0 b0 a0 vs0 e e' s s1 s2 H1 H2. unfold package_install in H1 |- *.
    cbv zeta in H1 |- *.
    exact (install_seq_again cat package_path host run_shell Hgrow Hpre fuel p0
             b0 a0 _ _ _ s s1 s2 H1 H2). }
  unfold install_cmd in Hm, Hm'.
  destruct (select_archs architectures arch) as [archs|]; [|discriminate Hm].
  destruct (String.eqb targets "all").
  - injection Hm as <-. injection Hm' as <-.
    apply mseq_settles.
    + intros a. apply grows_mseq. intros mb. apply grows_mseq. intros np. apply Hg.
    + intros a. apply mseq_settles.
      * intros mb. apply grows_mseq. intros np. apply Hg.
      * intros mb. apply mseq_settles; intros np; [apply Hg | apply Hs].
  - destruct (find_package cat targets) as [[[md pk] v]|].
    + injection Hm as <-. injection Hm' as <-.
      apply mseq_settles; intros a; [apply Hg | apply Hs].
    + injection Hm as <-. intros s s1 s2 H0. discriminate H0.
Qed.

Lemma install_cmd_rerun_witness :
  install_cmd ex_catalog "/pk" ex_host ex_shell "/src/build.py" 5 ["x86_64"]
    "/opt/apps" "app" "all" []
  = Some (mseq (fun a => package_install ex_catalog "/pk" ex_host ex_shell
                   "/src/build.py" 5 ex_app "/opt/apps" a [] []) ["x86_64"]) /\
  install_cmd ex_catalog "/pk" ex_host ex_shell "/src/build.py" 5 ["x86_64"]
    "/opt/apps" "app" "all" [("HOME", "/root")]
  = Some (mseq (fun a => package_install ex_catalog "/pk" ex_host ex_shell
                   "/src/build.py" 5 ex_app "/opt/apps" a [] [("HOME", "/root")]) ["x86_64"]) /\
  mseq (fun a => package_install ex_catalog "/pk" ex_host ex_shell
                   "/src/build.py" 5 ex_app "/opt/apps" a [] []) ["x86_64"] ex_state
  = (Ok tt, snd (mseq (fun a => package_install ex_catalog "/pk" ex_host ex_shell
                   "/src/build.py" 5 ex_app "/opt/apps" a [] []) ["x86_64"] ex_state)) /\
  incl (fs (snd (mseq (fun a => package_install ex_catalog "/pk" ex_host ex_shell
                   "/src/build.py" 5 ex_app "/opt/apps" a [] []) ["x86_64"] ex_state)))
       (fs (snd (mseq (fun a => package_install ex_catalog "/pk" ex_host ex_shell
                   "/src/build.py" 5 ex_app "/opt/apps" a [] []) ["x86_64"] ex_state))) /\
  mseq (fun a => package_install ex_catalog "/pk" ex_host ex_shell
                   "/src/build.py" 5 ex_app "/opt/apps" a [] [("HOME", "/root")]) ["x86_64"]
    (snd (mseq (fun a => package_install ex_catalog "/pk" ex_host ex_shell
                   "/src/build.py" 5 ex_app "/opt/apps" a [] []) ["x86_64"] ex_state))
  = (Ok tt, snd (mseq (fun a => package_install ex_catalog "/pk" ex_host ex_shell
                   "/src/build.py" 5 ex_app "/opt/apps" a [] []) ["x86_64"] ex_state)).
Proof.
  assert (H1 : install_cmd ex_catalog "/pk" ex_host ex_shell "/src/build.py" 5
                 ["x86_64"] "/opt/apps" "app" "all" []
    = Some (mseq (fun a => package_install ex_catalog "/pk" ex_host ex_shell
                   "/src/build.py" 5 ex_app "/opt/apps" a [] []) ["x86_64"]))
    by reflexivity.
  assert (H2 : install_cmd ex_catalog "/pk" ex_host ex_shell "/src/build.py" 5
                 ["x86_64"] "/opt/apps" "app" "all" [("HOME", "/root")]
    = Some (mseq (fun a => package_install ex_catalog "/pk" ex_host ex_shell
                   "/src/build.py" 5 ex_app "/opt/apps" a [] [("HOME", "/root")]) ["x86_64"]))
    by reflexivity.
  assert (H3 : mseq (fun a => package_install ex_catalog "/pk" ex_host ex_shell
                   "/src/build.py" 5 ex_app "/opt/apps" a [] []) ["x86_64"] ex_state
    = (Ok tt, snd (mseq (fun a => package_install ex_catalog "/pk" ex_host ex_shell
                   "/src/build.py" 5 ex_app "/opt/apps" a [] []) ["x86_64"] ex_state)))
    by (vm_compute; reflexivity).
  assert (H4 : incl (fs (snd (mseq (fun a => package_install ex_catalog "/pk" ex_host
                   ex_shell "/src/build.py" 5 ex_app "/opt/apps" a [] []) ["x86_64"] ex_state)))
       (fs (snd (mseq (fun a => package_install ex_catalog "/pk" ex_host ex_shell
                   "/src/build.py" 5 ex_app "/opt/apps" a [] []) ["x86_64"] ex_state))))
    by (intros x Hx; exact Hx).
  split; [exact H1|]. split; [exact H2|]. split; [exact H3|]. split; [exact H4|].
  exact (install_cmd_rerun ex_catalog "/pk" ex_host ex_shell "/src/build.py"
           ex_shell_grows ex_shell_prefix 5 ["x86_64"] "/opt/apps" "app" "all" []
           [("HOME", "/root")] _ _ ex_state _ _ H1 H2 H3 H4).
Defined.
